(** * Expense tracker: the data reconciliation and aggregation layer

    A shallow embedding of the React client's core ([App], [ExpenseForm],
    [ExpenseRow]): the record normalizer, the ordering policy, the filter
    engine, the aggregator and the reconciliation controller, followed by the
    properties of the specification that concern them.

    JavaScript values are dynamically typed, so the embedding works over a
    small universe of JSON values with ECMAScript's coercions written out
    (truthiness, [||], [Number], [new Date], [===]).  Numbers are IEEE 754
    binary64 values ([spec_float]); strings are sequences of one-byte code
    units.  What ECMAScript leaves to the engine (parsing of numeric and date
    strings, the local time zone) is gathered in a [Host] record. *)

From Stdlib Require Import ZArith List String Ascii Bool Lia.
From Stdlib Require Import Sorting.Sorted Sorting.Permutation.
From Stdlib Require Import DecimalString.
From Stdlib Require Import SpecFloat.
Import ListNotations.

Open Scope string_scope.
Open Scope list_scope.
Open Scope Z_scope.

(** ** Numbers *)

Module Num.

Definition number : Type := spec_float.

Definition nan : number := S754_nan.
Definition zero : number := S754_zero false.
Definition negzero : number := S754_zero true.
Definition infinity : number := S754_infinity false.

(** The binary64 value nearest to an integer. *)
Definition ofZ (z : Z) : number := binary_normalize 53 1024 z 0 false.

Definition isNaN (x : number) : bool :=
  match x with S754_nan => true | _ => false end.

Definition isZero (x : number) : bool :=
  match x with S754_zero _ => true | _ => false end.

Definition isFinite (x : number) : bool :=
  match x with
  | S754_zero _ | S754_finite _ _ _ => true
  | S754_infinity _ | S754_nan => false
  end.

Definition add : number -> number -> number := SFadd 53 1024.
Definition leb : number -> number -> bool := SFleb.
Definition ltb : number -> number -> bool := SFltb.
Definition eqb : number -> number -> bool := SFeqb.

(** "A finite number greater than or equal to zero". *)
Definition finiteNonneg (x : number) : bool := isFinite x && leb zero x.

(** ToIntegerOrInfinity on a finite value: truncation towards zero. *)
Definition truncate (x : number) : option Z :=
  match x with
  | S754_zero _ => Some 0
  | S754_finite s m e =>
      let a := match e with
               | Zneg p => Z.shiftr (Zpos m) (Zpos p)
               | _ => Z.shiftl (Zpos m) e
               end in
      Some (if s then - a else a)
  | S754_infinity _ | S754_nan => None
  end.

End Num.

(** ** Strings *)

Module Str.

Definition isSpace (c : ascii) : bool :=
  let n := nat_of_ascii c in
  ((9 <=? n) && (n <=? 13) || (n =? 32) || (n =? 160))%nat.

Definition lowerChar (c : ascii) : ascii :=
  let n := nat_of_ascii c in
  if ((65 <=? n) && (n <=? 90)
      || (192 <=? n) && (n <=? 222) && negb (n =? 215))%nat
  then ascii_of_nat (n + 32) else c.

(** [s.toLowerCase()] *)
Fixpoint toLowerCase (s : string) : string :=
  match s with
  | EmptyString => EmptyString
  | String c s' => String (lowerChar c) (toLowerCase s')
  end.

Fixpoint trimStart (s : string) : string :=
  match s with
  | EmptyString => EmptyString
  | String c s' => if isSpace c then trimStart s' else s
  end.

Fixpoint trimEnd (s : string) : string :=
  match s with
  | EmptyString => EmptyString
  | String c s' =>
      match trimEnd s' with
      | EmptyString => if isSpace c then EmptyString else String c EmptyString
      | t => String c t
      end
  end.

(** [s.trim()] *)
Definition trim (s : string) : string := trimEnd (trimStart s).

(** [s.includes(q)] *)
Fixpoint includes (s q : string) : bool :=
  String.prefix q s ||
  match s with
  | EmptyString => false
  | String _ s' => includes s' q
  end.

(** [s.slice(0, n)] *)
Definition slice0 (n : nat) (s : string) : string := String.substring 0 n s.

(** [s.split('T')[0]]: the part of [s] before its first ['T']. *)
Fixpoint beforeT (s : string) : string :=
  match s with
  | EmptyString => EmptyString
  | String c s' => if Ascii.eqb c "T"%char then EmptyString else String c (beforeT s')
  end.

(** [s.padStart(2, '0')] *)
Definition padStart2 (s : string) : string :=
  match s with
  | String c EmptyString => String "0"%char s
  | EmptyString => "00"
  | _ => s
  end.

Definition isEmpty (s : string) : bool :=
  match s with EmptyString => true | _ => false end.

(** Decimal rendering of an integer, as [String(n)] gives for an integral
    number of moderate size. *)
Definition ofZ (z : Z) : string := NilZero.string_of_int (Z.to_int z).

End Str.

(** ** JSON values and ECMAScript coercions *)

#[local] Set Warnings "-register-all".

Inductive value : Type :=
| VUndef
| VNull
| VBool (b : bool)
| VNum (x : Num.number)
| VStr (s : string)
| VArr (items : list value)
| VObj (fields : list (string * value)).

Fixpoint lookup (k : string) (fields : list (string * value)) : value :=
  match fields with
  | [] => VUndef
  | (k', v) :: rest => if String.eqb k k' then v else lookup k rest
  end.

(** Property read [o.k].  An absent property reads as [undefined]; so does any
    property of the program's field names on a primitive.  Reading from
    [null] or [undefined] would throw: every read in the program is guarded by
    a truthiness test of the object, which the embedding keeps. *)
Definition get (o : value) (k : string) : value :=
  match o with
  | VObj fields => lookup k fields
  | _ => VUndef
  end.

(** ToBoolean *)
Definition truthy (v : value) : bool :=
  match v with
  | VUndef | VNull => false
  | VBool b => b
  | VNum x => negb (Num.isNaN x || Num.isZero x)
  | VStr s => negb (Str.isEmpty s)
  | VArr _ | VObj _ => true
  end.

(** [a || b] *)
Definition jsOr (a b : value) : value := if truthy a then a else b.

(** [typeof v === 'object'] *)
Definition typeofObject (v : value) : bool :=
  match v with
  | VNull | VArr _ | VObj _ => true
  | _ => false
  end.

(** [a === b].  Objects and arrays are compared by reference in JavaScript;
    the embedding has no reference identity and takes two of them to be
    distinct, which is what the code finds of two objects parsed from two
    replies, and not what it finds of an object compared with itself.  What
    is said below of the records an update or a delete matches is said of
    identifiers that are primitive values. *)
Definition strictEq (a b : value) : bool :=
  match a, b with
  | VUndef, VUndef | VNull, VNull => true
  | VBool x, VBool y => Bool.eqb x y
  | VNum x, VNum y => Num.eqb x y
  | VStr x, VStr y => String.eqb x y
  | _, _ => false
  end.

(** What the engine decides. *)
Record Host : Type := {
  (** StringToNumber: the numeric value of a string, [nan] when it has none *)
  StringToNumber : string -> Num.number;
  (** ToPrimitive with hint string, on an object or an array *)
  ObjectToString : value -> string;
  (** [Date.parse]: milliseconds since the epoch, [None] for [NaN] *)
  DateParse : string -> option Z;
  (** LocalTZA: the offset of local time from UTC, in ms, at a UTC instant *)
  LocalTZA : Z -> Z
}.

Section Coercions.

Variable host : Host.

(** [Number(v)] *)
Definition Number (v : value) : Num.number :=
  match v with
  | VUndef => Num.nan
  | VNull => Num.zero
  | VBool b => if b then Num.ofZ 1 else Num.zero
  | VNum x => x
  | VStr s => StringToNumber host s
  | VArr _ | VObj _ => StringToNumber host (ObjectToString host v)
  end.

(** TimeClip *)
Definition TimeClip (x : Num.number) : option Z :=
  match Num.truncate x with
  | Some t => if Z.abs t <=? 8640000000000000 then Some t else None
  | None => None
  end.

(** The time value of [new Date(v)]; [None] stands for an invalid date. *)
Definition newDate (v : value) : option Z :=
  match v with
  | VStr s => DateParse host s
  | VArr _ | VObj _ => DateParse host (ObjectToString host v)
  | _ => TimeClip (Number v)
  end.

End Coercions.

(** ** Calendar dates

    A time value is a number of milliseconds since 1970-01-01T00:00Z.  The
    getters of [Date] read the local civil date of the instant. *)

Module DateTime.

Definition msPerDay : Z := 86400000.

(** The civil date (year, month 1..12, day 1..31) of a day number counted
    from 1970-01-01, in the proleptic Gregorian calendar. *)
Definition civilFromDays (z : Z) : Z * Z * Z :=
  let z := z + 719468 in
  let era := z / 146097 in
  let doe := z - era * 146097 in
  let yoe := (doe - doe / 1460 + doe / 36524 - doe / 146096) / 365 in
  let doy := doe - (365 * yoe + yoe / 4 - yoe / 100) in
  let mp := (5 * doy + 2) / 153 in
  let d := doy - (153 * mp + 2) / 5 + 1 in
  let m := if mp <? 10 then mp + 3 else mp - 9 in
  let y := yoe + era * 400 in
  (if m <=? 2 then y + 1 else y, m, d).

(** The day number of a civil date. *)
Definition daysFromCivil (y m d : Z) : Z :=
  let y := if m <=? 2 then y - 1 else y in
  let era := y / 400 in
  let yoe := y - era * 400 in
  let doy := (153 * (if 2 <? m then m - 3 else m + 9) + 2) / 5 + d - 1 in
  let doe := yoe * 365 + yoe / 4 - yoe / 100 + doy in
  era * 146097 + doe - 719468.

Definition yearOf (c : Z * Z * Z) : Z := fst (fst c).
Definition monthOf (c : Z * Z * Z) : Z := snd (fst c).
Definition dayOf (c : Z * Z * Z) : Z := snd c.

Fixpoint zeros (n : nat) : string :=
  match n with
  | O => EmptyString
  | S n' => String "0" (zeros n')
  end.

(** The decimal digits of [z >= 0], padded with zeros to [width]. *)
Definition pad (width : nat) (z : Z) : string :=
  let s := Str.ofZ z in
  String.append (zeros (width - String.length s)) s.

(** [d.toISOString()] of a valid date: [YYYY-MM-DDTHH:mm:ss.sssZ] in UTC,
    with a signed year of six digits outside 0..9999. *)
Definition toISOString (t : Z) : string :=
  let '(y, m, d) := civilFromDays (t / msPerDay) in
  let r := t mod msPerDay in
  let year :=
    if (0 <=? y) && (y <=? 9999) then pad 4 y
    else String (if y <? 0 then "-"%char else "+"%char) (pad 6 (Z.abs y)) in
  (year ++ "-" ++ pad 2 m ++ "-" ++ pad 2 d ++ "T" ++ pad 2 (r / 3600000) ++ ":"
   ++ pad 2 (r / 60000 mod 60) ++ ":" ++ pad 2 (r / 1000 mod 60) ++ "."
   ++ pad 3 (r mod 1000) ++ "Z")%string.

End DateTime.

Section DateGetters.

Variable host : Host.

Definition localCivil (t : Z) : Z * Z * Z :=
  DateTime.civilFromDays ((t + LocalTZA host t) / DateTime.msPerDay).

(** [d.getFullYear()]; [None] is [NaN]. *)
Definition getFullYear (d : option Z) : option Z :=
  option_map (fun t => DateTime.yearOf (localCivil t)) d.

(** [d.getMonth()], from 0; [None] is [NaN]. *)
Definition getMonth (d : option Z) : option Z :=
  option_map (fun t => DateTime.monthOf (localCivil t) - 1) d.

(** [String(n)] of an integral number or of [NaN]. *)
Definition showInt (n : option Z) : string :=
  match n with
  | Some z => Str.ofZ z
  | None => "NaN"
  end.

(** The month key that [filteredExpenses] and [availableMonths] build from a
    record's date:
<<
    const d = new Date(e.date)
    const year = d.getFullYear()
    const month = String(d.getMonth() + 1).padStart(2, '0')
    const monthKey = `${year}-${month}`
>> *)
Definition monthKey (dateField : value) : string :=
  let d := newDate host dateField in
  let year := getFullYear d in
  let month := Str.padStart2 (showInt (option_map (fun m => m + 1) (getMonth d))) in
  String.append (showInt year) (String.append "-" month).

End DateGetters.

(** ** Exceptions *)

Inductive exn (A : Type) : Type :=
| Ok (a : A)
| Throw (message : string).

Arguments Ok {A} a.
Arguments Throw {A} message.

Definition bind {A B : Type} (m : exn A) (k : A -> exn B) : exn B :=
  match m with
  | Ok a => k a
  | Throw msg => Throw msg
  end.

Notation "x <- m ;; k" := (bind m (fun x => k))
  (at level 61, m at next level, right associativity).

(** [l.map(f)] with a callback that may throw. *)
Fixpoint mapM {A B : Type} (f : A -> exn B) (l : list A) : exn (list B) :=
  match l with
  | [] => Ok []
  | x :: l' => y <- f x ;; ys <- mapM f l' ;; Ok (y :: ys)
  end.

(** [l.filter(f)] with a callback that may throw. *)
Fixpoint filterM {A : Type} (f : A -> exn bool) (l : list A) : exn (list A) :=
  match l with
  | [] => Ok []
  | x :: l' => b <- f x ;; ys <- filterM f l' ;; Ok (if b then x :: ys else ys)
  end.

(** ** The canonical expense record *)

Record Expense : Type := mkExpense {
  id : value;
  title : value;
  category : value;
  amount : value;
  date : value;
  timestamp : value;
  note : value
}.

(** A canonical record seen as a JavaScript object again. *)
Definition toObject (e : Expense) : value :=
  VObj [("id", id e); ("title", title e); ("category", category e);
        ("amount", amount e); ("date", date e); ("timestamp", timestamp e);
        ("note", note e)].

(** ** Array.prototype.sort

    [SortCompare] reads a comparator result that is [NaN] as [+0].  The sort
    is stable; it is embedded as a stable insertion sort, which yields the
    result every conforming engine gives when the comparator is consistent.
    For an inconsistent comparator ECMAScript leaves the order to the engine:
    with the comparator of this program that is the case as soon as a
    timestamp is no date, and the order the embedding gives then is one
    rearrangement among those an engine may give, not the engine's.  The
    properties of the order after a sort are stated below for collections
    whose timestamps are all valid dates. *)

Section Sort.

Context {A : Type}.
Variable comparefn : A -> A -> option Z.

Definition SortCompare (x y : A) : Z :=
  match comparefn x y with
  | Some v => v
  | None => 0
  end.

Fixpoint insert (x : A) (l : list A) : list A :=
  match l with
  | [] => [x]
  | y :: l' => if SortCompare x y <=? 0 then x :: l else y :: insert x l'
  end.

Fixpoint sort (l : list A) : list A :=
  match l with
  | [] => []
  | x :: l' => insert x (sort l')
  end.

End Sort.

(** A comparator that is the difference of a key on the elements of [l], and
    the order by descending key. *)
Definition keyed {A : Type} (comparefn : A -> A -> option Z) (key : A -> Z)
    (l : list A) : Prop :=
  forall x y, In x l -> In y l -> comparefn x y = Some (key y - key x).

Definition keyGe {A : Type} (key : A -> Z) (x y : A) : Prop := key y <= key x.

(** ** Remote calls

    A handler awaits the reply of the remote service.  A rejected call throws
    into the handler's [catch]; the text carried is what
    [err.response?.data || err.message] renders to. *)

Inductive reply : Type :=
| Resolved (data : value)
| Rejected (detail : string).

Definition await (r : reply) : exn value :=
  match r with
  | Resolved data => Ok data
  | Rejected detail => Throw detail
  end.

(** [v.split('T')[0]]: only a string has the method.  The text carried by the
    exception stands for the message of the engine's TypeError, whose wording
    is the engine's own; nothing below depends on it. *)
Definition splitT0 (v : value) : exn value :=
  match v with
  | VStr s => Ok (VStr (Str.beforeT s))
  | _ => Throw "expenseDate.split is not a function"
  end.

Section App.

Variable host : Host.

(** ** Record normalizer and ordering policy (fetchExpenses) *)

(** The filter callback of the listing: [expense => expense && expense.id]. *)
Definition admitted (expense : value) : bool :=
  truthy expense && truthy (get expense "id").

(** The map callback of the listing.  [now] is the instant [new Date()]
    reads. *)
Definition normalize (now : Z) (expense : value) : exn Expense :=
  d <- (if truthy (get expense "expenseDate")
        then splitT0 (get expense "expenseDate")
        else Ok (VStr (Str.slice0 10 (DateTime.toISOString now)))) ;;
  Ok {| id := get expense "id";
        title := jsOr (get expense "title") (VStr "Untitled");
        category := jsOr (get expense "category") (VStr "General");
        amount := jsOr (VNum (Number host (get expense "amount"))) (VNum Num.zero);
        date := d;
        timestamp := jsOr (get expense "timestamp")
                       (jsOr (get expense "timeStamp")
                          (jsOr (get expense "expenseDate") (VStr (DateTime.toISOString now))));
        note := jsOr (get expense "note") (VStr EmptyString) |}.

(** The comparator [(a, b) => new Date(b.timestamp) - new Date(a.timestamp)];
    [None] is [NaN]. *)
Definition byTimestampDesc (a b : Expense) : option Z :=
  match newDate host (timestamp b), newDate host (timestamp a) with
  | Some tb, Some ta => Some (tb - ta)
  | _, _ => None
  end.

(** [response.data.filter(...).map(...).sort(...)] *)
Definition mappedExpenses (now : Z) (data : value) : exn (list Expense) :=
  match data with
  | VArr raws =>
      l <- mapM (normalize now) (filter admitted raws) ;;
      Ok (sort byTimestampDesc l)
  | _ => Throw "response.data.filter is not a function"
  end.

(** ** Filter engine (filteredExpenses) *)

(** The month callback. *)
Definition inMonth (selectedMonth : string) (e : Expense) : bool :=
  if negb (truthy (date e)) then false
  else String.eqb (monthKey host (date e)) selectedMonth.

(** [v.toLowerCase().includes(q)]: only a string has the method. *)
Definition lowerIncludes (v : value) (q : string) : exn bool :=
  match v with
  | VStr s => Ok (Str.includes (Str.toLowerCase s) q)
  | _ => Throw "toLowerCase is not a function"
  end.

(** The search callback. *)
Definition matchesQuery (q : string) (e : Expense) : exn bool :=
  t <- lowerIncludes (title e) q ;;
  if t then Ok true else
  c <- lowerIncludes (category e) q ;;
  if c then Ok true else lowerIncludes (note e) q.

Definition filteredExpenses (filter_ selectedMonth : string)
    (expenses : list Expense) : exn (list Expense) :=
  let q := Str.toLowerCase (Str.trim filter_) in
  let filtered := expenses in
  let filtered :=
    if negb (Str.isEmpty selectedMonth)
    then filter (inMonth selectedMonth) filtered
    else filtered in
  if negb (Str.isEmpty q)
  then filterM (matchesQuery q) filtered
  else Ok filtered.

(** ** Aggregator (total, categoryAgg) *)

(** [Number(e.amount || 0)] *)
Definition amountOf (e : Expense) : Num.number :=
  Number host (jsOr (amount e) (VNum Num.zero)).

Definition total (filtered : list Expense) : Num.number :=
  fold_left (fun sum e => Num.add sum (amountOf e)) filtered Num.zero.

(** A [Map] with string keys: an association list in insertion order. *)
Definition Map : Type := list (string * Num.number).

Fixpoint mapGet (k : string) (m : Map) : option Num.number :=
  match m with
  | [] => None
  | (k', v) :: m' => if String.eqb k k' then Some v else mapGet k m'
  end.

(** [map.set(k, v)]: a present key keeps its place, a new key goes last. *)
Fixpoint mapSet (k : string) (v : Num.number) (m : Map) : Map :=
  match m with
  | [] => [(k, v)]
  | (k', v') :: m' =>
      if String.eqb k k' then (k', v) :: m' else (k', v') :: mapSet k v m'
  end.

(** [acc || 0] on a number: 0 in place of [NaN] and of a zero. *)
Definition or0 (acc : Num.number) : Num.number :=
  if truthy (VNum acc) then acc else Num.zero.

(** [map.get(key) || 0] *)
Definition getOr0 (k : string) (m : Map) : Num.number :=
  match mapGet k m with
  | Some x => or0 x
  | None => Num.zero
  end.

(** [(e.category || 'General').trim() || 'General'] *)
Definition categoryKey (e : Expense) : exn string :=
  match jsOr (category e) (VStr "General") with
  | VStr s =>
      let t := Str.trim s in
      Ok (if Str.isEmpty t then "General" else t)
  | _ => Throw "trim is not a function"
  end.

(** The loop of [categoryAgg] over the records that remain. *)
Fixpoint categoryLoop (l : list Expense) (map : Map) : exn Map :=
  match l with
  | [] => Ok map
  | e :: l' =>
      key <- categoryKey e ;;
      categoryLoop l' (mapSet key (Num.add (getOr0 key map) (amountOf e)) map)
  end.

Record Series : Type := { labels : list string; data : list Num.number }.

Definition categoryAgg (filtered : list Expense) : exn Series :=
  map <- categoryLoop filtered [] ;;
  Ok {| labels := List.map fst map; data := List.map snd map |}.

End App.

(** ** Reconciliation controller *)

(** The state of [App] that the handlers write. [error] is [null] or a
    message. *)
Record State : Type := mkState {
  expenses : list Expense;
  error : option string;
  editingId : value;
  loading : bool
}.

(** [useState] initial values. *)
Definition initialState : State :=
  {| expenses := []; error := None; editingId := VNull; loading := true |}.

Section Controller.

Variable host : Host.

(** The effect run on mount. *)
Definition fetchExpenses (s : State) (listing : reply) (now : Z) : State :=
  match (response <- await listing ;; mappedExpenses host now response) with
  | Ok l =>
      {| expenses := l; error := None;
         editingId := editingId s; loading := false |}
  | Throw _ =>
      {| expenses := [];
         error := Some "Failed to load expenses. Please check if the backend is running.";
         editingId := editingId s; loading := false |}
  end.

(** The test of [handleAdd] on the reply of the create call:
    [data && typeof data === 'object' && (data.id || data.expenseId)]. *)
Definition hasExpenseData (data : value) : bool :=
  truthy data && typeofObject data &&
  truthy (jsOr (get data "id") (get data "expenseId")).

(** The record [handleAdd] builds from a reply that carries the expense. *)
Definition mappedFromCreate (now : Z) (newExpense data : value) : exn Expense :=
  d <- (if truthy (get data "expenseDate")
        then splitT0 (get data "expenseDate")
        else Ok (get newExpense "date")) ;;
  Ok {| id := jsOr (get data "id") (get data "expenseId");
        title := jsOr (get data "title") (get newExpense "title");
        category := jsOr (get data "category") (get newExpense "category");
        amount := jsOr (VNum (Number host (get data "amount"))) (get newExpense "amount");
        date := d;
        timestamp := jsOr (get data "timestamp")
                       (jsOr (get data "timeStamp") (VStr (DateTime.toISOString now)));
        note := jsOr (get data "note") (get newExpense "note") |}.

(** The [try] block of [handleAdd]: the update it passes to [setExpenses], or
    the exception it throws.  [created] is the reply to [addExpense],
    [listing] the reply to the [getAllExpenses] of the refetch branch. *)
Definition tryAdd (newExpense : value) (created listing : reply) (now : Z)
    : exn (list Expense -> list Expense) :=
  response <- await created ;;
  if hasExpenseData response then
    mappedExpense <- mappedFromCreate now newExpense response ;;
    Ok (fun prev => sort (byTimestampDesc host) (mappedExpense :: prev))
  else
    allExpensesResponse <- await listing ;;
    l <- mappedExpenses host now allExpensesResponse ;;
    Ok (fun _ => l).

Definition handleAdd (s : State) (newExpense : value) (created listing : reply)
    (now : Z) : State :=
  match tryAdd newExpense created listing now with
  | Ok update =>
      {| expenses := update (expenses s); error := None;
         editingId := editingId s; loading := loading s |}
  | Throw _ =>
      {| expenses := expenses s;
         error := Some "Failed to add expense. Please try again.";
         editingId := editingId s; loading := loading s |}
  end.

(** The test of [handleUpdate] on the reply: only the name [id] counts. *)
Definition hasUpdatedData (data : value) : bool :=
  truthy data && typeofObject data && truthy (get data "id").

Definition mappedFromUpdate (now : Z) (id0 updated data : value) : exn Expense :=
  if hasUpdatedData data then
    d <- (if truthy (get data "expenseDate")
          then splitT0 (get data "expenseDate")
          else Ok (get updated "date")) ;;
    Ok {| id := get data "id";
          title := jsOr (get data "title") (get updated "title");
          category := jsOr (get data "category") (get updated "category");
          amount := jsOr (VNum (Number host (get data "amount"))) (get updated "amount");
          date := d;
          timestamp := jsOr (get data "timestamp")
                         (jsOr (get data "timeStamp")
                            (jsOr (get data "expenseDate") (VStr (DateTime.toISOString now))));
          note := jsOr (get data "note") (get updated "note") |}
  else
    Ok {| id := id0;
          title := get updated "title";
          category := get updated "category";
          amount := get updated "amount";
          date := get updated "date";
          timestamp := VStr (DateTime.toISOString now);
          note := get updated "note" |}.

Definition tryUpdate (id0 updated : value) (r : reply) (now : Z)
    : exn (list Expense -> list Expense) :=
  response <- await r ;;
  mappedExpense <- mappedFromUpdate now id0 updated response ;;
  Ok (fun prev =>
        sort (byTimestampDesc host)
          (map (fun e => if strictEq (id e) id0 then mappedExpense else e) prev)).

Definition handleUpdate (s : State) (id0 updated : value) (r : reply)
    (now : Z) : State :=
  match tryUpdate id0 updated r now with
  | Ok update =>
      {| expenses := update (expenses s); error := None;
         editingId := VNull; loading := loading s |}
  | Throw detail =>
      {| expenses := expenses s;
         error := Some (String.append "Failed to update expense: " detail);
         editingId := editingId s; loading := loading s |}
  end.

Definition handleDelete (s : State) (id0 : value) (r : reply) : State :=
  match await r with
  | Ok _ =>
      {| expenses := filter (fun e => negb (strictEq (id e) id0)) (expenses s);
         error := None;
         editingId := editingId s; loading := loading s |}
  | Throw _ =>
      {| expenses := expenses s;
         error := Some "Failed to delete expense. Please try again.";
         editingId := editingId s; loading := loading s |}
  end.

(** ** The forms that call the controller *)

(** [ExpenseForm.handleSubmit]: the object passed to [onSubmit], or [None]
    when the submission is rejected. *)
Definition handleSubmit (title category amount date note : value) : option value :=
  let amt := Number host amount in
  if negb (truthy title) || Num.isNaN amt || Num.leb amt Num.zero then None
  else Some (VObj [("title", title);
                   ("category", jsOr category (VStr "General"));
                   ("amount", VNum amt);
                   ("date", date);
                   ("note", note)]).

(** [ExpenseRow.handleSave]: the object passed to [onSave], or [None]. *)
Definition handleSave (form : value) : option value :=
  let amt := Number host (get form "amount") in
  if negb (truthy (get form "title")) || Num.isNaN amt || Num.leb amt Num.zero
  then None
  else Some (VObj [("title", get form "title");
                   ("category", get form "category");
                   ("amount", VNum amt);
                   ("date", get form "date");
                   ("note", get form "note")]).

(** ** Operations on the collection

    The mount effect and the three user actions, each with the replies the
    remote service gives to the calls it makes and the instant it completes
    at. *)

Inductive Operation : Type :=
| Load (listing : reply) (now : Z)
| Create (title category amount date note : value)
         (created listing : reply) (now : Z)
| Update (id0 form : value) (r : reply) (now : Z)
| Delete (id0 : value) (r : reply).

Definition step (s : State) (op : Operation) : State :=
  match op with
  | Load listing now => fetchExpenses s listing now
  | Create t c a d n created listing now =>
      match handleSubmit t c a d n with
      | Some newExpense => handleAdd s newExpense created listing now
      | None => s
      end
  | Update id0 form r now =>
      match handleSave form with
      | Some updates => handleUpdate s id0 updates r now
      | None => s
      end
  | Delete id0 r => handleDelete s id0 r
  end.

(** The states after each operation of a sequence, in order. *)
Fixpoint trace (s : State) (ops : list Operation) : list State :=
  match ops with
  | [] => []
  | op :: ops' => step s op :: trace (step s op) ops'
  end.

End Controller.

(** ** An engine for the examples

    [engine offset] runs in a time zone at a constant [offset] minutes from
    UTC.  Its [Date.parse] accepts the ECMAScript date-time string format
    ([YYYY-MM-DD], [YYYY-MM-DDTHH:mm:ss.sssZ] and their shorter forms) and
    nothing else; its StringToNumber reads decimal literals (sign, digits,
    fraction, exponent) and [Infinity]; an object renders as a plain object
    does.  The examples stay within these forms. *)

Module Engine.

Definition digit (c : ascii) : option Z :=
  let n := Z.of_nat (nat_of_ascii c) in
  if (48 <=? n) && (n <=? 57) then Some (n - 48) else None.

(** The longest run of digits at the head of [s]: its value continued from
    [acc], its length continued from [n], and what follows it. *)
Fixpoint digits (s : string) (acc n : Z) : Z * Z * string :=
  match s with
  | EmptyString => (acc, n, s)
  | String c s' =>
      match digit c with
      | Some d => digits s' (10 * acc + d) (n + 1)
      | None => (acc, n, s)
      end
  end.

(** Exactly [k] digits at the head of [s]. *)
Fixpoint fixedDigits (k : nat) (s : string) (acc : Z) : option (Z * string) :=
  match k with
  | O => Some (acc, s)
  | S k' =>
      match s with
      | EmptyString => None
      | String c s' =>
          match digit c with
          | Some d => fixedDigits k' s' (10 * acc + d)
          | None => None
          end
      end
  end.

Definition expect (c : ascii) (s : string) : option string :=
  match s with
  | String c' s' => if Ascii.eqb c c' then Some s' else None
  | EmptyString => None
  end.

Definition validCivil (y m d : Z) : bool :=
  let '(y', m', d') := DateTime.civilFromDays (DateTime.daysFromCivil y m d) in
  (1 <=? m) && (m <=? 12) && (1 <=? d) && (y' =? y) && (m' =? m) && (d' =? d).

(** The date part: [YYYY], [YYYY-MM] or [YYYY-MM-DD]. *)
Definition datePart (s : string) : option (Z * Z * Z * string) :=
  match fixedDigits 4 s 0 with
  | None => None
  | Some (y, r) =>
      match expect "-" r with
      | None => Some (y, 1, 1, r)
      | Some r =>
          match fixedDigits 2 r 0 with
          | None => None
          | Some (m, r) =>
              match expect "-" r with
              | None => Some (y, m, 1, r)
              | Some r =>
                  match fixedDigits 2 r 0 with
                  | None => None
                  | Some (d, r) => Some (y, m, d, r)
                  end
              end
          end
      end
  end.

(** The time part after ['T']: [HH:mm], [HH:mm:ss] or [HH:mm:ss.sss], in
    milliseconds. *)
Definition timePart (s : string) : option (Z * string) :=
  match fixedDigits 2 s 0 with
  | None => None
  | Some (h, r) =>
      match expect ":" r with
      | None => None
      | Some r =>
          match fixedDigits 2 r 0 with
          | None => None
          | Some (mi, r) =>
              if (h <=? 23) && (mi <=? 59) then
                match expect ":" r with
                | None => Some (h * 3600000 + mi * 60000, r)
                | Some r =>
                    match fixedDigits 2 r 0 with
                    | None => None
                    | Some (sec, r) =>
                        if sec <=? 59 then
                          let t := h * 3600000 + mi * 60000 + sec * 1000 in
                          match expect "." r with
                          | None => Some (t, r)
                          | Some r =>
                              match fixedDigits 3 r 0 with
                              | None => None
                              | Some (ms, r) => Some (t + ms, r)
                              end
                          end
                        else None
                    end
                end
              else None
          end
      end
  end.

(** The offset suffix, in minutes east of UTC: [Z], [+HH:mm], [-HH:mm], or
    nothing, which means local time. *)
Definition zonePart (localOffset : Z) (s : string) : option Z :=
  match s with
  | EmptyString => Some localOffset
  | "Z" => Some 0
  | String sign r =>
      let sg := if Ascii.eqb sign "+" then Some 1
                else if Ascii.eqb sign "-" then Some (-1) else None in
      match sg, fixedDigits 2 r 0 with
      | Some sg, Some (h, r) =>
          match expect ":" r with
          | Some r =>
              match fixedDigits 2 r 0 with
              | Some (mi, EmptyString) =>
                  if (h <=? 23) && (mi <=? 59) then Some (sg * (h * 60 + mi)) else None
              | _ => None
              end
          | None => None
          end
      | _, _ => None
      end
  end.

Definition parseDate (localOffset : Z) (s : string) : option Z :=
  match datePart s with
  | None => None
  | Some (y, m, d, r) =>
      if validCivil y m d then
        let day := DateTime.daysFromCivil y m d * DateTime.msPerDay in
        match r with
        | EmptyString => Some day
        | String c r =>
            if Ascii.eqb c "T" then
              match timePart r with
              | None => None
              | Some (t, r) =>
                  match zonePart localOffset r with
                  | Some z => Some (day + t - z * 60000)
                  | None => None
                  end
              end
            else None
        end
      else None
  end.

(** The binary64 value nearest to [m * 10 ^ scale], for [m > 0]: exact when
    [scale >= 0]; otherwise the quotient is taken with enough extra bits and
    a sticky bit, so that rounding it equals rounding the exact value. *)
Definition decimal (negative : bool) (m scale : Z) : Num.number :=
  if m =? 0 then S754_zero negative
  else if 0 <=? scale then binary_normalize 53 1024
         ((if negative then -1 else 1) * (m * 10 ^ scale)) 0 false
  else
    let den := 10 ^ (- scale) in
    let s := 64 + Z.log2 den + 1 in
    let num := m * 2 ^ s in
    let q := num / den in
    let sticky := if num mod den =? 0 then 0 else 1 in
    binary_normalize 53 1024
      ((if negative then -1 else 1) * (2 * q + sticky)) (- (s + 1)) false.

Definition unsignedLiteral (negative : bool) (s : string) : Num.number :=
  if String.eqb s "Infinity" then S754_infinity negative else
  let '(ip, n1, r) := digits s 0 0 in
  let '(m, n2, r) :=
    match expect "." r with
    | Some r' => let '(m, n, r'') := digits r' ip 0 in (m, n, r'')
    | None => (ip, 0, r)
    end in
  if n1 + n2 =? 0 then Num.nan else
  match r with
  | EmptyString => decimal negative m (- n2)
  | String c r =>
      if Ascii.eqb c "e" || Ascii.eqb c "E" then
        let '(esign, r) :=
          match expect "-" r, expect "+" r with
          | Some r', _ => (-1, r')
          | None, Some r' => (1, r')
          | None, None => (1, r)
          end in
        match digits r 0 0 with
        | (e, n3, EmptyString) =>
            if n3 =? 0 then Num.nan else decimal negative m (esign * e - n2)
        | _ => Num.nan
        end
      else Num.nan
  end.

Definition stringToNumber (s : string) : Num.number :=
  match Str.trim s with
  | EmptyString => Num.zero
  | String c r as t =>
      if Ascii.eqb c "-" then unsignedLiteral true r
      else if Ascii.eqb c "+" then unsignedLiteral false r
      else unsignedLiteral false t
  end.

End Engine.

Definition engine (offsetMinutes : Z) : Host :=
  {| StringToNumber := Engine.stringToNumber;
     ObjectToString := fun _ => "[object Object]";
     DateParse := Engine.parseDate offsetMinutes;
     LocalTZA := fun _ => offsetMinutes * 60000 |}.

(** Two engines: one on UTC, one five hours west of it. *)
Definition utc : Host := engine 0.
Definition utcMinus5 : Host := engine (-300).

(** ** Predicates of the specification *)

Section Specification.

Variable host : Host.

(** The timestamp of a record is a valid instant: [new Date(e.timestamp)] is
    not an invalid date. *)
Definition validTime (e : Expense) : bool :=
  match newDate host (timestamp e) with
  | Some _ => true
  | None => false
  end.

Definition allValid (l : list Expense) : bool := forallb validTime l.

(** The timestamp of [a] is greater than or equal to that of [b], as instants
    (a comparison with [NaN] is false). *)
Definition timeGe (a b : Expense) : Prop :=
  match newDate host (timestamp a), newDate host (timestamp b) with
  | Some ta, Some tb => tb <= ta
  | _, _ => False
  end.

(** Descending-timestamp order: every record is [timeGe] every later one. *)
Definition Descending (l : list Expense) : Prop := StronglySorted timeGe l.

Definition timeOf (e : Expense) : Z :=
  match newDate host (timestamp e) with
  | Some t => t
  | None => 0
  end.

End Specification.

(** The amount of a record is a number other than [NaN]. *)
Definition amountIsNumber (e : Expense) : bool :=
  match amount e with
  | VNum x => negb (Num.isNaN x)
  | _ => false
  end.

(** The amount of a record is a finite number greater than or equal to
    zero. *)
Definition amountFiniteNonneg (e : Expense) : bool :=
  match amount e with
  | VNum x => Num.finiteNonneg x
  | _ => false
  end.

(** A record or a reply whose [expenseDate] is absent, falsy or a string: it
    is read without an exception. *)
Definition wellFormedDate (data : value) : Prop :=
  truthy (get data "expenseDate") = false
  \/ exists d, get data "expenseDate" = VStr d.

(** A canonical record whose category is falsy or a string: [categoryAgg]
    reads it without an exception. *)
Definition textCategory (e : Expense) : Prop :=
  truthy (category e) = false \/ exists s, category e = VStr s.

(** *** The category series, in the words of the specification *)

(** The distinct keys in the order of their first occurrence. *)
Fixpoint firstSeen (ks : list string) : list string :=
  match ks with
  | [] => []
  | k :: ks' => k :: filter (fun k' => negb (String.eqb k k')) (firstSeen ks')
  end.

(** The amounts of the group [k], in the order of the records. *)
Definition groupAmounts (k : string) (pairs : list (string * Num.number))
    : list Num.number :=
  map snd (filter (fun p => String.eqb k (fst p)) pairs).

(** The sum of a list of amounts, added from the left starting at 0. *)
Definition plainSum (xs : list Num.number) : Num.number :=
  fold_left Num.add xs Num.zero.

(** The same sum as [categoryAgg] accumulates it, through [(acc || 0) + x]. *)
Definition loopSumFrom (acc : Num.number) (xs : list Num.number) : Num.number :=
  fold_left (fun a x => Num.add (or0 a) x) xs acc.

Definition loopSum (xs : list Num.number) : Num.number :=
  loopSumFrom Num.zero xs.

(** [acc || 0] is [acc] itself unless [acc] is [NaN] or the negative zero. *)
Definition clean (a : Num.number) : bool :=
  match a with
  | S754_nan | S754_zero true => false
  | _ => true
  end.

(** No running sum of [xs], added from [acc], is [NaN] or the negative
    zero. *)
Fixpoint cleanRun (acc : Num.number) (xs : list Num.number) : bool :=
  match xs with
  | [] => true
  | x :: xs' => clean acc && cleanRun (Num.add acc x) xs'
  end.

(** One turn of the loop of [categoryAgg], on a key and an amount. *)
Definition accumulate (m : Map) (p : string * Num.number) : Map :=
  mapSet (fst p) (Num.add (getOr0 (fst p) m) (snd p)) m.

(** The value under a key, 0 when the key is absent. *)
Definition current (k : string) (m : Map) : Num.number :=
  match mapGet k m with
  | Some x => x
  | None => Num.zero
  end.

Definition mem (k : string) (ks : list string) : bool :=
  existsb (String.eqb k) ks.

(** A record with every field of [c] but the date. *)
Definition withDate (c : Expense) (d : value) : Expense :=
  {| id := id c; title := title c; category := category c;
     amount := amount c; date := d; timestamp := timestamp c;
     note := note c |}.

(** ** Sample data *)

Module Sample.

(** The instant the examples run at. *)
Definition now : Z := 1748779200000.

Definition num (z : Z) : value := VNum (Num.ofZ z).

Definition rent : value :=
  VObj [("id", num 1); ("title", VStr "Rent"); ("category", VStr "Bills");
        ("amount", num 900); ("expenseDate", VStr "2024-01-01");
        ("timestamp", VStr "2024-01-01T00:00:00.000Z"); ("note", VStr EmptyString)].

Definition lunch : value :=
  VObj [("id", num 2); ("title", VStr "Lunch"); ("category", VStr "Food");
        ("amount", num 12); ("expenseDate", VStr "2024-03-10T00:00:00");
        ("timestamp", VStr "n/a")].

Definition books : value :=
  VObj [("id", num 3); ("title", VStr "Books"); ("category", VStr "Education");
        ("amount", num 40); ("expenseDate", VStr "2024-06-01");
        ("timestamp", VStr "2024-06-01T00:00:00.000Z")].

(** A refund, booked by the service as a negative amount. *)
Definition refund : value :=
  VObj [("id", num 5); ("title", VStr "Refund"); ("category", VStr "Shopping");
        ("amount", num (-20)); ("expenseDate", VStr "2024-04-02");
        ("timestamp", VStr "2024-04-02T08:00:00.000Z")].

(** A record that names its identifier [expenseId], as the reply to a
    creation may. *)
Definition coffee : value :=
  VObj [("expenseId", num 7); ("title", VStr "Coffee"); ("category", VStr "Food");
        ("amount", num 3); ("expenseDate", VStr "2024-05-05");
        ("timestamp", VStr "2024-05-05T07:30:00.000Z")].

(** An expense of the first day of a month. *)
Definition gym : value :=
  VObj [("id", num 8); ("title", VStr "Gym"); ("category", VStr "Health");
        ("amount", num 30); ("expenseDate", VStr "2024-02-01");
        ("timestamp", VStr "2024-02-01T18:00:00.000Z")].

(** A reply to a creation that echoes the record with an empty note. *)
Definition taxiReply : value :=
  VObj [("id", num 9); ("title", VStr "Taxi"); ("category", VStr "Transport");
        ("amount", num 25); ("expenseDate", VStr "2025-06-01");
        ("timestamp", VStr "2025-06-01T11:59:59.000Z"); ("note", VStr EmptyString)].

(** A submission the creation form lets through. *)
Definition taxiForm : value :=
  VObj [("title", VStr "Taxi"); ("category", VStr "Transport");
        ("amount", num 25); ("date", VStr "2025-06-01");
        ("note", VStr "airport")].

(** The two records of the specification's example of the category
    series. *)
Definition food : Expense :=
  {| id := num 10; title := VStr "Dinner"; category := VStr "Food";
     amount := num 10; date := VStr "2024-03-01";
     timestamp := VStr "2024-03-01T20:00:00.000Z"; note := VStr EmptyString |}.

Definition blank : Expense :=
  {| id := num 11; title := VStr "Misc"; category := VStr EmptyString;
     amount := num 5; date := VStr "2024-03-02";
     timestamp := VStr "2024-03-02T20:00:00.000Z"; note := VStr EmptyString |}.

(** A canonical record with the given title and date. *)
Definition dated (n : Z) (t d : string) : Expense :=
  {| id := num n; title := VStr t; category := VStr "Food";
     amount := num 1; date := VStr d;
     timestamp := VStr (String.append d "T00:00:00.000Z"); note := VStr EmptyString |}.

(** A listing whose second record has a timestamp that is no date. *)
Definition listingWithBadTimestamp : value := VArr [rent; lunch; books].

Definition listing : value := VArr [rent; books].

(** A session: the load, a creation echoed by the service, an edit that the
    service acknowledges without a record, and a deletion. *)
Definition session : list Operation :=
  [ Load (Resolved listing) now;
    Create (VStr "Taxi") (VStr "Transport") (VStr "23.50") (VStr "2025-06-01")
           (VStr EmptyString)
           (Resolved (VObj [("expenseId", num 4); ("title", VStr "Taxi");
                            ("amount", VStr "23.50");
                            ("timeStamp", VStr "2025-06-01T11:59:58.000Z")]))
           (Rejected "unused") now;
    Update (num 1)
           (VObj [("id", num 1); ("title", VStr "Rent"); ("category", VStr "Bills");
                  ("amount", VStr "950"); ("date", VStr "2024-01-01");
                  ("timestamp", VStr "2024-01-01T00:00:00.000Z");
                  ("note", VStr "raised")])
           (Resolved (VStr "Expense updated")) (now + 300000);
    Delete (num 3) (Resolved (VStr "deleted")) ].

End Sample.

(** * The rest of the client

    The month selector, the daily series and the edit form of a row, with the
    predicates their properties are stated with. *)

(** ** Month selector (availableMonths) *)

(** [months.add(k)] on a [Set] of strings, kept in insertion order. *)
Definition setAdd (k : string) (months : list string) : list string :=
  if mem k months then months else months ++ [k].

(** The comparison [sort()] makes without a comparator, on strings: by code
    units. *)
Definition defaultCompare (a b : string) : option Z :=
  Some (match String.compare a b with
        | Lt => -1
        | Eq => 0
        | Gt => 1
        end).

Section MonthSelector.

Variable host : Host.

(** The loop of [availableMonths] over the records that remain. *)
Fixpoint monthsLoop (l : list Expense) (months : list string) : list string :=
  match l with
  | [] => months
  | e :: l' =>
      monthsLoop l'
        (if truthy (date e) then setAdd (monthKey host (date e)) months
         else months)
  end.

(** [Array.from(months).sort().reverse()] *)
Definition availableMonths (expenses : list Expense) : list string :=
  rev (sort defaultCompare (monthsLoop expenses [])).

End MonthSelector.

(** ** Daily series (byDateAgg)

    The keys of the [Map] are the dates of the records, values of any kind:
    [Map] compares keys by SameValueZero, [sort()] by their rendering as
    strings.  The rendering of a number is left to the engine. *)

(** SameValueZero.  As for [strictEq], two objects are taken to be
    distinct. *)
Definition sameValueZero (a b : value) : bool :=
  match a, b with
  | VNum x, VNum y => Num.eqb x y || Num.isNaN x && Num.isNaN y
  | _, _ => strictEq a b
  end.

Definition ValueMap : Type := list (value * Num.number).

Fixpoint valueMapGet (k : value) (m : ValueMap) : option Num.number :=
  match m with
  | [] => None
  | (k', v) :: m' => if sameValueZero k k' then Some v else valueMapGet k m'
  end.

Fixpoint valueMapSet (k : value) (v : Num.number) (m : ValueMap) : ValueMap :=
  match m with
  | [] => [(k, v)]
  | (k', v') :: m' =>
      if sameValueZero k k' then (k', v) :: m' else (k', v') :: valueMapSet k v m'
  end.

Record DailySeries : Type := { dayLabels : list value; dayData : list value }.

Section DailySeriesOf.

Variable host : Host.

(** Number::toString, the engine's rendering of a number. *)
Variable NumberToString : Num.number -> string.

(** ToString *)
Definition ToString (v : value) : string :=
  match v with
  | VUndef => "undefined"
  | VNull => "null"
  | VBool b => if b then "true" else "false"
  | VNum x => NumberToString x
  | VStr s => s
  | VArr _ | VObj _ => ObjectToString host v
  end.

(** [e.date || new Date().toISOString().slice(0, 10)] *)
Definition dateKey (now : Z) (e : Expense) : value :=
  jsOr (date e) (VStr (Str.slice0 10 (DateTime.toISOString now))).

(** The loop of [byDateAgg] over the records that remain. *)
Fixpoint dateLoop (now : Z) (l : list Expense) (map : ValueMap) : ValueMap :=
  match l with
  | [] => map
  | e :: l' =>
      let d := dateKey now e in
      let sofar := match valueMapGet d map with
                   | Some x => or0 x
                   | None => Num.zero
                   end in
      dateLoop now l' (valueMapSet d (Num.add sofar (amountOf host e)) map)
  end.

Definition byDateAgg (now : Z) (filtered : list Expense) : DailySeries :=
  let map := dateLoop now filtered [] in
  let labels :=
    sort (fun a b => defaultCompare (ToString a) (ToString b)) (List.map fst map) in
  {| dayLabels := labels;
     dayData := List.map (fun l => match valueMapGet l map with
                                   | Some x => VNum x
                                   | None => VUndef
                                   end) labels |}.

End DailySeriesOf.

(** ** The edit form of a row (ExpenseRow) *)

(** The own properties an object spread [{...v}] copies. *)
Fixpoint indexed (n : nat) (items : list value) : list (string * value) :=
  match items with
  | [] => []
  | x :: items' => (Str.ofZ (Z.of_nat n), x) :: indexed (S n) items'
  end.

Fixpoint chars (s : string) : list value :=
  match s with
  | EmptyString => []
  | String c s' => VStr (String c EmptyString) :: chars s'
  end.

Definition spread (v : value) : list (string * value) :=
  match v with
  | VObj fields => fields
  | VArr items => indexed 0 items
  | VStr s => indexed 0 (chars s)
  | _ => []
  end.

(** [{...fields, [k]: v}]: a present key keeps its place. *)
Fixpoint setField (k : string) (v : value) (fields : list (string * value))
    : list (string * value) :=
  match fields with
  | [] => [(k, v)]
  | (k', v') :: rest =>
      if String.eqb k k' then (k', v) :: rest else (k', v') :: setField k v rest
  end.

(** The form of a row when its record arrives: [setForm({ ...expense })]. *)
Definition rowForm (expense : Expense) : value := VObj (spread (toObject expense)).

(** [handleChange(field, value)]: [setForm(prev => ({ ...prev, [field]: value }))] *)
Definition handleChange (form : value) (field : string) (v : value) : value :=
  VObj (setField field v (spread form)).

(** ** Predicates of the properties *)

(** Greater than or equal to zero: a zero, a positive finite number or
    [+Infinity]. *)
Definition nonneg (x : Num.number) : bool :=
  match x with
  | S754_zero _ | S754_finite false _ _ | S754_infinity false => true
  | _ => false
  end.

(** A record whose title, category and note are strings: the search reads it
    without an exception. *)
Definition textual (e : Expense) : Prop :=
  (exists t, title e = VStr t) /\ (exists c, category e = VStr c)
  /\ (exists n, note e = VStr n).

(** The search test on the strings of a record. *)
Definition matchesText (q : string) (e : Expense) : bool :=
  match title e, category e, note e with
  | VStr t, VStr c, VStr n =>
      Str.includes (Str.toLowerCase t) q || Str.includes (Str.toLowerCase c) q
      || Str.includes (Str.toLowerCase n) q
  | _, _, _ => false
  end.

(** A record whose date is a string, or falsy. *)
Definition textDate (e : Expense) : Prop :=
  truthy (date e) = false \/ exists d, date e = VStr d.

(** The id, the title and the timestamp of a record are truthy. *)
Definition identified (e : Expense) : bool :=
  truthy (id e) && truthy (title e) && truthy (timestamp e).

(** The number of records with the identifier [id0]. *)
Definition countId (id0 : value) (l : list Expense) : nat :=
  List.length (filter (fun e => strictEq (id e) id0) l).

(** A character occurs in a string. *)
Fixpoint occurs (c : ascii) (s : string) : bool :=
  match s with
  | EmptyString => false
  | String c' s' => Ascii.eqb c c' || occurs c s'
  end.

(** The timestamp of a record reads as the instant [k]; [None] stands for an
    invalid date. *)
Definition sameInstant (host : Host) (k : option Z) (e : Expense) : bool :=
  match newDate host (timestamp e), k with
  | Some t, Some t' => t =? t'
  | None, None => true
  | _, _ => false
  end.

(** The record [handleUpdate] builds when the reply carries no record. *)
Definition synthesized (now : Z) (id0 updated : value) : Expense :=
  {| id := id0;
     title := get updated "title";
     category := get updated "category";
     amount := get updated "amount";
     date := get updated "date";
     timestamp := VStr (DateTime.toISOString now);
     note := get updated "note" |}.

(** Greater than or equal to zero and not the negative zero: what a sum that
    starts at 0 and adds amounts greater than or equal to zero stays. *)
Definition nonnegClean (x : Num.number) : bool := nonneg x && clean x.

(** The key of a record in the daily series, when its date is a string or
    falsy: the date, or the day of [now] in its place. *)
Definition dateText (now : Z) (e : Expense) : string :=
  match date e with
  | VStr (String c d) => String c d
  | _ => Str.slice0 10 (DateTime.toISOString now)
  end.

(** A [Map] with string keys seen as a [Map] with keys of any kind. *)
Definition liftMap (m : Map) : ValueMap :=
  List.map (fun p => (VStr (fst p), snd p)) m.

(** A record with every field of [c] but the timestamp. *)
Definition withTimestamp (c : Expense) (t : value) : Expense :=
  {| id := id c; title := title c; category := category c;
     amount := amount c; date := date c; timestamp := t; note := note c |}.

(** ** Primitive identifiers, unreadable dates and the canonical record *)

(** A value that is not an object: [===] compares two of them by what they
    are, as [strictEq] does. *)
Definition isPrimitive (v : value) : bool :=
  match v with
  | VArr _ | VObj _ => false
  | _ => true
  end.

(** A record or a reply whose [expenseDate] is truthy and not a string:
    reading it throws. *)
Definition badDate (data : value) : Prop :=
  truthy (get data "expenseDate") = true
  /\ forall d, get data "expenseDate" <> VStr d.

(** The canonical record of a raw record, in the words of the data model of
    the specification: the identifier as it is; the title, the category and
    the note defaulted when absent or empty; the amount coerced to a number,
    0 when it has none; the date portion of the occurrence date, the day of
    the ingest moment when there is none; for the timestamp the instant the
    service gives, then the occurrence date, then the ingest moment. *)
Definition canonical (host : Host) (now : Z) (raw : value) : Expense :=
  {| id := get raw "id";
     title := if truthy (get raw "title") then get raw "title"
              else VStr "Untitled";
     category := if truthy (get raw "category") then get raw "category"
                 else VStr "General";
     amount := (let n := Number host (get raw "amount") in
                if Num.isNaN n || Num.isZero n then VNum Num.zero else VNum n);
     date := match get raw "expenseDate" with
             | VStr (String c d) => VStr (Str.beforeT (String c d))
             | _ => VStr (Str.slice0 10 (DateTime.toISOString now))
             end;
     timestamp := if truthy (get raw "timestamp") then get raw "timestamp"
                  else if truthy (get raw "timeStamp") then get raw "timeStamp"
                  else if truthy (get raw "expenseDate")
                       then get raw "expenseDate"
                       else VStr (DateTime.toISOString now);
     note := if truthy (get raw "note") then get raw "note"
             else VStr EmptyString |}.

(** White space at the ends of a string. *)
Fixpoint allSpaces (s : string) : bool :=
  match s with
  | EmptyString => true
  | String c s' => Str.isSpace c && allSpaces s'
  end.

Definition startsWithSpace (s : string) : bool :=
  match s with
  | EmptyString => false
  | String c _ => Str.isSpace c
  end.

Fixpoint endsWithSpace (s : string) : bool :=
  match s with
  | EmptyString => false
  | String c EmptyString => Str.isSpace c
  | String _ s' => endsWithSpace s'
  end.

(** [key] names the group of a record of category [c], in the words of the
    specification: the category without the white space at its two ends, and
    "General" for a category that is absent, empty or white space only. *)
Definition groupOf (c : value) (key : string) : Prop :=
  match c with
  | VStr s =>
      (allSpaces s = true /\ key = "General")
      \/ (exists pre post,
            s = (pre ++ key ++ post)%string
            /\ allSpaces pre = true /\ allSpaces post = true
            /\ Str.isEmpty key = false
            /\ startsWithSpace key = false /\ endsWithSpace key = false)
  | _ => truthy c = false /\ key = "General"
  end.

(** ** Sample data for the edge cases *)

Module Edge.

(** A reply that carries the record, with the date as an array of year,
    month and day. *)
Definition arrayDated : value :=
  VObj [("id", Sample.num 6); ("title", VStr "Fuel");
        ("category", VStr "Transport"); ("amount", Sample.num 60);
        ("expenseDate", VArr [Sample.num 2024; Sample.num 6; Sample.num 1])].

Definition withAmount (n : Z) (a : Num.number) : Expense :=
  {| id := Sample.num n; title := VStr "Transfer"; category := VStr "Food";
     amount := VNum a; date := VStr "2024-03-01";
     timestamp := VStr "2024-03-01T20:00:00.000Z"; note := VStr EmptyString |}.

(** Three records of one category with the amounts [Infinity], [-Infinity]
    and 5. *)
Definition cancelling : list Expense :=
  [withAmount 21 (S754_infinity false); withAmount 22 (S754_infinity true);
   withAmount 23 (Num.ofZ 5)].

(** A record whose category is the number 7. *)
Definition numbered : Expense :=
  {| id := Sample.num 24; title := VStr "Misc"; category := Sample.num 7;
     amount := Sample.num 1; date := VStr "2024-03-01";
     timestamp := VStr "2024-03-01T20:00:00.000Z"; note := VStr EmptyString |}.

(** A record whose category is written with white space around it. *)
Definition padded : Expense :=
  {| id := Sample.num 25; title := VStr "Snack"; category := VStr "  Food ";
     amount := Sample.num 2; date := VStr "2024-03-03";
     timestamp := VStr "2024-03-03T20:00:00.000Z"; note := VStr EmptyString |}.

(** The state after the load of [Sample.listing]. *)
Definition loaded : State :=
  step utc initialState (Load (Resolved Sample.listing) Sample.now).

End Edge.
(** * Properties *)

(** ** The stable sort *)

Section SortFacts.

Context {A : Type}.
Variable comparefn : A -> A -> option Z.

Lemma insert_Permutation (x : A) (l : list A) :
  Permutation (x :: l) (insert comparefn x l).
Proof.
  induction l as [|y l IH]; simpl.
  - apply Permutation_refl.
  - destruct (SortCompare comparefn x y <=? 0).
    + apply Permutation_refl.
    + eapply perm_trans; [apply perm_swap|].
      apply perm_skip, IH.
Qed.

Lemma sort_Permutation (l : list A) : Permutation l (sort comparefn l).
Proof.
  induction l as [|x l IH]; simpl.
  - constructor.
  - eapply perm_trans; [apply perm_skip, IH|].
    apply insert_Permutation.
Qed.

Lemma sort_length (l : list A) :
  List.length (sort comparefn l) = List.length l.
Proof. symmetry. apply Permutation_length, sort_Permutation. Qed.

Lemma sort_In (x : A) (l : list A) : In x (sort comparefn l) <-> In x l.
Proof.
  split; intro H.
  - eapply Permutation_in; [apply Permutation_sym, sort_Permutation|exact H].
  - eapply Permutation_in; [apply sort_Permutation|exact H].
Qed.

(** When the comparator is the difference of a key, on every pair of
    elements of the list, the sort orders the list by descending key. *)
Variable key : A -> Z.

Lemma insert_sorted (x : A) (l : list A) :
  keyed comparefn key (x :: l) ->
  StronglySorted (keyGe key) l -> StronglySorted (keyGe key) (insert comparefn x l).
Proof.
  intros Hk Hs. induction Hs as [|y l Hs IH Hy]; simpl.
  - constructor; constructor.
  - unfold SortCompare. rewrite (Hk x y) by (simpl; auto).
    destruct (Z.leb_spec (key y - key x) 0) as [Hle|Hgt].
    + constructor; [constructor; assumption|].
      constructor; [unfold keyGe; lia|].
      rewrite Forall_forall in *. intros z Hz.
      specialize (Hy z Hz). unfold keyGe in *. lia.
    + constructor.
      * apply IH. intros a b Ha Hb. apply Hk; simpl in *; tauto.
      * rewrite Forall_forall in *. intros z Hz.
        apply (Permutation_in _ (Permutation_sym (insert_Permutation x l))) in Hz.
        destruct Hz as [<-|Hz]; [unfold keyGe; lia|apply Hy, Hz].
Qed.

Lemma sort_sorted (l : list A) :
  keyed comparefn key l -> StronglySorted (keyGe key) (sort comparefn l).
Proof.
  induction l as [|x l IH]; intro Hk; simpl.
  - constructor.
  - apply insert_sorted.
    + intros a b Ha Hb. apply Hk.
      * destruct Ha as [<-|Ha]; [left; reflexivity|right; apply sort_In, Ha].
      * destruct Hb as [<-|Hb]; [left; reflexivity|right; apply sort_In, Hb].
    + apply IH. intros a b Ha Hb. apply Hk; right; assumption.
Qed.

End SortFacts.

Lemma StronglySorted_filter {A : Type} (R : A -> A -> Prop) (f : A -> bool)
    (l : list A) :
  StronglySorted R l -> StronglySorted R (filter f l).
Proof.
  induction 1 as [|x l Hs IH Hx]; simpl.
  - constructor.
  - destruct (f x); [|exact IH].
    constructor; [exact IH|].
    rewrite Forall_forall in *. intros y Hy.
    apply filter_In in Hy. apply Hx, Hy.
Qed.

Lemma StronglySorted_weaken {A : Type} (R R' : A -> A -> Prop) (l : list A) :
  (forall x y, In x l -> In y l -> R x y -> R' x y) ->
  StronglySorted R l -> StronglySorted R' l.
Proof.
  intros Himp Hs. induction Hs as [|x l Hs IH Hx].
  - constructor.
  - constructor.
    + apply IH. intros a b Ha Hb. apply Himp; right; assumption.
    + rewrite Forall_forall in *. intros y Hy.
      apply Himp; [left; reflexivity|right; exact Hy|apply Hx, Hy].
Qed.

(** ** The examples of the specification *)

(** A raw record with nothing but an identifier gets every default. *)
Example normalization_defaults :
  normalize utc Sample.now (VObj [("id", Sample.num 1)])
  = Ok {| id := Sample.num 1; title := VStr "Untitled";
          category := VStr "General"; amount := VNum Num.zero;
          date := VStr "2025-06-01";
          timestamp := VStr "2025-06-01T12:00:00.000Z"; note := VStr EmptyString |}.
Proof. vm_compute. reflexivity. Qed.

(** Of the records dated 2024-01-15, 2024-02-01 and 2024-01-31, the month
    2024-01 selects the first and the third (on an engine on UTC). *)
Example month_filter_of_the_specification :
  filteredExpenses utc EmptyString "2024-01"
    [Sample.dated 1 "a" "2024-01-15"; Sample.dated 2 "b" "2024-02-01";
     Sample.dated 3 "c" "2024-01-31"]
  = Ok [Sample.dated 1 "a" "2024-01-15"; Sample.dated 3 "c" "2024-01-31"].
Proof. vm_compute. reflexivity. Qed.

(** The record titled Groceries passes the queries grocer and GROCER. *)
Example text_filter_of_the_specification :
  filteredExpenses utc "grocer" EmptyString [Sample.dated 1 "Groceries" "2024-01-15"]
  = Ok [Sample.dated 1 "Groceries" "2024-01-15"]
  /\ filteredExpenses utc "GROCER" EmptyString [Sample.dated 1 "Groceries" "2024-01-15"]
     = Ok [Sample.dated 1 "Groceries" "2024-01-15"].
Proof. split; vm_compute; reflexivity. Qed.

(** ** Ordering policy *)

Section Ordering.

Variable host : Host.

Lemma allValid_In (l : list Expense) (e : Expense) :
  allValid host l = true -> In e l -> validTime host e = true.
Proof.
  unfold allValid. rewrite forallb_forall. auto.
Qed.

Lemma allValid_Permutation (l l' : list Expense) :
  Permutation l l' -> allValid host l' = true -> allValid host l = true.
Proof.
  unfold allValid. intros Hp. rewrite !forallb_forall. intros H e He.
  apply H. eapply Permutation_in; eassumption.
Qed.

Lemma allValid_keyed (l : list Expense) :
  allValid host l = true -> keyed (byTimestampDesc host) (timeOf host) l.
Proof.
  intros Hv x y Hx Hy.
  pose proof (allValid_In _ _ Hv Hx) as Vx.
  pose proof (allValid_In _ _ Hv Hy) as Vy.
  unfold validTime, byTimestampDesc, timeOf in *.
  destruct (newDate host (timestamp x)); [|discriminate].
  destruct (newDate host (timestamp y)); [|discriminate].
  reflexivity.
Qed.

Lemma sort_Descending (l : list Expense) :
  allValid host (sort (byTimestampDesc host) l) = true ->
  Descending host (sort (byTimestampDesc host) l).
Proof.
  intro Hv.
  assert (Hl : allValid host l = true)
    by (eapply allValid_Permutation; [apply sort_Permutation|exact Hv]).
  apply StronglySorted_weaken with (R := keyGe (timeOf host)).
  - intros x y Hx Hy.
    pose proof (allValid_In _ _ Hv Hx) as Vx.
    pose proof (allValid_In _ _ Hv Hy) as Vy.
    unfold keyGe, timeGe, timeOf, validTime in *.
    destruct (newDate host (timestamp x)); [|discriminate].
    destruct (newDate host (timestamp y)); [|discriminate].
    auto.
  - apply sort_sorted, allValid_keyed, Hl.
Qed.

Lemma mappedExpenses_sorted (now : Z) (response : value) (l : list Expense) :
  mappedExpenses host now response = Ok l ->
  exists l0, l = sort (byTimestampDesc host) l0.
Proof.
  unfold mappedExpenses. destruct response; try discriminate.
  destruct (mapM _ _) as [l0|]; cbn [bind]; [|discriminate].
  intros [= <-]. exists l0. reflexivity.
Qed.

Lemma tryAdd_sorted newExpense created listing now update prev :
  tryAdd host newExpense created listing now = Ok update ->
  exists l0, update prev = sort (byTimestampDesc host) l0.
Proof.
  unfold tryAdd. destruct (await created) as [response|]; cbn [bind]; [|discriminate].
  destruct (hasExpenseData response).
  - destruct (mappedFromCreate _ _ _ _) as [m|]; cbn [bind]; [|discriminate].
    intros [= <-]. exists (m :: prev). reflexivity.
  - destruct (await listing) as [all|]; cbn [bind]; [|discriminate].
    destruct (mappedExpenses host now all) as [l|] eqn:E; cbn [bind]; [|discriminate].
    intros [= <-]. eapply mappedExpenses_sorted, E.
Qed.

Lemma tryUpdate_sorted id0 updated r now update prev :
  tryUpdate host id0 updated r now = Ok update ->
  exists l0, update prev = sort (byTimestampDesc host) l0.
Proof.
  unfold tryUpdate. destruct (await r) as [response|]; cbn [bind]; [|discriminate].
  destruct (mappedFromUpdate _ _ _ _ _) as [m|]; cbn [bind]; [|discriminate].
  intros [= <-].
  exists (map (fun e => if strictEq (id e) id0 then m else e) prev).
  reflexivity.
Qed.

(** One operation keeps the order, when the timestamps it leaves in the
    collection are valid instants. *)
Lemma step_Descending (s : State) (op : Operation) :
  Descending host (expenses s) ->
  allValid host (expenses (step host s op)) = true ->
  Descending host (expenses (step host s op)).
Proof.
  intros Hs. destruct op as [listing now|t c a d n created listing now
                            |id0 form r now|id0 r]; simpl.
  - unfold fetchExpenses.
    destruct (await listing) as [response|]; simpl; [|constructor].
    destruct (mappedExpenses host now response) as [l|] eqn:E; simpl;
      [|constructor].
    destruct (mappedExpenses_sorted _ _ _ E) as [l0 ->].
    apply sort_Descending.
  - destruct (handleSubmit host t c a d n) as [newExpense|]; [|auto].
    unfold handleAdd.
    destruct (tryAdd host newExpense created listing now) as [update|] eqn:E;
      simpl; [|auto].
    destruct (tryAdd_sorted _ _ _ _ _ (expenses s) E) as [l0 ->].
    apply sort_Descending.
  - destruct (handleSave host form) as [updates|]; [|auto].
    unfold handleUpdate.
    destruct (tryUpdate host id0 updates r now) as [update|] eqn:E;
      simpl; [|auto].
    destruct (tryUpdate_sorted _ _ _ _ _ (expenses s) E) as [l0 ->].
    apply sort_Descending.
  - unfold handleDelete. destruct (await r); simpl; [|auto].
    intros _. apply StronglySorted_filter, Hs.
Qed.

Lemma trace_Descending (ops : list Operation) (s : State) :
  Descending host (expenses s) ->
  forallb (fun s' => allValid host (expenses s')) (trace host s ops) = true ->
  Forall (fun s' => Descending host (expenses s')) (trace host s ops).
Proof.
  revert s. induction ops as [|op ops IH]; intros s Hs Hv; simpl in *.
  - constructor.
  - apply andb_true_iff in Hv as [Hv1 Hv2].
    pose proof (step_Descending s op Hs Hv1) as Hd.
    constructor; [exact Hd|apply IH; assumption].
Qed.

End Ordering.

(** C1 (as amended).  For every sequence of operations (initial load,
    create, update, delete) after each of which every record of the
    collection has a timestamp that [new Date] reads as a valid instant, the
    collection is in descending-timestamp order after each operation: every
    record's timestamp is greater than or equal to that of every later
    record. *)
Theorem descending_after_each_operation (host : Host) (ops : list Operation) :
  forallb (fun s => allValid host (expenses s)) (trace host initialState ops) = true ->
  Forall (fun s => Descending host (expenses s)) (trace host initialState ops).
Proof.
  apply trace_Descending. constructor.
Qed.

Lemma descending_after_each_operation_witness :
  Forall (fun s => Descending utc (expenses s))
    (trace utc initialState Sample.session).
Proof.
  apply (descending_after_each_operation utc Sample.session).
  vm_compute. reflexivity.
Defined.

(** C1 fails as stated: a listing with a record whose timestamp is no date.
    The comparator yields [NaN] against that record, the sort leaves the
    three records in the order of the listing, and the record of January
    stays ahead of the record of June. *)
Lemma order_broken_by_invalid_timestamp :
  let s := step utc initialState
             (Load (Resolved Sample.listingWithBadTimestamp) Sample.now) in
  map (fun e => newDate utc (timestamp e)) (expenses s)
    = [Some 1704067200000; None; Some 1717200000000]
  /\ ~ Forall (fun s' => Descending utc (expenses s'))
         (trace utc initialState
            [Load (Resolved Sample.listingWithBadTimestamp) Sample.now]).
Proof.
  split; [vm_compute; reflexivity|].
  intro H. inversion H as [|s' l' Hd _]; subst.
  unfold Descending in Hd.
  assert (Hlast : forall a b c, StronglySorted (timeGe utc) [a; b; c] ->
                                timeGe utc a c).
  { intros a b c Hs. inversion Hs as [|? ? _ Hall]; subst.
    inversion Hall as [|? ? _ Hall']; subst.
    inversion Hall' as [|? ? Hac _]; subst. exact Hac. }
  apply Hlast in Hd. vm_compute in Hd. apply Hd. reflexivity.
Qed.

(** ** Filter engine *)

(** C10.  With the empty month key the month filter is skipped: whatever the
    dates of the records, present or not, the visible subset is what the text
    filter alone selects, and the whole collection when the query is empty
    too. *)
Theorem empty_month_key_skips_month_filter (host : Host) (filter_ : string)
    (l : list Expense) :
  filteredExpenses host filter_ EmptyString l =
    (let q := Str.toLowerCase (Str.trim filter_) in
     if Str.isEmpty q then Ok l else filterM (matchesQuery q) l).
Proof.
  unfold filteredExpenses. simpl.
  destruct (Str.isEmpty (Str.toLowerCase (Str.trim filter_))); reflexivity.
Qed.

(** ** Coercions *)

Lemma jsOr_idem (a b : value) : jsOr (jsOr a b) b = jsOr a b.
Proof.
  unfold jsOr. destruct (truthy a) eqn:Ha.
  - rewrite Ha. reflexivity.
  - destruct (truthy b); reflexivity.
Qed.

Lemma jsOr_truthy_l (a b : value) : truthy a = true -> jsOr a b = a.
Proof. unfold jsOr. intros ->. reflexivity. Qed.

Lemma jsOr_falsy_l (a b : value) : truthy a = false -> jsOr a b = b.
Proof. unfold jsOr. intros ->. reflexivity. Qed.

Lemma jsOr_truthy_r (a b : value) : truthy b = true -> truthy (jsOr a b) = true.
Proof. unfold jsOr. intro Hb. destruct (truthy a) eqn:Ha; assumption. Qed.

Lemma truthy_num_not_nan (x : Num.number) :
  truthy (VNum x) = true -> Num.isNaN x = false.
Proof. simpl. destruct (Num.isNaN x); [discriminate|reflexivity]. Qed.

Lemma toISOString_truthy (t : Z) : truthy (VStr (DateTime.toISOString t)) = true.
Proof.
  unfold DateTime.toISOString.
  destruct (DateTime.civilFromDays _) as [[y m] d].
  simpl truthy.
  match goal with |- negb (Str.isEmpty (?yr ++ _)%string) = true =>
    destruct yr; reflexivity end.
Qed.

Lemma splitT0_wellFormed (data fallback : value) :
  wellFormedDate data ->
  exists d, (if truthy (get data "expenseDate")
             then splitT0 (get data "expenseDate")
             else Ok fallback) = Ok d.
Proof.
  intros [H|[d H]].
  - rewrite H. eexists. reflexivity.
  - rewrite H. destruct (truthy (VStr d)); eexists; reflexivity.
Qed.

Lemma mapM_total {A B : Type} (f : A -> exn B) (l : list A) :
  (forall x, In x l -> exists y, f x = Ok y) -> exists l', mapM f l = Ok l'.
Proof.
  induction l as [|x l IH]; intro H; simpl.
  - exists []. reflexivity.
  - destruct (H x) as [y ->]; [left; reflexivity|].
    destruct IH as [ys ->]; [intros a Ha; apply H; right; exact Ha|].
    exists (y :: ys). reflexivity.
Qed.

(** ** Record normalizer *)

Section Normalizer.

Variable host : Host.

(** What [normalize] returns, when it returns. *)
Lemma normalize_Ok (now : Z) (raw : value) (c : Expense) :
  normalize host now raw = Ok c ->
  id c = get raw "id"
  /\ title c = jsOr (get raw "title") (VStr "Untitled")
  /\ category c = jsOr (get raw "category") (VStr "General")
  /\ amount c = jsOr (VNum (Number host (get raw "amount"))) (VNum Num.zero)
  /\ timestamp c = jsOr (get raw "timestamp")
                     (jsOr (get raw "timeStamp")
                        (jsOr (get raw "expenseDate")
                           (VStr (DateTime.toISOString now))))
  /\ note c = jsOr (get raw "note") (VStr EmptyString).
Proof.
  unfold normalize.
  destruct (if truthy (get raw "expenseDate") then _ else _) as [d|];
    cbn [bind]; [|discriminate].
  intros [= <-]. repeat split.
Qed.

Lemma amount_or_zero (x : Num.number) :
  exists z, jsOr (VNum x) (VNum Num.zero) = VNum z
            /\ Num.isNaN z = false
            /\ Number host (VNum z) = z
            /\ jsOr (VNum z) (VNum Num.zero) = VNum z
            /\ Num.finiteNonneg z = Num.isNaN x || Num.finiteNonneg x.
Proof.
  unfold jsOr. destruct (truthy (VNum x)) eqn:E.
  - exists x. rewrite E. pose proof (truthy_num_not_nan _ E) as Hn.
    rewrite Hn. repeat split; reflexivity || assumption.
  - exists Num.zero. repeat split.
    simpl in E. destruct x as [[]|[]| |[]]; try discriminate; reflexivity.
Qed.

Lemma normalize_total (now : Z) (raw : value) :
  wellFormedDate raw -> exists c, normalize host now raw = Ok c.
Proof.
  intro H. unfold normalize.
  destruct (splitT0_wellFormed raw
              (VStr (Str.slice0 10 (DateTime.toISOString now))) H) as [d ->].
  eexists. reflexivity.
Qed.

Lemma mappedExpenses_total (now : Z) (raws : list value) :
  (forall raw, In raw raws -> admitted raw = true -> wellFormedDate raw) ->
  exists normalized,
    mapM (normalize host now) (filter admitted raws) = Ok normalized
    /\ mappedExpenses host now (VArr raws)
       = Ok (sort (byTimestampDesc host) normalized).
Proof.
  intro H.
  destruct (mapM_total (normalize host now) (filter admitted raws))
    as [normalized E].
  - intros raw Hin. apply filter_In in Hin as [Hin Hadm].
    apply normalize_total, H; assumption.
  - exists normalized. split; [exact E|].
    unfold mappedExpenses. rewrite E. reflexivity.
Qed.

End Normalizer.

Section Renormalization.

Variable host : Host.

Lemma get_toObject (c : Expense) :
  get (toObject c) "id" = id c
  /\ get (toObject c) "title" = title c
  /\ get (toObject c) "category" = category c
  /\ get (toObject c) "amount" = amount c
  /\ get (toObject c) "expenseDate" = VUndef
  /\ get (toObject c) "timestamp" = timestamp c
  /\ get (toObject c) "timeStamp" = VUndef
  /\ get (toObject c) "note" = note c.
Proof. repeat split. Qed.

Lemma renormalize (now now' : Z) (raw : value) (c : Expense) :
  admitted raw = true ->
  normalize host now raw = Ok c ->
  admitted (toObject c) = true
  /\ normalize host now' (toObject c)
     = Ok (withDate c (VStr (Str.slice0 10 (DateTime.toISOString now')))).
Proof.
  intros Hadm Hc.
  destruct (normalize_Ok host now raw c Hc) as (Hid & Ht & Hcat & Ha & Hts & Hn).
  destruct (get_toObject c) as (Gid & Gt & Gcat & Ga & Gd & Gts & GtS & Gn).
  split.
  - unfold admitted in *. rewrite Gid, Hid.
    apply andb_true_iff in Hadm as [_ ->]. reflexivity.
  - unfold normalize, withDate.
    rewrite Gid, Gt, Gcat, Ga, Gd, Gts, GtS, Gn. cbn [truthy bind].
    f_equal. f_equal.
    + rewrite Ht. apply jsOr_idem.
    + rewrite Hcat. apply jsOr_idem.
    + rewrite Ha.
      destruct (amount_or_zero host (Number host (get raw "amount")))
        as (z & -> & _ & Hz & Hz' & _).
      rewrite Hz. exact Hz'.
    + apply jsOr_truthy_l. rewrite Hts.
      repeat apply jsOr_truthy_r. apply toISOString_truthy.
    + rewrite Hn. apply jsOr_idem.
Qed.

End Renormalization.

(** C2 (as amended).  For every canonical record produced by the normalizer
    from an admitted raw record, applying the normalizer to it again, at any
    instant, admits it and yields a record with the same id, title, category,
    amount, timestamp and note; its date is not kept but set to the calendar
    date (UTC) of the instant of the repeated pass, because the normalizer
    reads the date from [expenseDate], a field a canonical record does not
    have. *)
Theorem renormalize_keeps_all_but_date (host : Host) (now now' : Z)
    (raw : value) (c : Expense) :
  admitted raw = true ->
  normalize host now raw = Ok c ->
  admitted (toObject c) = true
  /\ exists c', normalize host now' (toObject c) = Ok c'
       /\ id c' = id c /\ title c' = title c /\ category c' = category c
       /\ amount c' = amount c /\ timestamp c' = timestamp c
       /\ note c' = note c
       /\ date c' = VStr (Str.slice0 10 (DateTime.toISOString now')).
Proof.
  intros Hadm Hc.
  destruct (renormalize host now now' raw c Hadm Hc) as [Ha Hn].
  split; [exact Ha|].
  eexists. split; [exact Hn|]. repeat split.
Qed.

Lemma renormalize_keeps_all_but_date_witness :
  exists c,
    normalize utc Sample.now Sample.rent = Ok c
    /\ exists c', normalize utc Sample.now (toObject c) = Ok c'
         /\ id c' = id c /\ title c' = title c /\ category c' = category c
         /\ amount c' = amount c /\ timestamp c' = timestamp c
         /\ note c' = note c
         /\ date c' = VStr (Str.slice0 10 (DateTime.toISOString Sample.now)).
Proof.
  eexists. split; [vm_compute; reflexivity|].
  eapply (renormalize_keeps_all_but_date utc Sample.now Sample.now Sample.rent).
  - vm_compute. reflexivity.
  - vm_compute. reflexivity.
Defined.

(** C2 fails as stated: the record normalized from [Sample.rent] is dated
    2024-01-01; a second pass over it, at the same instant, dates it
    2025-06-01, the day of the pass. *)
Lemma renormalize_changes_date :
  exists c c',
    normalize utc Sample.now Sample.rent = Ok c
    /\ normalize utc Sample.now (toObject c) = Ok c'
    /\ date c = VStr "2024-01-01"
    /\ date c' = VStr "2025-06-01"
    /\ c' <> c.
Proof.
  eexists. eexists.
  split; [vm_compute; reflexivity|].
  split; [vm_compute; reflexivity|].
  split; [reflexivity|]. split; [reflexivity|].
  intro H. apply (f_equal date) in H. discriminate H.
Qed.

(** ** Amounts *)

Section Amounts.

Variable host : Host.

Lemma mapM_Forall {A B : Type} (f : A -> exn B) (P : B -> Prop)
    (l : list A) (l' : list B) :
  (forall x y, In x l -> f x = Ok y -> P y) ->
  mapM f l = Ok l' -> Forall P l'.
Proof.
  revert l'. induction l as [|x l IH]; intros l' Hf; simpl.
  - intros [= <-]. constructor.
  - destruct (f x) as [y|] eqn:Ex; cbn [bind]; [|discriminate].
    destruct (mapM f l) as [ys|]; cbn [bind]; [|discriminate].
    intros [= <-]. constructor.
    + apply (Hf x); [left; reflexivity|exact Ex].
    + apply IH; [|reflexivity]. intros a b Ha. apply Hf. right. exact Ha.
Qed.

Lemma normalize_amountIsNumber (now : Z) (raw : value) (c : Expense) :
  normalize host now raw = Ok c -> amountIsNumber c = true.
Proof.
  intro Hc. destruct (normalize_Ok host now raw c Hc) as (_ & _ & _ & Ha & _).
  unfold amountIsNumber. rewrite Ha.
  destruct (amount_or_zero host (Number host (get raw "amount")))
    as (z & -> & -> & _).
  reflexivity.
Qed.

Lemma mappedExpenses_amounts (now : Z) (response : value) (l : list Expense) :
  mappedExpenses host now response = Ok l ->
  Forall (fun e => amountIsNumber e = true) l.
Proof.
  unfold mappedExpenses. destruct response; try discriminate.
  destruct (mapM _ _) as [l0|] eqn:E; cbn [bind]; [|discriminate].
  intros [= <-].
  eapply Permutation_Forall; [apply sort_Permutation|].
  eapply mapM_Forall; [|exact E].
  intros x y _. apply normalize_amountIsNumber.
Qed.

(** The amount either form lets through is a number greater than zero. *)
Lemma handleSubmit_amount t c a d n (newExpense : value) :
  handleSubmit host t c a d n = Some newExpense ->
  exists amt, get newExpense "amount" = VNum amt
              /\ Num.isNaN amt = false /\ Num.leb amt Num.zero = false.
Proof.
  unfold handleSubmit.
  destruct (negb (truthy t) || Num.isNaN (Number host a)
            || Num.leb (Number host a) Num.zero) eqn:E; [discriminate|].
  intros [= <-]. exists (Number host a).
  apply orb_false_iff in E as [E E3]. apply orb_false_iff in E as [_ E2].
  repeat split; assumption.
Qed.

Lemma handleSave_amount (form updates : value) :
  handleSave host form = Some updates ->
  exists amt, get updates "amount" = VNum amt
              /\ Num.isNaN amt = false /\ Num.leb amt Num.zero = false.
Proof.
  unfold handleSave.
  destruct (negb (truthy (get form "title"))
            || Num.isNaN (Number host (get form "amount"))
            || Num.leb (Number host (get form "amount")) Num.zero) eqn:E;
    [discriminate|].
  intros [= <-]. exists (Number host (get form "amount")).
  apply orb_false_iff in E as [E E3]. apply orb_false_iff in E as [_ E2].
  repeat split; assumption.
Qed.

Lemma amount_or_submitted (x amt : Num.number) :
  Num.isNaN amt = false ->
  exists z, jsOr (VNum x) (VNum amt) = VNum z /\ Num.isNaN z = false.
Proof.
  intro Hamt. unfold jsOr. destruct (truthy (VNum x)) eqn:E.
  - exists x. split; [reflexivity|apply truthy_num_not_nan, E].
  - exists amt. split; [reflexivity|exact Hamt].
Qed.

Lemma mappedFromCreate_amount (now : Z) (newExpense data : value) (amt : Num.number)
    (m : Expense) :
  get newExpense "amount" = VNum amt -> Num.isNaN amt = false ->
  mappedFromCreate host now newExpense data = Ok m ->
  amountIsNumber m = true.
Proof.
  intros Hg Hamt. unfold mappedFromCreate.
  destruct (if truthy (get data "expenseDate") then _ else _) as [d|];
    cbn [bind]; [|discriminate].
  intros [= <-]. unfold amountIsNumber. cbn [amount]. rewrite Hg.
  destruct (amount_or_submitted (Number host (get data "amount")) amt Hamt)
    as (z & -> & ->).
  reflexivity.
Qed.

Lemma mappedFromUpdate_amount (now : Z) (id0 updated data : value)
    (amt : Num.number) (m : Expense) :
  get updated "amount" = VNum amt -> Num.isNaN amt = false ->
  mappedFromUpdate host now id0 updated data = Ok m ->
  amountIsNumber m = true.
Proof.
  intros Hg Hamt. unfold mappedFromUpdate.
  destruct (hasUpdatedData data).
  - destruct (if truthy (get data "expenseDate") then _ else _) as [d|];
      cbn [bind]; [|discriminate].
    intros [= <-]. unfold amountIsNumber. cbn [amount]. rewrite Hg.
    destruct (amount_or_submitted (Number host (get data "amount")) amt Hamt)
      as (z & -> & ->).
    reflexivity.
  - intros [= <-]. unfold amountIsNumber. cbn [amount]. rewrite Hg, Hamt.
    reflexivity.
Qed.

Lemma step_amounts (s : State) (op : Operation) :
  Forall (fun e => amountIsNumber e = true) (expenses s) ->
  Forall (fun e => amountIsNumber e = true) (expenses (step host s op)).
Proof.
  intros Hs. destruct op as [listing now|t c a d n created listing now
                            |id0 form r now|id0 r]; simpl.
  - unfold fetchExpenses.
    destruct (await listing) as [response|]; cbn [bind expenses]; [|constructor].
    destruct (mappedExpenses host now response) as [l|] eqn:E;
      cbn [expenses]; [|constructor].
    eapply mappedExpenses_amounts, E.
  - destruct (handleSubmit host t c a d n) as [newExpense|] eqn:Esub; [|exact Hs].
    destruct (handleSubmit_amount _ _ _ _ _ _ Esub) as (amt & Hg & Hamt & _).
    unfold handleAdd, tryAdd.
    destruct (await created) as [response|]; cbn [bind expenses]; [|exact Hs].
    destruct (hasExpenseData response).
    + destruct (mappedFromCreate host now newExpense response) as [m|] eqn:Em;
        cbn [bind expenses]; [|exact Hs].
      eapply Permutation_Forall; [apply sort_Permutation|].
      constructor; [|exact Hs].
      eapply mappedFromCreate_amount; eassumption.
    + destruct (await listing) as [all|]; cbn [bind expenses]; [|exact Hs].
      destruct (mappedExpenses host now all) as [l|] eqn:E;
        cbn [bind expenses]; [|exact Hs].
      eapply mappedExpenses_amounts, E.
  - destruct (handleSave host form) as [updates|] eqn:Esave; [|exact Hs].
    destruct (handleSave_amount _ _ Esave) as (amt & Hg & Hamt & _).
    unfold handleUpdate, tryUpdate.
    destruct (await r) as [response|]; cbn [bind expenses]; [|exact Hs].
    destruct (mappedFromUpdate host now id0 updates response) as [m|] eqn:Em;
      cbn [bind expenses]; [|exact Hs].
    eapply Permutation_Forall; [apply sort_Permutation|].
    rewrite Forall_forall in *. intros e He.
    apply in_map_iff in He as (e0 & <- & He0).
    destruct (strictEq (id e0) id0).
    + eapply mappedFromUpdate_amount; eassumption.
    + apply Hs, He0.
  - unfold handleDelete. destruct (await r); cbn [expenses]; [|exact Hs].
    rewrite Forall_forall in *. intros e He.
    apply filter_In in He. apply Hs, He.
Qed.

Lemma trace_amounts (ops : list Operation) (s : State) :
  Forall (fun e => amountIsNumber e = true) (expenses s) ->
  Forall (fun s' => Forall (fun e => amountIsNumber e = true) (expenses s'))
    (trace host s ops).
Proof.
  revert s. induction ops as [|op ops IH]; intros s Hs; simpl.
  - constructor.
  - pose proof (step_amounts s op Hs) as H1.
    constructor; [exact H1|apply IH, H1].
Qed.

End Amounts.

(** C3 (as amended).  For every raw record ingested by the normalizer (on
    load, create, or update), the resulting canonical record's amount is a
    number other than [NaN], and this holds for every record in the
    collection at all times.  On load the amount is finite and greater than
    or equal to zero exactly when the raw amount, coerced by [Number], is
    [NaN] (the amount is then 0) or is itself finite and greater than or equal
    to zero: a negative or an infinite raw amount is kept as it is. *)
Theorem amount_is_never_nan (host : Host) :
  (forall ops : list Operation,
     Forall (fun s => Forall (fun e => amountIsNumber e = true) (expenses s))
       (trace host initialState ops))
  /\ (forall (now : Z) (raw : value) (c : Expense),
        normalize host now raw = Ok c ->
        amountIsNumber c = true
        /\ amountFiniteNonneg c
           = Num.isNaN (Number host (get raw "amount"))
             || Num.finiteNonneg (Number host (get raw "amount"))
        /\ (Num.isNaN (Number host (get raw "amount")) = true ->
            amount c = VNum Num.zero)
        /\ (Num.ltb (Number host (get raw "amount")) Num.zero = true
            \/ (Num.isFinite (Number host (get raw "amount")) = false
                /\ Num.isNaN (Number host (get raw "amount")) = false) ->
            amount c = VNum (Number host (get raw "amount")))).
Proof.
  split.
  - intro ops. apply trace_amounts. constructor.
  - intros now raw c Hc. split; [eapply normalize_amountIsNumber, Hc|].
    destruct (normalize_Ok host now raw c Hc) as (_ & _ & _ & Ha & _).
    split; [|split].
    + unfold amountFiniteNonneg. rewrite Ha.
      destruct (amount_or_zero host (Number host (get raw "amount")))
        as (z & -> & _ & _ & _ & Hz).
      exact Hz.
    + rewrite Ha. unfold jsOr.
      destruct (Number host (get raw "amount")) as [[]|[]| |[] m e];
        try discriminate; reflexivity.
    + rewrite Ha. unfold jsOr.
      destruct (Number host (get raw "amount")) as [[]|[]| |[] m e];
        intros [H|[H1 H2]]; try discriminate; reflexivity.
Qed.

Lemma amount_is_never_nan_witness :
  exists c,
    normalize utc Sample.now Sample.refund = Ok c
    /\ amountIsNumber c = true
    /\ amount c = VNum (Number utc (get Sample.refund "amount")).
Proof.
  eexists. split; [vm_compute; reflexivity|].
  destruct (proj2 (amount_is_never_nan utc) Sample.now Sample.refund _
              ltac:(vm_compute; reflexivity)) as (H1 & _ & _ & H4).
  split; [exact H1|]. apply H4. left. vm_compute. reflexivity.
Defined.

(** C3 fails as stated: the listing returns a refund with the amount -20;
    the record is admitted, and its canonical amount, in the collection, is
    -20. *)
Lemma negative_amount_is_kept :
  exists c,
    admitted Sample.refund = true
    /\ normalize utc Sample.now Sample.refund = Ok c
    /\ expenses (step utc initialState
                   (Load (Resolved (VArr [Sample.refund])) Sample.now)) = [c]
    /\ amount c = Sample.num (-20)
    /\ Num.ltb (Num.ofZ (-20)) Num.zero = true
    /\ amountFiniteNonneg c = false.
Proof.
  eexists. split; [reflexivity|].
  split; [vm_compute; reflexivity|].
  repeat split.
Qed.

(** ** Identifier admission *)

Lemma mapM_In {A B : Type} (f : A -> exn B) (l : list A) (l' : list B) :
  mapM f l = Ok l' ->
  forall y, In y l' <-> exists x, In x l /\ f x = Ok y.
Proof.
  revert l'. induction l as [|x l IH]; intros l'; simpl.
  - intros [= <-] y. simpl. split; [tauto|intros (x & [] & _)].
  - destruct (f x) as [y0|] eqn:Ex; cbn [bind]; [|discriminate].
    destruct (mapM f l) as [ys|]; cbn [bind]; [|discriminate].
    intros [= <-] y. specialize (IH ys eq_refl y). simpl. split.
    + intros [<-|Hy].
      * exists x. split; [left; reflexivity|exact Ex].
      * apply IH in Hy as (x' & Hx' & Hf). exists x'. split; [right|]; assumption.
    + intros (x' & [<-|Hx'] & Hf).
      * left. congruence.
      * right. apply IH. exists x'. split; assumption.
Qed.

Lemma mapM_length {A B : Type} (f : A -> exn B) (l : list A) (l' : list B) :
  mapM f l = Ok l' -> List.length l' = List.length l.
Proof.
  revert l'. induction l as [|x l IH]; intros l'; simpl.
  - intros [= <-]. reflexivity.
  - destruct (f x) as [y0|]; cbn [bind]; [|discriminate].
    destruct (mapM f l) as [ys|]; cbn [bind]; [|discriminate].
    intros [= <-]. simpl. f_equal. apply IH. reflexivity.
Qed.

Lemma mappedExpenses_members (host : Host) (now : Z) (raws : list value)
    (l : list Expense) :
  mappedExpenses host now (VArr raws) = Ok l ->
  (forall e, In e l <->
             exists raw, In raw raws
                         /\ truthy raw = true /\ truthy (get raw "id") = true
                         /\ normalize host now raw = Ok e)
  /\ List.length l
     = List.length (filter (fun raw => truthy raw && truthy (get raw "id")) raws).
Proof.
  unfold mappedExpenses.
  destruct (mapM (normalize host now) (filter admitted raws)) as [l0|] eqn:E;
    cbn [bind]; [|discriminate].
  intros [= <-]. split.
  - intro e. rewrite sort_In, (mapM_In _ _ _ E). split.
    + intros (raw & Hin & Hn). apply filter_In in Hin as [Hin Hadm].
      unfold admitted in Hadm. apply andb_true_iff in Hadm as [H1 H2].
      exists raw. auto.
    + intros (raw & Hin & H1 & H2 & Hn). exists raw. split; [|exact Hn].
      apply filter_In. split; [exact Hin|].
      unfold admitted. rewrite H1, H2. reflexivity.
  - rewrite sort_length. apply (mapM_length _ _ _ E).
Qed.

Lemma hasExpenseData_names (data : value) :
  hasExpenseData data = true <->
  truthy data = true /\ typeofObject data = true
  /\ (truthy (get data "id") = true \/ truthy (get data "expenseId") = true).
Proof.
  unfold hasExpenseData, jsOr. rewrite !andb_true_iff.
  destruct (truthy (get data "id")) eqn:Eid.
  - rewrite Eid. tauto.
  - split.
    + intros [[H1 H2] H3]. auto.
    + intros (H1 & H2 & [H3|H3]); [discriminate|auto].
Qed.

Lemma mapM_throws {A B : Type} (f : A -> exn B) (l : list A) (x : A) (msg : string) :
  In x l -> f x = Throw msg -> exists msg', mapM f l = Throw msg'.
Proof.
  intros Hin Hx. induction l as [|y l IH]; [destruct Hin|]. simpl.
  destruct (f y) as [z|m] eqn:Ey; cbn [bind]; [|eexists; reflexivity].
  destruct Hin as [->|Hin]; [congruence|].
  destruct (IH Hin) as [msg' ->]. cbn [bind]. eexists. reflexivity.
Qed.

Lemma normalize_throws (host : Host) (now : Z) (raw : value) :
  badDate raw -> exists msg, normalize host now raw = Throw msg.
Proof.
  intros [Ht Hns]. unfold normalize. rewrite Ht.
  destruct (get raw "expenseDate") as [| | | |d| |] eqn:E;
    cbn [splitT0 bind]; try (eexists; reflexivity).
  exfalso. apply (Hns d). reflexivity.
Qed.

Lemma mappedExpenses_throws (host : Host) (now : Z) (raws : list value)
    (raw : value) :
  In raw raws -> admitted raw = true -> badDate raw ->
  exists msg, mappedExpenses host now (VArr raws) = Throw msg.
Proof.
  intros Hin Hadm Hbad.
  destruct (normalize_throws host now raw Hbad) as [msg Hthrow].
  destruct (mapM_throws (normalize host now) (filter admitted raws) raw msg)
    as [msg' E]; [apply filter_In; split; assumption|exact Hthrow|].
  unfold mappedExpenses. rewrite E. eexists. reflexivity.
Qed.

Lemma normalize_canonical (host : Host) (now : Z) (raw : value) :
  wellFormedDate raw -> normalize host now raw = Ok (canonical host now raw).
Proof.
  intro Hwf. unfold normalize, canonical, jsOr.
  assert (Ea : forall n,
             (if truthy (VNum n) then VNum n else VNum Num.zero)
             = (if Num.isNaN n || Num.isZero n then VNum Num.zero else VNum n)).
  { intro n. cbn [truthy]. destruct (Num.isNaN n || Num.isZero n); reflexivity. }
  rewrite Ea. destruct Hwf as [H|[d H]].
  - rewrite H. cbn [bind].
    destruct (get raw "expenseDate") as [| | | |[|c d]| |]; try reflexivity.
    discriminate H.
  - rewrite H. destruct d as [|c d]; reflexivity.
Qed.

Lemma mapM_map {A B : Type} (f : A -> exn B) (g : A -> B) (l : list A) :
  (forall x, In x l -> f x = Ok (g x)) -> mapM f l = Ok (map g l).
Proof.
  induction l as [|x l IH]; intro H; simpl; [reflexivity|].
  rewrite (H x) by (left; reflexivity). cbn [bind].
  rewrite IH by (intros a Ha; apply H; right; exact Ha).
  reflexivity.
Qed.

Lemma mappedExpenses_canonical (host : Host) (now : Z) (raws : list value) :
  (forall raw, In raw raws -> admitted raw = true -> wellFormedDate raw) ->
  mappedExpenses host now (VArr raws)
  = Ok (sort (byTimestampDesc host)
          (map (canonical host now) (filter admitted raws))).
Proof.
  intro Hwf. unfold mappedExpenses.
  rewrite (mapM_map (normalize host now) (canonical host now)).
  - reflexivity.
  - intros raw Hin. apply filter_In in Hin as [Hin Hadm].
    apply normalize_canonical, Hwf; assumption.
Qed.

(** C4 (as amended).  When every listed record that is truthy and has a
    truthy [id] has an [expenseDate] that is absent, falsy or a string, a raw
    record from the listing operation is admitted into the normalized
    collection if and only if it is a truthy value whose [id] field is
    truthy: each such record contributes one canonical record, and every raw
    record lacking a truthy [id] is excluded entirely.  When some listed
    record that is truthy and has a truthy [id] has an [expenseDate] that is
    truthy and not a string, the normalization of the listing throws and no
    record of it is admitted.  On the listing the identifier is accepted
    under the single name [id]; the second name, [expenseId], is accepted
    only in the reply to a create request, which counts as carrying a record
    exactly when it is a truthy object whose [id] or [expenseId] is truthy. *)
Theorem listing_admits_by_id (host : Host) (now : Z) (raws : list value) :
  ((forall raw, In raw raws ->
                truthy raw = true -> truthy (get raw "id") = true ->
                wellFormedDate raw) ->
   exists l,
     mappedExpenses host now (VArr raws) = Ok l
     /\ (forall e, In e l <->
                   exists raw, In raw raws
                               /\ truthy raw = true
                               /\ truthy (get raw "id") = true
                               /\ e = canonical host now raw)
     /\ List.length l
        = List.length
            (filter (fun raw => truthy raw && truthy (get raw "id")) raws))
  /\ (forall raw, In raw raws ->
                  truthy raw = true -> truthy (get raw "id") = true ->
                  badDate raw ->
                  exists msg, mappedExpenses host now (VArr raws) = Throw msg)
  /\ (forall data, hasExpenseData data = true <->
                   truthy data = true /\ typeofObject data = true
                   /\ (truthy (get data "id") = true
                       \/ truthy (get data "expenseId") = true)).
Proof.
  split; [|split].
  - intro Hwf.
    assert (Hwf' : forall raw, In raw raws -> admitted raw = true ->
                               wellFormedDate raw).
    { intros raw Hin Hadm. unfold admitted in Hadm.
      apply andb_true_iff in Hadm as [H1 H2]. apply Hwf; assumption. }
    pose proof (mappedExpenses_canonical host now raws Hwf') as E.
    eexists. split; [exact E|]. split.
    + intro e. rewrite sort_In, in_map_iff. split.
      * intros (raw & <- & Hin). apply filter_In in Hin as [Hin Hadm].
        unfold admitted in Hadm. apply andb_true_iff in Hadm as [H1 H2].
        exists raw. auto.
      * intros (raw & Hin & H1 & H2 & ->). exists raw.
        split; [reflexivity|]. apply filter_In. split; [exact Hin|].
        unfold admitted. rewrite H1, H2. reflexivity.
    + rewrite sort_length, length_map. reflexivity.
  - intros raw Hin H1 H2 Hbad.
    apply (mappedExpenses_throws host now raws raw Hin); [|exact Hbad].
    unfold admitted. rewrite H1, H2. reflexivity.
  - exact hasExpenseData_names.
Qed.

Lemma listing_admits_by_id_witness :
  exists l,
    mappedExpenses utc Sample.now Sample.listing = Ok l
    /\ (forall e, In e l <->
                  exists raw, In raw [Sample.rent; Sample.books]
                              /\ truthy raw = true
                              /\ truthy (get raw "id") = true
                              /\ e = canonical utc Sample.now raw)
    /\ List.length l = 2%nat.
Proof.
  destruct (proj1 (listing_admits_by_id utc Sample.now
                     [Sample.rent; Sample.books]))
    as (l & E & H1 & H2).
  - intros raw [<-|[<-|[]]] _ _; right; eexists; reflexivity.
  - exists l. split; [exact E|]. split; [exact H1|exact H2].
Defined.

(** C4 fails as stated: a listed record that carries its identifier under
    the name [expenseId], which the create path recognizes, is excluded from
    the normalized collection. *)
Lemma listing_ignores_expenseId :
  hasExpenseData Sample.coffee = true
  /\ truthy (jsOr (get Sample.coffee "id") (get Sample.coffee "expenseId")) = true
  /\ mappedExpenses utc Sample.now (VArr [Sample.coffee]) = Ok []
  /\ expenses (step utc initialState
                 (Load (Resolved (VArr [Sample.coffee])) Sample.now)) = [].
Proof. repeat split. Qed.

(** ** Month filter *)

(** A record whose date is missing or empty passes no month filter. *)
Lemma no_date_never_passes (host : Host) (selectedMonth : string) (e : Expense) :
  truthy (date e) = false -> inMonth host selectedMonth e = false.
Proof. unfold inMonth. intros ->. reflexivity. Qed.

(** On an engine at UTC or east of it, a date-only string of the form
    [YYYY-MM-DD] keeps its year and month: the month key is built from the
    year and the month written in the string. *)
Lemma month_key_at_or_east_of_utc (offset y m d : Z) (s : string) :
  0 <= offset < 1440 ->
  Engine.datePart s = Some (y, m, d, EmptyString) ->
  Engine.validCivil y m d = true ->
  monthKey (engine offset) (VStr s)
  = String.append (Str.ofZ y) (String.append "-" (Str.padStart2 (Str.ofZ m))).
Proof.
  intros Hoff Hparse Hvalid.
  unfold monthKey, newDate, getFullYear, getMonth, localCivil.
  cbn [engine DateParse LocalTZA]. unfold Engine.parseDate.
  rewrite Hparse, Hvalid. cbn [option_map showInt].
  replace ((DateTime.daysFromCivil y m d * DateTime.msPerDay + offset * 60000)
           / DateTime.msPerDay)
    with (DateTime.daysFromCivil y m d).
  2:{ unfold DateTime.msPerDay.
      rewrite Z.div_add_l by lia. rewrite Z.div_small by lia. lia. }
  unfold Engine.validCivil in Hvalid.
  destruct (DateTime.civilFromDays (DateTime.daysFromCivil y m d))
    as [[y' m'] d'].
  repeat (apply andb_true_iff in Hvalid as [Hvalid ?]).
  cbn [DateTime.yearOf DateTime.monthOf fst snd].
  replace y' with y by lia. replace (m' - 1 + 1) with m by lia.
  reflexivity.
Qed.

(** C5 on the code, five hours west of UTC.  [formatDate] builds the date of
    a row from the parts of the string ("local date, no timezone shift");
    the month filter reads the same string through [new Date(e.date)], which
    takes a date-only string as midnight UTC, and then asks for the local
    year and month.  The record of 2024-02-01 gets the month key 2024-01: it
    is left out of February and shown in January. *)
Theorem month_filter_shifts_west_of_utc :
  exists e,
    normalize utcMinus5 Sample.now Sample.gym = Ok e
    /\ date e = VStr "2024-02-01"
    /\ monthKey utcMinus5 (date e) = "2024-01"
    /\ filteredExpenses utcMinus5 EmptyString "2024-02" [e] = Ok []
    /\ filteredExpenses utcMinus5 EmptyString "2024-01" [e] = Ok [e]
    /\ filteredExpenses utc EmptyString "2024-02" [e] = Ok [e].
Proof.
  eexists. split; [vm_compute; reflexivity|].
  repeat split.
Qed.

(** ** Reconciliation controller *)

Lemma Descending_allValid (host : Host) (l : list Expense) :
  Descending host l -> (2 <= List.length l)%nat -> allValid host l = true.
Proof.
  unfold Descending, allValid.
  assert (Hl : forall a b, timeGe host a b -> validTime host a = true).
  { intros a b. unfold timeGe, validTime.
    destruct (newDate host (timestamp a)); [reflexivity|intros []]. }
  assert (Hr : forall a b, timeGe host a b -> validTime host b = true).
  { intros a b. unfold timeGe, validTime.
    destruct (newDate host (timestamp a)); [|intros []].
    destruct (newDate host (timestamp b)); [reflexivity|intros []]. }
  intros Hs Hlen.
  destruct l as [|a [|b l]]; simpl in Hlen; try lia.
  inversion Hs as [|? ? Hs' Hall]; subst.
  apply forallb_forall. intros x [<-|Hx].
  - inversion Hall as [|? ? Hab _]; subst. exact (Hl _ _ Hab).
  - rewrite Forall_forall in Hall. exact (Hr _ _ (Hall x Hx)).
Qed.

(** C6 (as amended).  When the reply to a create request carries no
    recognizable identifier, the reply is discarded and the listing is
    requested.  When the listing resolves with an array in which every
    record with a truthy [id] has an [expenseDate] that is absent, falsy or a
    string, the local collection is replaced wholesale: it holds exactly one
    canonical record for each listed record that is truthy and has a truthy
    [id] (the other records are dropped), it is the collection the initial
    load builds from the same listing, the error is cleared, and the
    collection is in descending-timestamp order whenever every one of its
    timestamps is a valid date.  When the listing holds a record with a
    truthy [id] whose [expenseDate] is truthy and not a string, when the
    request for the listing fails, or when it does not resolve with an array,
    the collection stays as it was and the message of a failed creation is
    surfaced. *)
Theorem create_without_identifier_reloads (host : Host) (s : State)
    (newExpense data : value) (now : Z) :
  hasExpenseData data = false ->
  (forall raws,
     (forall raw, In raw raws ->
                  truthy raw = true -> truthy (get raw "id") = true ->
                  wellFormedDate raw) ->
     let s' := handleAdd host s newExpense (Resolved data)
                 (Resolved (VArr raws)) now in
     Permutation
       (map (canonical host now)
          (filter (fun raw => truthy raw && truthy (get raw "id")) raws))
       (expenses s')
     /\ expenses s' = expenses (fetchExpenses host s (Resolved (VArr raws)) now)
     /\ error s' = None
     /\ (allValid host (expenses s') = true -> Descending host (expenses s')))
  /\ (forall raws raw,
        In raw raws ->
        truthy raw = true -> truthy (get raw "id") = true -> badDate raw ->
        let s' := handleAdd host s newExpense (Resolved data)
                    (Resolved (VArr raws)) now in
        expenses s' = expenses s
        /\ error s' = Some "Failed to add expense. Please try again.")
  /\ (forall listing,
        (forall raws, listing <> Resolved (VArr raws)) ->
        let s' := handleAdd host s newExpense (Resolved data) listing now in
        expenses s' = expenses s
        /\ error s' = Some "Failed to add expense. Please try again.").
Proof.
  intro Hno. split; [|split].
  - intros raws Hwf s'. subst s'.
    assert (Hwf' : forall raw, In raw raws -> admitted raw = true ->
                               wellFormedDate raw).
    { intros raw Hin Hadm. unfold admitted in Hadm.
      apply andb_true_iff in Hadm as [H1 H2]. apply Hwf; assumption. }
    pose proof (mappedExpenses_canonical host now raws Hwf') as E.
    unfold handleAdd, tryAdd, fetchExpenses.
    cbn [await bind]. rewrite Hno, E. cbn [bind expenses error].
    split; [apply sort_Permutation|]. split; [reflexivity|].
    split; [reflexivity|]. apply sort_Descending.
  - intros raws raw Hin H1 H2 Hbad s'. subst s'.
    destruct (mappedExpenses_throws host now raws raw Hin) as [msg E];
      [unfold admitted; rewrite H1, H2; reflexivity|exact Hbad|].
    unfold handleAdd, tryAdd. cbn [await bind]. rewrite Hno, E.
    split; reflexivity.
  - intros listing Hl s'. subst s'.
    unfold handleAdd, tryAdd. cbn [await bind]. rewrite Hno.
    destruct listing as [[| | | | |raws|]|detail]; cbn [await bind mappedExpenses];
      try (split; reflexivity).
    exfalso. apply (Hl raws). reflexivity.
Qed.

Lemma create_without_identifier_reloads_witness :
  let s := {| expenses := []; error := Some "Failed to add expense. Please try again.";
              editingId := VNull; loading := false |} in
  let s' := handleAdd utc s Sample.taxiForm (Resolved (VStr "Expense added"))
              (Resolved Sample.listing) Sample.now in
  Permutation (map (canonical utc Sample.now) [Sample.rent; Sample.books])
    (expenses s')
  /\ error s' = None
  /\ Descending utc (expenses s').
Proof.
  intros s s'.
  destruct (create_without_identifier_reloads utc s Sample.taxiForm
              (VStr "Expense added") Sample.now eq_refl) as (H & _ & _).
  destruct (H [Sample.rent; Sample.books]) as (Hp & _ & He & Hd).
  - intros raw [<-|[<-|[]]] _ _; right; eexists; reflexivity.
  - split; [exact Hp|]. split; [exact He|].
    apply Hd. vm_compute. reflexivity.
Defined.

(** C6 fails as stated.  The reply to the creation is a plain message.  With
    the listing whose second record has a timestamp that is no date, the
    collection is replaced by the three records, and no arrangement of them
    is in descending-timestamp order.  With a listing whose second record
    has its date as an array, the collection is not replaced: it stays the
    one of the earlier load and the creation is reported as failed. *)
Lemma reload_unordered_or_abandoned :
  let created := Resolved (VStr "Expense added") in
  (let s' := handleAdd utc Edge.loaded Sample.taxiForm created
               (Resolved Sample.listingWithBadTimestamp) Sample.now in
   error s' = None
   /\ List.length (expenses s') = 3%nat
   /\ forall l, Permutation (expenses s') l -> ~ Descending utc l)
  /\ (let s' := handleAdd utc Edge.loaded Sample.taxiForm created
                  (Resolved (VArr [Sample.rent; Edge.arrayDated])) Sample.now in
      List.length (expenses s') = 2%nat
      /\ expenses s' = expenses Edge.loaded
      /\ error s' = Some "Failed to add expense. Please try again.").
Proof.
  intro created. split.
  - intro s'. split; [vm_compute; reflexivity|].
    split; [vm_compute; reflexivity|].
    intros l Hp Hd.
    assert (Hlen : List.length l = 3%nat).
    { rewrite <- (Permutation_length Hp). vm_compute. reflexivity. }
    assert (Hv : allValid utc l = true)
      by (apply Descending_allValid; [exact Hd|lia]).
    apply (allValid_Permutation utc _ _ Hp) in Hv.
    vm_compute in Hv. discriminate Hv.
  - intro s'. split; [vm_compute; reflexivity|].
    split; vm_compute; reflexivity.
Qed.

(** C7 (as amended).  A create, update or delete request whose remote call
    fails leaves the collection as it was and surfaces a message; so does a
    create request whose refetch of the listing fails.  A request whose
    remote call succeeds clears the error when the handler reads the reply
    through: always for a delete; for an update whenever the reply carries no
    record (no truthy [id]) or its [expenseDate] is absent, falsy or a
    string; for a create whenever the reply carries an identifier and an
    [expenseDate] that is absent, falsy or a string, or carries no identifier
    and the listing resolves with records of that kind.  A create or an
    update whose remote call succeeds with a reply that carries an
    identifier and an [expenseDate] that is truthy and not a string, and a
    create whose refetched listing holds such a record, leaves the collection
    as it was and surfaces the message of a failure instead. *)
Theorem failure_keeps_collection_success_clears_error (host : Host) (s : State) :
  (forall newExpense detail listing now,
     let s' := handleAdd host s newExpense (Rejected detail) listing now in
     expenses s' = expenses s
     /\ error s' = Some "Failed to add expense. Please try again.")
  /\ (forall newExpense data detail now,
        hasExpenseData data = false ->
        let s' := handleAdd host s newExpense (Resolved data) (Rejected detail) now in
        expenses s' = expenses s
        /\ error s' = Some "Failed to add expense. Please try again.")
  /\ (forall id0 updated detail now,
        let s' := handleUpdate host s id0 updated (Rejected detail) now in
        expenses s' = expenses s
        /\ error s' = Some (String.append "Failed to update expense: " detail))
  /\ (forall id0 detail,
        let s' := handleDelete s id0 (Rejected detail) in
        expenses s' = expenses s
        /\ error s' = Some "Failed to delete expense. Please try again.")
  /\ (forall newExpense data listing now,
        hasExpenseData data = true -> wellFormedDate data ->
        error (handleAdd host s newExpense (Resolved data) listing now) = None)
  /\ (forall newExpense data raws now,
        hasExpenseData data = false ->
        (forall raw, In raw raws ->
                     truthy raw = true -> truthy (get raw "id") = true ->
                     wellFormedDate raw) ->
        error (handleAdd host s newExpense (Resolved data)
                 (Resolved (VArr raws)) now) = None)
  /\ (forall id0 updated data now,
        hasUpdatedData data = false \/ wellFormedDate data ->
        error (handleUpdate host s id0 updated (Resolved data) now) = None)
  /\ (forall id0 data, error (handleDelete s id0 (Resolved data)) = None)
  /\ (forall newExpense data listing now,
        hasExpenseData data = true -> badDate data ->
        let s' := handleAdd host s newExpense (Resolved data) listing now in
        expenses s' = expenses s
        /\ error s' = Some "Failed to add expense. Please try again.")
  /\ (forall newExpense data raws raw now,
        hasExpenseData data = false ->
        In raw raws ->
        truthy raw = true -> truthy (get raw "id") = true -> badDate raw ->
        let s' := handleAdd host s newExpense (Resolved data)
                    (Resolved (VArr raws)) now in
        expenses s' = expenses s
        /\ error s' = Some "Failed to add expense. Please try again.")
  /\ (forall id0 updated data now,
        hasUpdatedData data = true -> badDate data ->
        let s' := handleUpdate host s id0 updated (Resolved data) now in
        expenses s' = expenses s
        /\ exists detail,
             error s' = Some (String.append "Failed to update expense: " detail)).
Proof.
  assert (Hsplit : forall data fallback, badDate data ->
            exists msg, (if truthy (get data "expenseDate")
                         then splitT0 (get data "expenseDate")
                         else Ok fallback) = Throw msg).
  { intros data fallback [Ht Hns]. rewrite Ht.
    destruct (get data "expenseDate") as [| | | |d| |];
      cbn [splitT0]; try (eexists; reflexivity).
    exfalso. apply (Hns d). reflexivity. }
  split; [|split; [|split; [|split; [|split; [|split; [|split;
    [|split; [|split; [|split]]]]]]]]].
  - intros newExpense detail listing now. split; reflexivity.
  - intros newExpense data detail now Hno s'. subst s'.
    unfold handleAdd, tryAdd. cbn [await bind]. rewrite Hno.
    split; reflexivity.
  - intros id0 updated detail now. split; reflexivity.
  - intros id0 detail. split; reflexivity.
  - intros newExpense data listing now Hid Hd.
    unfold handleAdd, tryAdd, mappedFromCreate. cbn [await bind]. rewrite Hid.
    destruct (splitT0_wellFormed data (get newExpense "date") Hd) as [d ->].
    reflexivity.
  - intros newExpense data raws now Hno Hwf.
    destruct (mappedExpenses_total host now raws) as (normalized & _ & E).
    { intros raw Hin Hadm. unfold admitted in Hadm.
      apply andb_true_iff in Hadm as [H1 H2]. apply Hwf; assumption. }
    unfold handleAdd, tryAdd. cbn [await bind].
    rewrite Hno, E. reflexivity.
  - intros id0 updated data now Hd.
    unfold handleUpdate, tryUpdate, mappedFromUpdate. cbn [await bind].
    destruct (hasUpdatedData data); [|reflexivity].
    destruct Hd as [Hd|Hd]; [discriminate Hd|].
    destruct (splitT0_wellFormed data (get updated "date") Hd) as [d ->].
    reflexivity.
  - intros id0 data. reflexivity.
  - intros newExpense data listing now Hid Hbad s'. subst s'.
    unfold handleAdd, tryAdd, mappedFromCreate. cbn [await bind]. rewrite Hid.
    destruct (Hsplit data (get newExpense "date") Hbad) as [msg ->].
    split; reflexivity.
  - intros newExpense data raws raw now Hno Hin H1 H2 Hbad s'. subst s'.
    destruct (mappedExpenses_throws host now raws raw Hin) as [msg E];
      [unfold admitted; rewrite H1, H2; reflexivity|exact Hbad|].
    unfold handleAdd, tryAdd. cbn [await bind]. rewrite Hno, E.
    split; reflexivity.
  - intros id0 updated data now Hid Hbad s'. subst s'.
    unfold handleUpdate, tryUpdate, mappedFromUpdate. cbn [await bind].
    rewrite Hid.
    destruct (Hsplit data (get updated "date") Hbad) as [msg ->].
    cbn [bind expenses error]. split; [reflexivity|].
    eexists. reflexivity.
Qed.

Lemma failure_keeps_collection_success_clears_error_witness :
  let s := {| expenses := []; error := Some "Failed to add expense. Please try again.";
              editingId := VNull; loading := false |} in
  error (handleAdd utc s Sample.taxiForm (Resolved Sample.taxiReply)
           (Rejected "unused") Sample.now) = None
  /\ (let s' := handleUpdate utc Edge.loaded (Sample.num 1) Sample.taxiForm
                  (Resolved Edge.arrayDated) Sample.now in
      expenses s' = expenses Edge.loaded
      /\ exists detail,
           error s' = Some (String.append "Failed to update expense: " detail)).
Proof.
  intro s. split.
  - destruct (failure_keeps_collection_success_clears_error utc s)
      as (_ & _ & _ & _ & H & _).
    apply H.
    + reflexivity.
    + right. eexists. reflexivity.
  - destruct (failure_keeps_collection_success_clears_error utc Edge.loaded)
      as (_ & _ & _ & _ & _ & _ & _ & _ & _ & _ & H).
    apply H.
    + reflexivity.
    + split; [reflexivity|]. intros d Hd. discriminate Hd.
Defined.

(** C7 fails as stated.  No error is showing.  The service accepts a
    creation, and then an edit, and answers each with the record, its date
    given as an array of year, month and day: both remote calls succeed, yet
    the collection is left as it was and an error is surfaced rather than
    cleared. *)
Lemma accepted_request_surfaces_an_error :
  error Edge.loaded = None
  /\ hasExpenseData Edge.arrayDated = true
  /\ (let s' := handleAdd utc Edge.loaded Sample.taxiForm
                  (Resolved Edge.arrayDated) (Rejected "unused") Sample.now in
      expenses s' = expenses Edge.loaded
      /\ error s' = Some "Failed to add expense. Please try again.")
  /\ (let s' := handleUpdate utc Edge.loaded (Sample.num 1) Sample.taxiForm
                  (Resolved Edge.arrayDated) Sample.now in
      expenses s' = expenses Edge.loaded
      /\ error s' <> None).
Proof.
  split; [vm_compute; reflexivity|]. split; [vm_compute; reflexivity|].
  split.
  - split; vm_compute; reflexivity.
  - split; [vm_compute; reflexivity|]. vm_compute. discriminate.
Qed.

Lemma mappedFromCreate_total (host : Host) (now : Z) (newExpense data : value) :
  wellFormedDate data -> exists m, mappedFromCreate host now newExpense data = Ok m.
Proof.
  intro H. unfold mappedFromCreate.
  destruct (splitT0_wellFormed data (get newExpense "date") H) as [d ->].
  eexists. reflexivity.
Qed.

(** C9 (as amended).  For every create request whose reply carries a
    recognizable identifier (and an [expenseDate] that is absent or a
    string), the inserted canonical record takes the title, the category and
    the note from the reply whenever the reply's value is truthy, the amount
    whenever the reply's amount coerces to a number other than 0 and [NaN],
    and the date, cut at the first ['T'], whenever the reply's [expenseDate]
    is a string that is not empty; for a field that the reply omits, or
    includes with an empty, null or zero value, it falls back to the
    submitted value.  The id is the reply's [id], else its [expenseId]; the
    timestamp is the reply's [timestamp], else its [timeStamp], else the
    current instant. *)
Theorem create_takes_truthy_fields_of_reply (host : Host) (s : State)
    (newExpense data : value) (listing : reply) (now : Z) :
  hasExpenseData data = true ->
  wellFormedDate data ->
  exists m,
    expenses (handleAdd host s newExpense (Resolved data) listing now)
      = sort (byTimestampDesc host) (m :: expenses s)
    /\ id m = (if truthy (get data "id") then get data "id"
               else get data "expenseId")
    /\ title m = (if truthy (get data "title") then get data "title"
                  else get newExpense "title")
    /\ category m = (if truthy (get data "category") then get data "category"
                     else get newExpense "category")
    /\ note m = (if truthy (get data "note") then get data "note"
                 else get newExpense "note")
    /\ amount m = (if truthy (VNum (Number host (get data "amount")))
                   then VNum (Number host (get data "amount"))
                   else get newExpense "amount")
    /\ (truthy (get data "expenseDate") = false -> date m = get newExpense "date")
    /\ (forall d, get data "expenseDate" = VStr d -> d <> EmptyString ->
                  date m = VStr (Str.beforeT d))
    /\ timestamp m = (if truthy (get data "timestamp") then get data "timestamp"
                      else if truthy (get data "timeStamp")
                           then get data "timeStamp"
                           else VStr (DateTime.toISOString now)).
Proof.
  intros Hid Hwf.
  destruct (mappedFromCreate_total host now newExpense data Hwf) as [m Hm].
  exists m. split.
  { unfold handleAdd, tryAdd. cbn [await bind]. rewrite Hid, Hm. reflexivity. }
  revert Hm. unfold mappedFromCreate.
  destruct (truthy (get data "expenseDate")) eqn:Ed.
  - destruct (get data "expenseDate") as [| | | |d| |] eqn:Eg;
      cbn [splitT0 bind]; try discriminate.
    intros [= <-]. cbn [id title category amount date timestamp note].
    repeat split; try reflexivity.
    + discriminate.
    + intros d' [= ->] _. reflexivity.
  - cbn [bind]. intros [= <-].
    cbn [id title category amount date timestamp note].
    repeat split; try reflexivity.
    intros d Hd Hne. rewrite Hd in Ed. destruct d; [contradiction|discriminate].
Qed.

Lemma create_takes_truthy_fields_of_reply_witness :
  exists m,
    expenses (handleAdd utc initialState Sample.taxiForm
                (Resolved Sample.taxiReply) (Rejected "unused") Sample.now)
    = sort (byTimestampDesc utc) (m :: expenses initialState)
    /\ title m = VStr "Taxi"
    /\ note m = VStr "airport".
Proof.
  destruct (create_takes_truthy_fields_of_reply utc initialState Sample.taxiForm
              Sample.taxiReply (Rejected "unused") Sample.now)
    as (m & Hins & _ & Ht & _ & Hn & _).
  - reflexivity.
  - right. eexists. reflexivity.
  - exists m. split; [exact Hins|]. split; [exact Ht|exact Hn].
Defined.

(** C9 fails as stated: the reply includes the field [note], with the empty
    string as its value; the inserted record does not take it and keeps the
    submitted note. *)
Lemma create_ignores_empty_note_of_reply :
  exists m,
    hasExpenseData Sample.taxiReply = true
    /\ get Sample.taxiReply "note" = VStr EmptyString
    /\ get Sample.taxiForm "note" = VStr "airport"
    /\ mappedFromCreate utc Sample.now Sample.taxiForm Sample.taxiReply = Ok m
    /\ In m (expenses (handleAdd utc initialState Sample.taxiForm
                         (Resolved Sample.taxiReply) (Rejected "unused")
                         Sample.now))
    /\ note m = VStr "airport"
    /\ note m <> get Sample.taxiReply "note".
Proof.
  eexists. split; [reflexivity|]. split; [reflexivity|]. split; [reflexivity|].
  split; [vm_compute; reflexivity|].
  split; [vm_compute; left; reflexivity|].
  split; [reflexivity|discriminate].
Qed.

(** ** Aggregator *)

Section CategorySeries.

Variable host : Host.

Lemma mem_In (k : string) (ks : list string) : mem k ks = true <-> In k ks.
Proof.
  unfold mem. rewrite existsb_exists. split.
  - intros (y & Hy & E). apply String.eqb_eq in E. subst. exact Hy.
  - intro H. exists k. split; [exact H|apply String.eqb_refl].
Qed.

Lemma mapGet_mapSet (k k' : string) (v : Num.number) (m : Map) :
  mapGet k (mapSet k' v m) = if String.eqb k k' then Some v else mapGet k m.
Proof.
  induction m as [|[k0 v0] m IH]; simpl.
  - destruct (String.eqb k k'); reflexivity.
  - destruct (String.eqb k' k0) eqn:E0; simpl.
    + apply String.eqb_eq in E0. subst k0.
      destruct (String.eqb k k'); reflexivity.
    + destruct (String.eqb k k0) eqn:E1.
      * apply String.eqb_eq in E1. subst k0.
        rewrite String.eqb_sym, E0. reflexivity.
      * exact IH.
Qed.

Lemma keys_mapSet (k : string) (v : Num.number) (m : Map) :
  map fst (mapSet k v m)
  = if mem k (map fst m) then map fst m else map fst m ++ [k].
Proof.
  unfold mem. induction m as [|[k0 v0] m IH]; simpl.
  - reflexivity.
  - destruct (String.eqb k k0); simpl.
    + reflexivity.
    + rewrite IH. destruct (existsb (String.eqb k) (map fst m)); reflexivity.
Qed.

Lemma getOr0_current (k : string) (m : Map) : getOr0 k m = or0 (current k m).
Proof.
  unfold getOr0, current. destruct (mapGet k m); reflexivity.
Qed.

Lemma current_accumulate (k : string) (m : Map) (p : string * Num.number) :
  current k (accumulate m p)
  = if String.eqb k (fst p) then Num.add (or0 (current k m)) (snd p)
    else current k m.
Proof.
  unfold accumulate. unfold current at 1. rewrite mapGet_mapSet.
  destruct (String.eqb k (fst p)) eqn:E; [|reflexivity].
  apply String.eqb_eq in E. subst k. rewrite getOr0_current. reflexivity.
Qed.

Lemma current_fold (k : string) (pairs : list (string * Num.number)) (m : Map) :
  current k (fold_left accumulate pairs m)
  = loopSumFrom (current k m) (groupAmounts k pairs).
Proof.
  revert m. induction pairs as [|p pairs IH]; intro m; simpl.
  - reflexivity.
  - rewrite IH, current_accumulate. unfold groupAmounts. simpl.
    destruct (String.eqb k (fst p)); reflexivity.
Qed.

Lemma filter_absorb {A : Type} (P Q : A -> bool) (l : list A) :
  (forall y, P y = true -> Q y = true) ->
  filter P (filter Q l) = filter P l.
Proof.
  intro H. induction l as [|y l IH]; simpl; [reflexivity|].
  destruct (Q y) eqn:EQ; simpl.
  - rewrite IH. reflexivity.
  - destruct (P y) eqn:EP; [|exact IH].
    rewrite (H y EP) in EQ. discriminate.
Qed.

Lemma filter_both {A : Type} (P Q R : A -> bool) (l : list A) :
  (forall y, R y = P y && Q y) ->
  filter R l = filter P (filter Q l).
Proof.
  intro H. induction l as [|y l IH]; simpl; [reflexivity|].
  rewrite H. destruct (Q y); simpl.
  - rewrite andb_true_r. destruct (P y); rewrite IH; reflexivity.
  - rewrite andb_false_r. exact IH.
Qed.

Lemma keys_fold (pairs : list (string * Num.number)) (m : Map) :
  map fst (fold_left accumulate pairs m)
  = map fst m
    ++ filter (fun k => negb (mem k (map fst m))) (firstSeen (map fst pairs)).
Proof.
  revert m. induction pairs as [|[k x] pairs IH]; intro m; simpl.
  - rewrite app_nil_r. reflexivity.
  - rewrite IH. unfold accumulate at 1 2. cbn [fst snd].
    rewrite keys_mapSet. destruct (mem k (map fst m)) eqn:E; cbn [negb].
    + f_equal. symmetry. apply filter_absorb.
      intros y Hy. apply negb_true_iff. apply negb_true_iff in Hy.
      destruct (String.eqb k y) eqn:Eky; [|reflexivity].
      apply String.eqb_eq in Eky. subst y. congruence.
    + rewrite <- app_assoc. cbn [app]. do 2 f_equal.
      apply filter_both. intro y. unfold mem.
      rewrite existsb_app. cbn [existsb]. rewrite orb_false_r, negb_orb.
      rewrite (String.eqb_sym y k). reflexivity.
Qed.

Lemma keys_fold_NoDup (pairs : list (string * Num.number)) (m : Map) :
  NoDup (map fst m) -> NoDup (map fst (fold_left accumulate pairs m)).
Proof.
  revert m. induction pairs as [|p pairs IH]; intros m Hm; simpl.
  - exact Hm.
  - apply IH. unfold accumulate. rewrite keys_mapSet.
    destruct (mem (fst p) (map fst m)) eqn:E; [exact Hm|].
    apply NoDup_app.
    + exact Hm.
    + constructor; [intros []|constructor].
    + intros y Hy [<-|[]]. apply mem_In in Hy. congruence.
Qed.

Lemma values_by_key (m : Map) :
  NoDup (map fst m) -> map snd m = map (fun k => current k m) (map fst m).
Proof.
  induction m as [|[k v] m IH]; simpl; intro Hn.
  - reflexivity.
  - inversion Hn as [|? ? Hk Hm]; subst. f_equal.
    + unfold current. simpl. rewrite String.eqb_refl. reflexivity.
    + rewrite (IH Hm). apply map_ext_in. intros k' Hk'.
      unfold current. simpl.
      destruct (String.eqb k' k) eqn:E; [|reflexivity].
      apply String.eqb_eq in E. subst k'. contradiction.
Qed.

Lemma categoryLoop_fold (l : list Expense) (m m' : Map) :
  categoryLoop host l m = Ok m' ->
  exists keys, mapM categoryKey l = Ok keys
               /\ m' = fold_left accumulate
                         (combine keys (map (amountOf host) l)) m.
Proof.
  revert m. induction l as [|e l IH]; intro m; simpl.
  - intros [= <-]. exists []. split; reflexivity.
  - destruct (categoryKey e) as [key|]; cbn [bind]; [|discriminate].
    intro H. destruct (IH _ H) as (keys & -> & ->).
    exists (key :: keys). split; reflexivity.
Qed.

Lemma or0_clean (a : Num.number) : clean a = true -> or0 a = a.
Proof.
  destruct a as [[]|[]| |[]]; simpl; intro H; try discriminate; reflexivity.
Qed.

Lemma loopSumFrom_clean (xs : list Num.number) (acc : Num.number) :
  cleanRun acc xs = true -> loopSumFrom acc xs = fold_left Num.add xs acc.
Proof.
  revert acc. induction xs as [|x xs IH]; intros acc; simpl.
  - reflexivity.
  - intro H. apply andb_true_iff in H as [Hc Hr].
    unfold loopSumFrom in *. simpl. rewrite (or0_clean _ Hc).
    apply IH, Hr.
Qed.

Lemma combine_fst {A B : Type} (l : list A) (l' : list B) :
  List.length l = List.length l' -> map fst (combine l l') = l.
Proof.
  revert l'. induction l as [|x l IH]; intros [|y l']; simpl;
    try discriminate; intro H; [reflexivity|].
  f_equal. apply IH. congruence.
Qed.

Lemma categoryKey_string (e : Expense) (s : string) :
  category e = VStr s ->
  categoryKey e = Ok (if Str.isEmpty (Str.trim s) then "General" else Str.trim s).
Proof.
  unfold categoryKey, jsOr. intros ->.
  destruct s as [|c s]; reflexivity.
Qed.

End CategorySeries.

Lemma categoryKey_total (e : Expense) :
  textCategory e -> exists key, categoryKey e = Ok key.
Proof.
  unfold categoryKey, jsOr. intros [H|[s H]].
  - rewrite H. eexists. reflexivity.
  - rewrite H. destruct (truthy (VStr s)); eexists; reflexivity.
Qed.

Lemma categoryLoop_total (host : Host) (l : list Expense) (m : Map) :
  Forall textCategory l -> exists m', categoryLoop host l m = Ok m'.
Proof.
  intro H. revert m. induction H as [|e l He _ IH]; intro m; simpl.
  - eexists. reflexivity.
  - destruct (categoryKey_total e He) as [key ->]. cbn [bind]. apply IH.
Qed.

Lemma categoryLoop_throws (host : Host) (l : list Expense) (e : Expense)
    (m : Map) (msg : string) :
  In e l -> categoryKey e = Throw msg ->
  exists msg', categoryLoop host l m = Throw msg'.
Proof.
  intros Hin He. revert m. induction l as [|x l IH]; intro m; [destruct Hin|].
  simpl. destruct (categoryKey x) as [key|msg0] eqn:Ex; cbn [bind];
    [|eexists; reflexivity].
  destruct Hin as [->|Hin]; [congruence|]. apply IH, Hin.
Qed.

Lemma allSpaces_app (a b : string) :
  allSpaces (a ++ b) = allSpaces a && allSpaces b.
Proof.
  induction a as [|c a IH]; simpl; [reflexivity|].
  rewrite IH. apply andb_assoc.
Qed.

Lemma trimStart_parts (s : string) :
  exists pre,
    s = (pre ++ Str.trimStart s)%string
    /\ allSpaces pre = true
    /\ startsWithSpace (Str.trimStart s) = false.
Proof.
  induction s as [|c s IH]; cbn [Str.trimStart].
  - exists EmptyString. repeat split.
  - destruct (Str.isSpace c) eqn:Ec.
    + destruct IH as (pre & E & Hp & Hs). exists (String c pre).
      cbn [String.append allSpaces]. rewrite Ec, Hp.
      split; [f_equal; exact E|]. split; [reflexivity|exact Hs].
    + exists EmptyString. cbn [String.append allSpaces startsWithSpace].
      split; [reflexivity|]. split; [reflexivity|exact Ec].
Qed.

Lemma trimEnd_parts (s : string) :
  exists post,
    s = (Str.trimEnd s ++ post)%string
    /\ allSpaces post = true
    /\ endsWithSpace (Str.trimEnd s) = false.
Proof.
  induction s as [|c s IH]; cbn [Str.trimEnd].
  - exists EmptyString. repeat split.
  - destruct IH as (post & E & Hp & He).
    destruct (Str.trimEnd s) as [|c' t].
    + cbn [String.append] in E. destruct (Str.isSpace c) eqn:Ec.
      * exists (String c post). cbn [String.append allSpaces endsWithSpace].
        rewrite Ec, Hp. split; [f_equal; exact E|]. split; reflexivity.
      * exists post. cbn [String.append endsWithSpace].
        split; [f_equal; exact E|]. split; [exact Hp|exact Ec].
    + exists post. cbn [String.append].
      split; [f_equal; exact E|]. split; [exact Hp|exact He].
Qed.

Lemma trimEnd_keeps_start (s : string) :
  startsWithSpace s = false -> startsWithSpace (Str.trimEnd s) = false.
Proof.
  destruct s as [|c s]; cbn [Str.trimEnd startsWithSpace]; [reflexivity|].
  intro H. destruct (Str.trimEnd s); [rewrite H|]; exact H.
Qed.

Lemma trim_parts (s : string) :
  exists pre post,
    s = (pre ++ Str.trim s ++ post)%string
    /\ allSpaces pre = true /\ allSpaces post = true
    /\ startsWithSpace (Str.trim s) = false
    /\ endsWithSpace (Str.trim s) = false.
Proof.
  unfold Str.trim.
  destruct (trimStart_parts s) as (pre & E1 & Hp1 & Hs).
  destruct (trimEnd_parts (Str.trimStart s)) as (post & E2 & Hp2 & He).
  exists pre, post. split; [rewrite <- E2; exact E1|].
  split; [exact Hp1|]. split; [exact Hp2|].
  split; [apply trimEnd_keeps_start, Hs|exact He].
Qed.

Lemma trimmed_groupOf (s : string) :
  groupOf (VStr s)
    (if Str.isEmpty (Str.trim s) then "General" else Str.trim s).
Proof.
  destruct (trim_parts s) as (pre & post & E & Hp1 & Hp2 & Hs & He).
  cbn [groupOf]. destruct (Str.trim s) as [|c t] eqn:Et; cbn [Str.isEmpty].
  - left. split; [|reflexivity].
    rewrite E. rewrite !allSpaces_app, Hp1, Hp2. reflexivity.
  - right. exists pre, post. repeat split; assumption.
Qed.

Lemma categoryKey_groupOf (e : Expense) (key : string) :
  categoryKey e = Ok key -> groupOf (category e) key.
Proof.
  unfold categoryKey, jsOr.
  destruct (category e) as [| |b|n|s|a|o]; cbn [truthy].
  - intros [= <-]. split; reflexivity.
  - intros [= <-]. split; reflexivity.
  - destruct b; [discriminate|]. intros [= <-]. split; reflexivity.
  - destruct (Num.isNaN n || Num.isZero n) eqn:En; cbn [negb]; [|discriminate].
    intros [= <-]. split; [cbn [truthy]; rewrite En|]; reflexivity.
  - destruct s as [|c s]; cbn [Str.isEmpty negb].
    + intros [= <-]. left. split; reflexivity.
    + intros [= <-]. apply trimmed_groupOf.
  - discriminate.
  - discriminate.
Qed.

Lemma mapM_Forall2 {A B : Type} (f : A -> exn B) (l : list A) (l' : list B) :
  mapM f l = Ok l' -> Forall2 (fun x y => f x = Ok y) l l'.
Proof.
  revert l'. induction l as [|x l IH]; intros l'; simpl.
  - intros [= <-]. constructor.
  - destruct (f x) as [y|] eqn:Ex; cbn [bind]; [|discriminate].
    destruct (mapM f l) as [ys|]; cbn [bind]; [|discriminate].
    intros [= <-]. constructor; [exact Ex|apply IH; reflexivity].
Qed.

(** C8 (as amended).  For every filtered subset whose records each have a
    category that is a string or falsy, the category aggregation groups the
    records by the trimmed category (the category without the white space at
    its two ends; an absent, empty or whitespace-only category folds into
    "General"); the labels are the distinct groups in the order they are
    first seen, not sorted; the value at each position is accumulated over
    the amounts of the group of the label at that position, in the order of
    the records, through [(acc || 0) + amount], which is the sum of those
    amounts whenever no running sum is [NaN] or the negative zero.  For a
    subset with a record whose category is truthy and not a string the
    aggregation throws and gives no series. *)
Theorem category_series_first_seen_order (host : Host) (l : list Expense) :
  (Forall textCategory l ->
   exists series keys,
     categoryAgg host l = Ok series
     /\ Forall2 (fun e key => groupOf (category e) key) l keys
     /\ labels series = firstSeen keys
     /\ data series
        = map (fun k => loopSum
                          (groupAmounts k (combine keys (map (amountOf host) l))))
            (labels series)
     /\ (forall k,
           cleanRun Num.zero
             (groupAmounts k (combine keys (map (amountOf host) l))) = true ->
           loopSum (groupAmounts k (combine keys (map (amountOf host) l)))
           = plainSum (groupAmounts k (combine keys (map (amountOf host) l)))))
  /\ (forall e,
        In e l -> truthy (category e) = true ->
        (forall c, category e <> VStr c) ->
        exists msg, categoryAgg host l = Throw msg).
Proof.
  split.
  - intro Htext.
    destruct (categoryLoop_total host l [] Htext) as [m E].
    destruct (categoryLoop_fold host l [] m E) as (keys & Hk & ->).
    eexists. exists keys. unfold categoryAgg. rewrite E. cbn [bind].
    split; [reflexivity|].
    split.
    { apply mapM_Forall2 in Hk.
      eapply Forall2_impl; [|exact Hk].
      intros e key He. apply categoryKey_groupOf, He. }
    cbn [labels data].
    assert (Hlen : List.length keys = List.length (map (amountOf host) l))
      by (rewrite length_map; apply (mapM_length _ _ _ Hk)).
    assert (Hlab : map fst (fold_left accumulate
                              (combine keys (map (amountOf host) l)) [])
                   = firstSeen keys).
    { rewrite keys_fold. cbn [map app]. rewrite (combine_fst _ _ Hlen).
      clear. induction (firstSeen keys) as [|k ks IH]; simpl; [reflexivity|].
      f_equal. exact IH. }
    split; [exact Hlab|].
    split.
    + rewrite values_by_key by (apply keys_fold_NoDup; constructor).
      apply map_ext. intro k. rewrite current_fold. reflexivity.
    + intros k Hc. apply loopSumFrom_clean, Hc.
  - intros e Hin Ht Hns.
    assert (Hthrow : exists msg, categoryKey e = Throw msg).
    { unfold categoryKey, jsOr. rewrite Ht.
      destruct (category e) as [| | | |c| |]; try (eexists; reflexivity).
      exfalso. apply (Hns c). reflexivity. }
    destruct Hthrow as [msg Hthrow].
    destruct (categoryLoop_throws host l e [] msg Hin Hthrow) as [msg' E].
    unfold categoryAgg. rewrite E. eexists. reflexivity.
Qed.

Lemma category_series_first_seen_order_witness :
  exists series keys,
    categoryAgg utc [Sample.food; Sample.blank; Edge.padded] = Ok series
    /\ Forall2 (fun e key => groupOf (category e) key)
         [Sample.food; Sample.blank; Edge.padded] keys
    /\ labels series = firstSeen keys
    /\ labels series = ["Food"; "General"]
    /\ data series = [Num.ofZ 12; Num.ofZ 5].
Proof.
  destruct (proj1 (category_series_first_seen_order utc
                     [Sample.food; Sample.blank; Edge.padded]))
    as (series & keys & E & Hk & Hl & _).
  - repeat (apply Forall_cons; [right; eexists; reflexivity|]).
    apply Forall_nil.
  - exists series, keys. split; [exact E|]. split; [exact Hk|].
    split; [exact Hl|].
    vm_compute in E. injection E as <-. split; reflexivity.
Defined.

(** C8 fails as stated.  Three visible records of the category "Food" have
    the amounts [Infinity], [-Infinity] and 5: the value of the group is 5,
    while the sum of the three amounts is [NaN].  And the category of a
    visible record is the number 7: the aggregation throws, and there is no
    series. *)
Lemma category_series_not_the_sum_or_none :
  (exists series,
     categoryAgg utc Edge.cancelling = Ok series
     /\ labels series = ["Food"]
     /\ data series = [Num.ofZ 5]
     /\ plainSum (map (amountOf utc) Edge.cancelling) = Num.nan)
  /\ (exists msg, categoryAgg utc [Edge.numbered] = Throw msg).
Proof.
  split.
  - eexists. split; [vm_compute; reflexivity|].
    split; [reflexivity|]. split; [reflexivity|]. vm_compute. reflexivity.
  - eexists. vm_compute. reflexivity.
Qed.

(** The example of the specification: a record of category "Food" with
    amount 10 and a record with a blank category and amount 5 give the labels
    Food, General and the values 10, 5. *)
Example category_series_of_the_specification :
  categoryAgg utc [Sample.food; Sample.blank]
  = Ok {| labels := ["Food"; "General"]; data := [Num.ofZ 10; Num.ofZ 5] |}.
Proof. vm_compute. reflexivity. Qed.

(** * Further properties of the code *)

(** ** Ordering policy: the sort applied again *)

Section SortAgain.

Variable host : Host.

Lemma sort_of_Descending (l : list Expense) :
  Descending host l -> sort (byTimestampDesc host) l = l.
Proof.
  induction 1 as [|x l Hs IH Hx]; simpl; [reflexivity|].
  rewrite IH. destruct l as [|y l']; simpl; [reflexivity|].
  inversion Hx as [|? ? Hxy _]; subst.
  unfold SortCompare, byTimestampDesc. unfold timeGe in Hxy.
  destruct (newDate host (timestamp x)) as [tx|]; [|contradiction].
  destruct (newDate host (timestamp y)) as [ty|]; [|contradiction].
  destruct (Z.leb_spec (ty - tx) 0); [reflexivity|lia].
Qed.

Lemma insert_same_instant (k : option Z) (x : Expense) (l : list Expense) :
  filter (sameInstant host k) (insert (byTimestampDesc host) x l)
  = filter (sameInstant host k) (x :: l).
Proof.
  induction l as [|y l IH]; [reflexivity|].
  cbn [insert]. unfold SortCompare at 1.
  destruct (byTimestampDesc host x y) as [v|] eqn:E; [|reflexivity].
  destruct (Z.leb_spec v 0) as [Hle|Hgt]; [reflexivity|].
  unfold byTimestampDesc in E.
  destruct (newDate host (timestamp y)) as [ty|] eqn:Ey; [|discriminate].
  destruct (newDate host (timestamp x)) as [tx|] eqn:Ex; [|discriminate].
  injection E as <-.
  cbn [filter] in *. rewrite IH.
  assert (Sx : sameInstant host k x
               = match k with Some t' => tx =? t' | None => false end)
    by (unfold sameInstant; rewrite Ex; reflexivity).
  assert (Sy : sameInstant host k y
               = match k with Some t' => ty =? t' | None => false end)
    by (unfold sameInstant; rewrite Ey; reflexivity).
  rewrite Sx, Sy.
  destruct k as [t'|]; [|reflexivity].
  destruct (Z.eqb_spec tx t'), (Z.eqb_spec ty t'); try reflexivity. lia.
Qed.

End SortAgain.

(** X1.  Sorting by timestamp is stable under repetition: on a collection
    whose timestamps are valid instants, sorting twice gives what sorting
    once gives, and a collection that is already in descending order is
    returned as it is. *)
Theorem sort_again_changes_nothing (host : Host) (l : list Expense) :
  allValid host l = true ->
  sort (byTimestampDesc host) (sort (byTimestampDesc host) l)
  = sort (byTimestampDesc host) l
  /\ (Descending host l -> sort (byTimestampDesc host) l = l).
Proof.
  intro Hv. split; [|apply sort_of_Descending].
  apply sort_of_Descending, sort_Descending.
  eapply allValid_Permutation; [apply Permutation_sym, sort_Permutation|exact Hv].
Qed.

Lemma sort_again_changes_nothing_witness :
  let l := expenses (step utc initialState
                       (Load (Resolved Sample.listing) Sample.now)) in
  sort (byTimestampDesc utc) (sort (byTimestampDesc utc) l)
  = sort (byTimestampDesc utc) l
  /\ (Descending utc l -> sort (byTimestampDesc utc) l = l).
Proof.
  intro l. apply (sort_again_changes_nothing utc l). vm_compute. reflexivity.
Defined.

(** X2.  The sort is stable: on a collection in which every timestamp is a
    valid date, the records that share an instant stand after the sort in
    the order they had before it. *)
Theorem sort_keeps_order_of_equal_timestamps (host : Host) (k : Z)
    (l : list Expense) :
  allValid host l = true ->
  filter (sameInstant host (Some k)) (sort (byTimestampDesc host) l)
  = filter (sameInstant host (Some k)) l.
Proof.
  intros _. induction l as [|x l IH]; [reflexivity|].
  cbn [sort]. rewrite insert_same_instant.
  cbn [filter]. rewrite IH. reflexivity.
Qed.

Lemma sort_keeps_order_of_equal_timestamps_witness :
  let l := [Sample.dated 1 "Tea" "2024-03-01"; Sample.dated 2 "Bus" "2024-04-01";
            Sample.dated 3 "Pie" "2024-03-01"] in
  filter (sameInstant utc (Some 1709251200000)) (sort (byTimestampDesc utc) l)
  = [Sample.dated 1 "Tea" "2024-03-01"; Sample.dated 3 "Pie" "2024-03-01"].
Proof.
  intro l.
  refine (eq_trans
            (sort_keeps_order_of_equal_timestamps utc 1709251200000 l _) _);
    vm_compute; reflexivity.
Defined.

(** ** Reconciliation controller: what a mutation does to the collection *)

Lemma filter_complement_length {A : Type} (p : A -> bool) (l : list A) :
  (List.length (filter p l) + List.length (filter (fun x => negb (p x)) l)
   = List.length l)%nat.
Proof.
  induction l as [|x l IH]; simpl; [reflexivity|].
  destruct (p x); simpl; lia.
Qed.

Lemma filter_none {A : Type} (p : A -> bool) (l : list A) :
  List.length (filter p l) = 0%nat -> filter (fun x => negb (p x)) l = l.
Proof.
  induction l as [|x l IH]; simpl; [reflexivity|].
  destruct (p x); simpl; [discriminate|]. intro H. f_equal. apply IH, H.
Qed.

Lemma map_replace_none (id0 : value) (m : Expense) (l : list Expense) :
  countId id0 l = 0%nat ->
  map (fun e => if strictEq (id e) id0 then m else e) l = l.
Proof.
  unfold countId. induction l as [|x l IH]; simpl; [reflexivity|].
  destruct (strictEq (id x) id0); simpl; [discriminate|].
  intro H. f_equal. apply IH, H.
Qed.

(** X3.  A create request whose reply carries the record (with an
    [expenseDate] that is absent or a string) adds exactly one record: the
    collection afterwards is a rearrangement of the new record and the
    records held before, none lost and none changed. *)
Theorem create_adds_exactly_one_record (host : Host) (s : State)
    (newExpense data : value) (listing : reply) (now : Z) :
  hasExpenseData data = true ->
  wellFormedDate data ->
  let s' := handleAdd host s newExpense (Resolved data) listing now in
  exists m,
    mappedFromCreate host now newExpense data = Ok m
    /\ Permutation (m :: expenses s) (expenses s')
    /\ List.length (expenses s') = S (List.length (expenses s))
    /\ truthy (id m) = true.
Proof.
  intros Hid Hwf s'. subst s'.
  destruct (mappedFromCreate_total host now newExpense data Hwf) as [m Hm].
  exists m. split; [exact Hm|].
  unfold handleAdd, tryAdd. cbn [await bind]. rewrite Hid, Hm.
  cbn [bind expenses].
  split; [apply sort_Permutation|].
  split; [rewrite sort_length; reflexivity|].
  revert Hm. unfold mappedFromCreate.
  destruct (if truthy (get data "expenseDate") then _ else _) as [d|];
    cbn [bind]; [|discriminate].
  intros [= <-]. cbn [id].
  unfold hasExpenseData in Hid. apply andb_true_iff in Hid as [_ Hid].
  exact Hid.
Qed.

Lemma create_adds_exactly_one_record_witness :
  let s := step utc initialState (Load (Resolved Sample.listing) Sample.now) in
  let s' := handleAdd utc s Sample.taxiForm (Resolved Sample.taxiReply)
              (Rejected "unused") Sample.now in
  exists m,
    mappedFromCreate utc Sample.now Sample.taxiForm Sample.taxiReply = Ok m
    /\ Permutation (m :: expenses s) (expenses s')
    /\ List.length (expenses s') = S (List.length (expenses s))
    /\ truthy (id m) = true.
Proof.
  intros s s'.
  apply (create_adds_exactly_one_record utc s Sample.taxiForm Sample.taxiReply
           (Rejected "unused") Sample.now).
  - reflexivity.
  - right. eexists. reflexivity.
Defined.

(** X4.  An update never changes the number of records, whatever the reply.
    When the identifier that is edited is a primitive value (a number, a
    string, a boolean, [null] or [undefined]) and no record carries it, the
    edit is dropped: a collection in descending order is left exactly as it
    was. *)
Theorem update_of_unknown_id_changes_nothing (host : Host) (s : State)
    (id0 updated : value) (r : reply) (now : Z) :
  List.length (expenses (handleUpdate host s id0 updated r now))
  = List.length (expenses s)
  /\ (isPrimitive id0 = true ->
      countId id0 (expenses s) = 0%nat -> Descending host (expenses s) ->
      expenses (handleUpdate host s id0 updated r now) = expenses s).
Proof.
  unfold handleUpdate, tryUpdate.
  destruct (await r) as [response|]; cbn [bind expenses]; [|auto].
  destruct (mappedFromUpdate host now id0 updated response) as [m|];
    cbn [bind expenses]; [|auto].
  split.
  - rewrite sort_length, length_map. reflexivity.
  - intros _ Hc Hd. rewrite (map_replace_none _ _ _ Hc).
    apply sort_of_Descending, Hd.
Qed.

Lemma update_of_unknown_id_changes_nothing_witness :
  let s := step utc initialState (Load (Resolved Sample.listing) Sample.now) in
  expenses (handleUpdate utc s (Sample.num 99) Sample.taxiForm
              (Resolved (VStr "Expense updated")) Sample.now)
  = expenses s.
Proof.
  intro s.
  apply (proj2 (update_of_unknown_id_changes_nothing utc s (Sample.num 99)
                  Sample.taxiForm (Resolved (VStr "Expense updated"))
                  Sample.now)).
  - reflexivity.
  - reflexivity.
  - apply sort_Descending. vm_compute. reflexivity.
Defined.

Lemma countId_positive (id0 : value) (l : list Expense) :
  countId id0 l <> 0%nat -> exists e, In e l /\ strictEq (id e) id0 = true.
Proof.
  unfold countId. intro H.
  destruct (filter (fun e => strictEq (id e) id0) l) as [|e rest] eqn:E;
    [contradiction|].
  exists e. apply (filter_In (fun e => strictEq (id e) id0)).
  rewrite E. left. reflexivity.
Qed.

(** X5.  An update that the service acknowledges without returning the
    record stamps the edited record with the current instant: when every
    other record is older than that instant, the edited record stands first
    in the collection afterwards. *)
Theorem acknowledged_update_moves_record_to_top (host : Host) (s : State)
    (id0 updated data : value) (now t : Z) :
  hasUpdatedData data = false ->
  countId id0 (expenses s) <> 0%nat ->
  newDate host (VStr (DateTime.toISOString now)) = Some t ->
  (forall e, In e (expenses s) -> strictEq (id e) id0 = false ->
             exists t', newDate host (timestamp e) = Some t' /\ t' < t) ->
  hd_error (expenses (handleUpdate host s id0 updated (Resolved data) now))
  = Some (synthesized now id0 updated).
Proof.
  intros Hack Hcount Hnow Holder.
  unfold handleUpdate, tryUpdate, mappedFromUpdate. cbn [await bind].
  rewrite Hack. cbn [bind expenses].
  fold (synthesized now id0 updated).
  set (m := synthesized now id0 updated).
  set (L := map (fun e => if strictEq (id e) id0 then m else e) (expenses s)).
  assert (Hm : newDate host (timestamp m) = Some t) by exact Hnow.
  assert (HL : forall h, In h L ->
             h = m \/ exists t', newDate host (timestamp h) = Some t' /\ t' < t).
  { intros h Hh. apply in_map_iff in Hh as (e & <- & He).
    destruct (strictEq (id e) id0) eqn:E; [left; reflexivity|right].
    apply Holder; assumption. }
  assert (HmL : In m L).
  { destruct (countId_positive _ _ Hcount) as (e & He & E).
    apply in_map_iff. exists e. rewrite E. split; [reflexivity|exact He]. }
  assert (Hv : allValid host (sort (byTimestampDesc host) L) = true).
  { unfold allValid. apply forallb_forall. intros h Hh.
    apply sort_In in Hh. unfold validTime.
    destruct (HL h Hh) as [->|(t' & -> & _)]; [rewrite Hm|]; reflexivity. }
  pose proof (sort_Descending host L Hv) as Hd.
  assert (HmS : In m (sort (byTimestampDesc host) L)) by (apply sort_In, HmL).
  destruct (sort (byTimestampDesc host) L) as [|h rest] eqn:Es;
    [destruct HmS|].
  cbn [hd_error]. f_equal.
  assert (Hh : In h L) by (apply (sort_In (byTimestampDesc host)); rewrite Es;
                           left; reflexivity).
  destruct (HL h Hh) as [->|(t' & Ht' & Hlt)]; [reflexivity|].
  destruct HmS as [->|Hrest]; [reflexivity|exfalso].
  inversion Hd as [|? ? _ Hall]; subst.
  rewrite Forall_forall in Hall. specialize (Hall m Hrest).
  unfold timeGe in Hall. rewrite Ht', Hm in Hall. lia.
Qed.

Lemma acknowledged_update_moves_record_to_top_witness :
  let s := step utc initialState (Load (Resolved Sample.listing) Sample.now) in
  hd_error (expenses (handleUpdate utc s (Sample.num 1) Sample.taxiForm
                        (Resolved (VStr "Expense updated")) Sample.now))
  = Some (synthesized Sample.now (Sample.num 1) Sample.taxiForm).
Proof.
  intro s.
  apply (acknowledged_update_moves_record_to_top utc s (Sample.num 1)
           Sample.taxiForm (VStr "Expense updated") Sample.now Sample.now).
  - reflexivity.
  - vm_compute. discriminate.
  - vm_compute. reflexivity.
  - intros e He Hid. vm_compute in He.
    destruct He as [<-|[<-|[]]].
    + eexists. split; [vm_compute; reflexivity|vm_compute; reflexivity].
    + vm_compute in Hid. discriminate.
Defined.

(** X6.  A delete that succeeds, of an identifier that is a primitive value
    (a number, a string, a boolean, [null] or [undefined]), removes the
    records that carry the identifier, all of them and nothing else: every
    other record stays, and the count drops by the number of records
    removed. *)
Theorem delete_removes_the_records_of_the_id (s : State) (id0 data : value) :
  isPrimitive id0 = true ->
  let s' := handleDelete s id0 (Resolved data) in
  (forall e, In e (expenses s') <->
             In e (expenses s) /\ strictEq (id e) id0 = false)
  /\ countId id0 (expenses s') = 0%nat
  /\ (List.length (expenses s') + countId id0 (expenses s)
      = List.length (expenses s))%nat.
Proof.
  intros _. unfold handleDelete. cbn [await expenses].
  split; [|split].
  - intro e. rewrite filter_In, negb_true_iff. reflexivity.
  - unfold countId. induction (expenses s) as [|x l IH]; simpl; [reflexivity|].
    destruct (strictEq (id x) id0) eqn:E; simpl; [exact IH|].
    rewrite E. exact IH.
  - unfold countId.
    rewrite Nat.add_comm. apply (filter_complement_length (fun e => strictEq (id e) id0)).
Qed.

Lemma delete_removes_the_records_of_the_id_witness :
  let s' := handleDelete Edge.loaded (Sample.num 3) (Resolved (VStr "deleted")) in
  map id (expenses s') = [Sample.num 1]
  /\ countId (Sample.num 3) (expenses s') = 0%nat
  /\ (List.length (expenses s') + countId (Sample.num 3) (expenses Edge.loaded)
      = List.length (expenses Edge.loaded))%nat.
Proof.
  intro s'.
  destruct (delete_removes_the_records_of_the_id Edge.loaded (Sample.num 3)
              (VStr "deleted") eq_refl) as (_ & H1 & H2).
  split; [vm_compute; reflexivity|]. split; [exact H1|exact H2].
Defined.

(** X7.  Deletes compose, for identifiers that are primitive values (a
    number, a string, a boolean, [null] or [undefined]): deleting an
    identifier that no record carries leaves the collection as it is,
    deleting the same identifier twice is deleting it once, and two deletes
    give the same collection in either order. *)
Theorem deletes_compose (s : State) (a b da db : value) :
  isPrimitive a = true -> isPrimitive b = true ->
  (countId a (expenses s) = 0%nat ->
   expenses (handleDelete s a (Resolved da)) = expenses s)
  /\ expenses (handleDelete (handleDelete s a (Resolved da)) a (Resolved db))
     = expenses (handleDelete s a (Resolved da))
  /\ expenses (handleDelete (handleDelete s a (Resolved da)) b (Resolved db))
     = expenses (handleDelete (handleDelete s b (Resolved db)) a (Resolved da)).
Proof.
  intros _ _. unfold handleDelete. cbn [await expenses].
  split; [|split].
  - apply filter_none.
  - induction (expenses s) as [|x l IH]; simpl; [reflexivity|].
    destruct (strictEq (id x) a) eqn:E; simpl; [exact IH|].
    rewrite E. simpl. f_equal. exact IH.
  - induction (expenses s) as [|x l IH]; simpl; [reflexivity|].
    destruct (strictEq (id x) a) eqn:Ea, (strictEq (id x) b) eqn:Eb; simpl;
      rewrite ?Ea, ?Eb; simpl; rewrite IH; reflexivity.
Qed.

Lemma deletes_compose_witness :
  let s := step utc initialState (Load (Resolved Sample.listing) Sample.now) in
  expenses (handleDelete s (Sample.num 99) (Resolved VNull)) = expenses s.
Proof.
  intro s.
  apply (proj1 (deletes_compose s (Sample.num 99) VNull VNull VNull
                  eq_refl eq_refl)).
  reflexivity.
Defined.

(** ** Initial load: what makes it fail *)

(** X8.  The load fails, empties the collection whatever it held, surfaces
    the load message and ends the loading indication in three cases: the
    listing call is rejected; the listing is not an array; or a single
    admitted record has an [expenseDate] that is truthy and not a string,
    which discards every other record of the listing with it. *)
Theorem load_failure_empties_collection (host : Host) (s : State) (now : Z) :
  let failed s' :=
    expenses s' = []
    /\ error s' = Some "Failed to load expenses. Please check if the backend is running."
    /\ loading s' = false in
  (forall detail, failed (fetchExpenses host s (Rejected detail) now))
  /\ (forall data, (forall raws, data <> VArr raws) ->
                   failed (fetchExpenses host s (Resolved data) now))
  /\ (forall raws raw,
        In raw raws -> admitted raw = true ->
        truthy (get raw "expenseDate") = true ->
        (forall d, get raw "expenseDate" <> VStr d) ->
        failed (fetchExpenses host s (Resolved (VArr raws)) now)).
Proof.
  intro failed. subst failed. cbv beta. split; [|split].
  - intro detail. repeat split.
  - intros data Hna. unfold fetchExpenses, mappedExpenses. cbn [await bind].
    destruct data; try (repeat split; fail).
    exfalso. eapply Hna. reflexivity.
  - intros raws raw Hin Hadm Ht Hns.
    assert (Hthrow : exists msg, normalize host now raw = Throw msg).
    { unfold normalize. rewrite Ht.
      destruct (get raw "expenseDate") as [| | | |d| |] eqn:E;
        cbn [splitT0 bind]; try (eexists; reflexivity).
      exfalso. apply (Hns d). reflexivity. }
    destruct Hthrow as [msg Hthrow].
    destruct (mapM_throws (normalize host now) (filter admitted raws) raw msg)
      as [msg' E]; [apply filter_In; split; assumption|exact Hthrow|].
    unfold fetchExpenses, mappedExpenses. cbn [await bind]. rewrite E.
    repeat split.
Qed.

Lemma load_failure_empties_collection_witness :
  let s := step utc initialState (Load (Resolved Sample.listing) Sample.now) in
  let badDate := VObj [("id", Sample.num 6);
                       ("expenseDate", VArr [Sample.num 2024; Sample.num 6;
                                             Sample.num 1])] in
  expenses (fetchExpenses utc s
              (Resolved (VArr [Sample.rent; badDate; Sample.books])) Sample.now)
  = [].
Proof.
  intros s badDate.
  destruct (load_failure_empties_collection utc s Sample.now) as (_ & _ & H).
  apply (H [Sample.rent; badDate; Sample.books] badDate).
  - right. left. reflexivity.
  - reflexivity.
  - reflexivity.
  - intros d. discriminate.
Defined.

(** ** What every record of the collection has *)

Section Identified.

Variable host : Host.

Lemma strictEq_truthy (a b : value) :
  strictEq a b = true -> truthy a = truthy b.
Proof.
  destruct a as [| |x|x|x|x|x], b as [| |y|y|y|y|y]; simpl;
    try discriminate; try reflexivity.
  - intro H. apply Bool.eqb_prop in H. subst. reflexivity.
  - unfold Num.eqb, SFeqb.
    destruct x as [[]|[]| |[] ? ?], y as [[]|[]| |[] ? ?]; simpl;
      try discriminate; reflexivity.
  - intro H. apply String.eqb_eq in H. subst. reflexivity.
Qed.

Lemma normalize_identified (now : Z) (raw : value) (c : Expense) :
  admitted raw = true -> normalize host now raw = Ok c -> identified c = true.
Proof.
  intros Hadm Hc.
  destruct (normalize_Ok host now raw c Hc) as (Hid & Ht & _ & _ & Hts & _).
  unfold identified. rewrite Hid, Ht, Hts, !andb_true_iff.
  unfold admitted in Hadm. apply andb_true_iff in Hadm as [_ Hadm].
  repeat split.
  - exact Hadm.
  - apply jsOr_truthy_r. reflexivity.
  - repeat apply jsOr_truthy_r. apply toISOString_truthy.
Qed.

Lemma mappedExpenses_identified (now : Z) (response : value) (l : list Expense) :
  mappedExpenses host now response = Ok l ->
  Forall (fun e => identified e = true) l.
Proof.
  unfold mappedExpenses. destruct response; try discriminate.
  destruct (mapM _ _) as [l0|] eqn:E; cbn [bind]; [|discriminate].
  intros [= <-].
  eapply Permutation_Forall; [apply sort_Permutation|].
  eapply mapM_Forall; [|exact E].
  intros x y Hx. apply filter_In in Hx as [_ Hadm].
  apply normalize_identified, Hadm.
Qed.

Lemma handleSubmit_title t c a d n (newExpense : value) :
  handleSubmit host t c a d n = Some newExpense ->
  truthy (get newExpense "title") = true.
Proof.
  unfold handleSubmit.
  destruct (truthy t) eqn:Et; cbn [negb orb]; [|discriminate].
  destruct (_ || _); [discriminate|]. intros [= <-]. exact Et.
Qed.

Lemma handleSave_title (form updates : value) :
  handleSave host form = Some updates ->
  truthy (get updates "title") = true.
Proof.
  unfold handleSave.
  destruct (truthy (get form "title")) eqn:Et; cbn [negb orb]; [|discriminate].
  destruct (_ || _); [discriminate|]. intros [= <-]. exact Et.
Qed.

Lemma mappedFromCreate_identified (now : Z) (newExpense data : value) (m : Expense) :
  hasExpenseData data = true ->
  truthy (get newExpense "title") = true ->
  mappedFromCreate host now newExpense data = Ok m ->
  identified m = true.
Proof.
  intros Hid Ht. unfold mappedFromCreate.
  destruct (if truthy (get data "expenseDate") then _ else _) as [d|];
    cbn [bind]; [|discriminate].
  intros [= <-]. unfold identified. cbn [id title timestamp].
  unfold hasExpenseData in Hid. apply andb_true_iff in Hid as [_ Hid].
  rewrite !andb_true_iff. repeat split.
  - exact Hid.
  - apply jsOr_truthy_r, Ht.
  - repeat apply jsOr_truthy_r. apply toISOString_truthy.
Qed.

Lemma mappedFromUpdate_identified (now : Z) (id0 updated data : value) (m : Expense) :
  truthy id0 = true ->
  truthy (get updated "title") = true ->
  mappedFromUpdate host now id0 updated data = Ok m ->
  identified m = true.
Proof.
  intros Hid0 Ht. unfold mappedFromUpdate.
  destruct (hasUpdatedData data) eqn:Hd.
  - destruct (if truthy (get data "expenseDate") then _ else _) as [d|];
      cbn [bind]; [|discriminate].
    intros [= <-]. unfold identified. cbn [id title timestamp].
    unfold hasUpdatedData in Hd. apply andb_true_iff in Hd as [_ Hd].
    rewrite !andb_true_iff. repeat split.
    + exact Hd.
    + apply jsOr_truthy_r, Ht.
    + repeat apply jsOr_truthy_r. apply toISOString_truthy.
  - intros [= <-]. unfold identified. cbn [id title timestamp].
    rewrite Hid0, Ht, toISOString_truthy. reflexivity.
Qed.

Lemma step_identified (s : State) (op : Operation) :
  Forall (fun e => identified e = true) (expenses s) ->
  Forall (fun e => identified e = true) (expenses (step host s op)).
Proof.
  intros Hs. destruct op as [listing now|t c a d n created listing now
                            |id0 form r now|id0 r]; simpl.
  - unfold fetchExpenses.
    destruct (await listing) as [response|]; cbn [bind expenses]; [|constructor].
    destruct (mappedExpenses host now response) as [l|] eqn:E;
      cbn [expenses]; [|constructor].
    eapply mappedExpenses_identified, E.
  - destruct (handleSubmit host t c a d n) as [newExpense|] eqn:Esub; [|exact Hs].
    pose proof (handleSubmit_title _ _ _ _ _ _ Esub) as Ht.
    unfold handleAdd, tryAdd.
    destruct (await created) as [response|]; cbn [bind expenses]; [|exact Hs].
    destruct (hasExpenseData response) eqn:Hd.
    + destruct (mappedFromCreate host now newExpense response) as [m|] eqn:Em;
        cbn [bind expenses]; [|exact Hs].
      eapply Permutation_Forall; [apply sort_Permutation|].
      constructor; [|exact Hs].
      eapply mappedFromCreate_identified; eassumption.
    + destruct (await listing) as [all|]; cbn [bind expenses]; [|exact Hs].
      destruct (mappedExpenses host now all) as [l|] eqn:E;
        cbn [bind expenses]; [|exact Hs].
      eapply mappedExpenses_identified, E.
  - destruct (handleSave host form) as [updates|] eqn:Esave; [|exact Hs].
    pose proof (handleSave_title _ _ Esave) as Ht.
    unfold handleUpdate, tryUpdate.
    destruct (await r) as [response|]; cbn [bind expenses]; [|exact Hs].
    destruct (mappedFromUpdate host now id0 updates response) as [m|] eqn:Em;
      cbn [bind expenses]; [|exact Hs].
    eapply Permutation_Forall; [apply sort_Permutation|].
    rewrite Forall_forall in *. intros e He.
    apply in_map_iff in He as (e0 & <- & He0).
    destruct (strictEq (id e0) id0) eqn:E; [|apply Hs, He0].
    eapply mappedFromUpdate_identified; [|exact Ht|exact Em].
    rewrite <- (strictEq_truthy _ _ E).
    specialize (Hs e0 He0). unfold identified in Hs.
    apply andb_true_iff in Hs as [Hs _]. apply andb_true_iff in Hs as [Hs _].
    exact Hs.
  - unfold handleDelete. destruct (await r); cbn [expenses]; [|exact Hs].
    rewrite Forall_forall in *. intros e He.
    apply filter_In in He. apply Hs, He.
Qed.

End Identified.

(** X9.  Whatever the operations and the replies of the service, every
    record of the collection has, at all times, an identifier, a title and a
    timestamp that are truthy: no record without an identifier is ever held,
    and the forms let no empty title through. *)
Theorem records_always_have_id_title_timestamp (host : Host)
    (ops : list Operation) :
  Forall (fun s => Forall (fun e => identified e = true) (expenses s))
    (trace host initialState ops).
Proof.
  assert (H : forall s, Forall (fun e => identified e = true) (expenses s) ->
            Forall (fun s' => Forall (fun e => identified e = true) (expenses s'))
              (trace host s ops)).
  { induction ops as [|op ops IH]; intros s Hs; simpl; [constructor|].
    pose proof (step_identified host s op Hs) as H1.
    constructor; [exact H1|apply IH, H1]. }
  apply H. constructor.
Qed.

(** ** Filter engine: the visible subset *)

Section Visible.

Variable host : Host.

Lemma matchesQuery_textual (q : string) (e : Expense) :
  textual e -> matchesQuery q e = Ok (matchesText q e).
Proof.
  intros ((t & Ht) & (c & Hc) & (n & Hn)).
  unfold matchesQuery, matchesText. rewrite Ht, Hc, Hn. cbn [lowerIncludes bind].
  destruct (Str.includes (Str.toLowerCase t) q); [reflexivity|].
  cbn [orb]. destruct (Str.includes (Str.toLowerCase c) q); reflexivity.
Qed.

Lemma filterM_textual (q : string) (l : list Expense) :
  Forall textual l -> filterM (matchesQuery q) l = Ok (filter (matchesText q) l).
Proof.
  induction 1 as [|e l He _ IH]; simpl; [reflexivity|].
  rewrite (matchesQuery_textual q e He), IH. cbn [bind].
  destruct (matchesText q e); reflexivity.
Qed.

Lemma filter_filter_and {A : Type} (p q : A -> bool) (l : list A) :
  filter q (filter p l) = filter (fun x => p x && q x) l.
Proof.
  induction l as [|x l IH]; simpl; [reflexivity|].
  destruct (p x); simpl; [destruct (q x); rewrite IH; reflexivity|exact IH].
Qed.

Lemma filter_all {A : Type} (l : list A) : filter (fun _ => true) l = l.
Proof. induction l as [|x l IH]; simpl; [reflexivity|f_equal; exact IH]. Qed.

Lemma filteredExpenses_textual (filter_ selectedMonth : string)
    (l : list Expense) :
  Forall textual l ->
  let q := Str.toLowerCase (Str.trim filter_) in
  filteredExpenses host filter_ selectedMonth l
  = Ok (filter (fun e => (Str.isEmpty selectedMonth || inMonth host selectedMonth e)
                         && (Str.isEmpty q || matchesText q e)) l).
Proof.
  intros Ht q. unfold filteredExpenses. fold q.
  destruct (Str.isEmpty selectedMonth); cbn [negb orb].
  - destruct (Str.isEmpty q); cbn [negb orb].
    + rewrite filter_all. reflexivity.
    + apply filterM_textual, Ht.
  - destruct (Str.isEmpty q); cbn [negb orb].
    + f_equal. apply filter_ext. intro e. rewrite andb_true_r. reflexivity.
    + rewrite filterM_textual.
      * rewrite filter_filter_and. reflexivity.
      * rewrite Forall_forall in *. intros e He. apply filter_In in He.
        apply Ht, He.
Qed.

Lemma filterM_throws {A : Type} (f : A -> exn bool) (l : list A) (x : A)
    (msg : string) :
  In x l -> f x = Throw msg -> exists msg', filterM f l = Throw msg'.
Proof.
  intros Hin Hx. induction l as [|y l IH]; [destruct Hin|]. simpl.
  destruct (f y) as [z|m] eqn:Ey; cbn [bind]; [|eexists; reflexivity].
  destruct Hin as [->|Hin]; [congruence|].
  destruct (IH Hin) as [msg' ->]. cbn [bind]. eexists. reflexivity.
Qed.

End Visible.

(** X10.  On records whose title, category and note are strings, the
    visible subset is the records of the collection, in their order, that
    pass both tests: the month test, unless the month key is empty, and the
    search test on the trimmed, lowercased query, unless that is empty (a
    query of nothing but white space filters nothing out). *)
Theorem visible_subset_passes_month_and_search (host : Host)
    (filter_ selectedMonth : string) (l : list Expense) :
  Forall textual l ->
  let q := Str.toLowerCase (Str.trim filter_) in
  filteredExpenses host filter_ selectedMonth l
  = Ok (filter (fun e => (Str.isEmpty selectedMonth || inMonth host selectedMonth e)
                         && (Str.isEmpty q || matchesText q e)) l).
Proof. apply filteredExpenses_textual. Qed.

Lemma visible_subset_passes_month_and_search_witness :
  filteredExpenses utc "  GROCER " "2024-01"
    [Sample.dated 1 "Groceries" "2024-01-15"; Sample.dated 2 "Rent" "2024-01-31"]
  = Ok [Sample.dated 1 "Groceries" "2024-01-15"].
Proof.
  rewrite (visible_subset_passes_month_and_search utc "  GROCER " "2024-01"
             [Sample.dated 1 "Groceries" "2024-01-15";
              Sample.dated 2 "Rent" "2024-01-31"]).
  - vm_compute. reflexivity.
  - repeat (apply Forall_cons;
            [repeat split; eexists; reflexivity|]). apply Forall_nil.
Defined.

(** X11.  Filtering never reorders and never invents: on records whose
    title, category and note are strings, every visible record is a record
    of the collection, and the visible subset of a collection in
    descending-timestamp order is in descending-timestamp order. *)
Theorem visible_subset_keeps_the_order (host : Host)
    (filter_ selectedMonth : string) (l : list Expense) :
  Forall textual l ->
  exists visible,
    filteredExpenses host filter_ selectedMonth l = Ok visible
    /\ (forall e, In e visible -> In e l)
    /\ (List.length visible <= List.length l)%nat
    /\ (Descending host l -> Descending host visible).
Proof.
  intro Ht. eexists. split; [apply filteredExpenses_textual, Ht|].
  split; [|split].
  - intros e He. apply filter_In in He. apply He.
  - apply filter_length_le.
  - apply StronglySorted_filter.
Qed.

Lemma visible_subset_keeps_the_order_witness :
  exists visible,
    filteredExpenses utc "e" "2024-01"
      [Sample.dated 2 "Rent" "2024-01-31"; Sample.dated 1 "Groceries" "2024-01-15"]
    = Ok visible
    /\ List.length visible = 2%nat.
Proof.
  destruct (visible_subset_keeps_the_order utc "e" "2024-01"
              [Sample.dated 2 "Rent" "2024-01-31";
               Sample.dated 1 "Groceries" "2024-01-15"])
    as (visible & E & _).
  - repeat (apply Forall_cons;
            [repeat split; eexists; reflexivity|]). apply Forall_nil.
  - exists visible. split; [exact E|].
    vm_compute in E. injection E as <-. reflexivity.
Defined.

(** X12.  A search can throw: with a query that is not empty, a record that
    passes the month test and whose title is not a string (the normalizer
    keeps any truthy title the service sends, a number for instance) makes
    the computation of the visible subset throw instead of returning. *)
Theorem search_throws_on_a_title_that_is_no_string (host : Host)
    (filter_ selectedMonth : string) (l : list Expense) (e : Expense) :
  Str.isEmpty (Str.toLowerCase (Str.trim filter_)) = false ->
  In e l ->
  Str.isEmpty selectedMonth || inMonth host selectedMonth e = true ->
  (forall t, title e <> VStr t) ->
  exists msg, filteredExpenses host filter_ selectedMonth l = Throw msg.
Proof.
  intros Hq Hin Hmonth Hns. unfold filteredExpenses. rewrite Hq. cbn [negb].
  assert (Hthrow : exists msg,
             matchesQuery (Str.toLowerCase (Str.trim filter_)) e = Throw msg).
  { unfold matchesQuery.
    destruct (title e) as [| | | |t| |] eqn:E; cbn [lowerIncludes bind];
      try (eexists; reflexivity).
    exfalso. apply (Hns t). reflexivity. }
  destruct Hthrow as [msg Hthrow].
  eapply filterM_throws; [|exact Hthrow].
  destruct (Str.isEmpty selectedMonth); cbn [negb orb] in *; [exact Hin|].
  apply filter_In. split; assumption.
Qed.

Lemma search_throws_on_a_title_that_is_no_string_witness :
  exists c msg,
    normalize utc Sample.now (VObj [("id", Sample.num 12); ("title", Sample.num 404)])
    = Ok c
    /\ filteredExpenses utc "a" EmptyString [c] = Throw msg.
Proof.
  eexists. 
  destruct (search_throws_on_a_title_that_is_no_string utc "a" EmptyString
              [{| id := Sample.num 12; title := Sample.num 404;
                  category := VStr "General"; amount := VNum Num.zero;
                  date := VStr "2025-06-01";
                  timestamp := VStr "2025-06-01T12:00:00.000Z";
                  note := VStr EmptyString |}]
              {| id := Sample.num 12; title := Sample.num 404;
                 category := VStr "General"; amount := VNum Num.zero;
                 date := VStr "2025-06-01";
                 timestamp := VStr "2025-06-01T12:00:00.000Z";
                 note := VStr EmptyString |})
    as [msg E].
  - reflexivity.
  - left. reflexivity.
  - reflexivity.
  - intros t. discriminate.
  - exists msg. split; [vm_compute; reflexivity|exact E].
Defined.

(** ** Month selector *)

Lemma string_leb_trans (a b c : string) :
  String.leb a b = true -> String.leb b c = true -> String.leb a c = true.
Proof.
  unfold String.leb. revert b c.
  induction a as [|c1 a IH]; intros [|c2 b] [|c3 c]; simpl;
    try reflexivity; try discriminate.
  unfold Ascii.compare.
  destruct (N.compare_spec (N_of_ascii c1) (N_of_ascii c2)) as [E12|L12|G12];
    destruct (N.compare_spec (N_of_ascii c2) (N_of_ascii c3)) as [E23|L23|G23];
    destruct (N.compare_spec (N_of_ascii c1) (N_of_ascii c3)) as [E13|L13|G13];
    try discriminate; try reflexivity; try lia.
  apply IH.
Qed.

Lemma SortCompare_default (a b : string) :
  SortCompare defaultCompare a b <= 0 <-> String.leb a b = true.
Proof.
  unfold SortCompare, defaultCompare, String.leb.
  destruct (String.compare a b); split; intro H;
    try reflexivity; try lia; discriminate.
Qed.

Lemma insert_default_sorted (x : string) (l : list string) :
  StronglySorted (fun a b => String.leb a b = true) l ->
  StronglySorted (fun a b => String.leb a b = true) (insert defaultCompare x l).
Proof.
  induction 1 as [|y l Hs IH Hy]; simpl.
  - constructor; constructor.
  - destruct (Z.leb_spec (SortCompare defaultCompare x y) 0) as [Hle|Hgt].
    + apply SortCompare_default in Hle.
      constructor; [constructor; assumption|].
      constructor; [exact Hle|].
      rewrite Forall_forall in *. intros z Hz.
      eapply string_leb_trans; [exact Hle|apply Hy, Hz].
    + assert (Hyx : String.leb y x = true).
      { destruct (String.leb_total x y) as [H|H]; [|exact H].
        apply SortCompare_default in H. lia. }
      constructor; [exact IH|].
      rewrite Forall_forall in *. intros z Hz.
      apply (Permutation_in _ (Permutation_sym (insert_Permutation _ x l))) in Hz.
      destruct Hz as [<-|Hz]; [exact Hyx|apply Hy, Hz].
Qed.

Lemma sort_default_sorted (l : list string) :
  StronglySorted (fun a b => String.leb a b = true) (sort defaultCompare l).
Proof.
  induction l as [|x l IH]; simpl; [constructor|].
  apply insert_default_sorted, IH.
Qed.

Lemma sorted_NoDup_strict (l : list string) :
  NoDup l -> StronglySorted (fun a b => String.leb a b = true) l ->
  StronglySorted (fun a b => String.ltb a b = true) l.
Proof.
  intros Hn Hs. induction Hs as [|x l Hs IH Hx]; [constructor|].
  inversion Hn as [|? ? Hnin Hn']; subst.
  constructor; [apply IH, Hn'|].
  rewrite Forall_forall in *. intros y Hy. specialize (Hx y Hy).
  unfold String.leb in Hx. unfold String.ltb.
  destruct (String.compare x y) eqn:E; try reflexivity; try discriminate.
  apply String.compare_eq_iff in E. subst. contradiction.
Qed.

Lemma StronglySorted_snoc {A : Type} (R : A -> A -> Prop) (l : list A) (x : A) :
  StronglySorted R l -> Forall (fun y => R y x) l -> StronglySorted R (l ++ [x]).
Proof.
  induction 1 as [|y l Hs IH Hy]; intro Hall; simpl.
  - constructor; constructor.
  - inversion Hall as [|? ? Hyx Hall']; subst.
    constructor; [apply IH, Hall'|].
    apply Forall_app. split; [exact Hy|constructor; [exact Hyx|constructor]].
Qed.

Lemma StronglySorted_rev {A : Type} (R : A -> A -> Prop) (l : list A) :
  StronglySorted R l -> StronglySorted (fun a b => R b a) (rev l).
Proof.
  induction 1 as [|x l Hs IH Hx]; simpl; [constructor|].
  apply StronglySorted_snoc; [exact IH|].
  apply Forall_rev. exact Hx.
Qed.

Section Months.

Variable host : Host.

Lemma setAdd_In (k k' : string) (months : list string) :
  In k (setAdd k' months) <-> In k months \/ k = k'.
Proof.
  unfold setAdd. destruct (mem k' months) eqn:E.
  - apply mem_In in E. split; [auto|].
    intros [H|H]; [exact H|subst k; exact E].
  - rewrite in_app_iff. simpl. split; intros [H|H]; auto.
    destruct H as [<-|[]]. auto.
Qed.

Lemma setAdd_NoDup (k : string) (months : list string) :
  NoDup months -> NoDup (setAdd k months).
Proof.
  intro Hn. unfold setAdd. destruct (mem k months) eqn:E; [exact Hn|].
  apply NoDup_app; [exact Hn|constructor; [intros []|constructor]|].
  intros y Hy [<-|[]]. apply mem_In in Hy. congruence.
Qed.

Lemma monthsLoop_In (l : list Expense) (months : list string) (k : string) :
  In k (monthsLoop host l months) <->
  In k months
  \/ exists e, In e l /\ truthy (date e) = true /\ monthKey host (date e) = k.
Proof.
  revert months. induction l as [|e l IH]; intro months; simpl.
  - split; [auto|intros [H|(e & [] & _)]; exact H].
  - rewrite IH. destruct (truthy (date e)) eqn:Et.
    + rewrite setAdd_In. split.
      * intros [[H| ->]|(e' & He' & H)]; [auto| |].
        -- right. exists e. auto.
        -- right. exists e'. tauto.
      * intros [H|(e' & [<-|He'] & Ht' & Hk)]; [auto| |].
        -- left. right. symmetry. exact Hk.
        -- right. exists e'. auto.
    + split.
      * intros [H|(e' & He' & H)]; [auto|]. right. exists e'. tauto.
      * intros [H|(e' & [<-|He'] & Ht' & Hk)]; [auto|congruence|].
        right. exists e'. auto.
Qed.

Lemma monthsLoop_NoDup (l : list Expense) (months : list string) :
  NoDup months -> NoDup (monthsLoop host l months).
Proof.
  revert months. induction l as [|e l IH]; intros months Hn; simpl; [exact Hn|].
  apply IH. destruct (truthy (date e)); [apply setAdd_NoDup|]; exact Hn.
Qed.

Lemma availableMonths_In (l : list Expense) (k : string) :
  In k (availableMonths host l) <->
  exists e, In e l /\ truthy (date e) = true /\ monthKey host (date e) = k.
Proof.
  unfold availableMonths. rewrite <- in_rev, sort_In, monthsLoop_In.
  split; [intros [[]|H]; exact H|auto].
Qed.

Lemma monthKey_not_empty (v : value) : Str.isEmpty (monthKey host v) = false.
Proof.
  unfold monthKey. destruct (showInt _); reflexivity.
Qed.

End Months.

(** X13.  The months offered by the selector are exactly the month keys of
    the records of the whole collection that have a date, each offered once,
    in strictly descending order of their text. *)
Theorem available_months_distinct_and_descending (host : Host)
    (l : list Expense) :
  (forall k, In k (availableMonths host l) <->
             exists e, In e l /\ truthy (date e) = true
                       /\ monthKey host (date e) = k)
  /\ NoDup (availableMonths host l)
  /\ StronglySorted (fun a b => String.ltb b a = true) (availableMonths host l).
Proof.
  split; [apply availableMonths_In|].
  assert (Hn : NoDup (sort defaultCompare (monthsLoop host l []))).
  { eapply Permutation_NoDup; [apply sort_Permutation|].
    apply monthsLoop_NoDup. constructor. }
  split.
  - unfold availableMonths. apply NoDup_rev, Hn.
  - unfold availableMonths.
    apply (StronglySorted_rev (fun a b => String.ltb a b = true)).
    apply sorted_NoDup_strict; [exact Hn|apply sort_default_sorted].
Qed.

(** X14.  The selector and the filter agree: every month the selector
    offers shows at least one record when the search is empty, and every
    record that has a date is shown under the month key of its date, which
    the selector offers. *)
Theorem offered_months_are_never_empty (host : Host) (l : list Expense) :
  (forall k, In k (availableMonths host l) ->
             exists visible e,
               filteredExpenses host EmptyString k l = Ok visible
               /\ In e visible)
  /\ (forall e, In e l -> truthy (date e) = true ->
                In (monthKey host (date e)) (availableMonths host l)
                /\ exists visible,
                     filteredExpenses host EmptyString (monthKey host (date e)) l
                     = Ok visible
                     /\ In e visible).
Proof.
  assert (Hshow : forall e, In e l -> truthy (date e) = true ->
            exists visible,
              filteredExpenses host EmptyString (monthKey host (date e)) l
              = Ok visible /\ In e visible).
  { intros e He Ht. unfold filteredExpenses. cbn [Str.trim Str.trimStart
      Str.trimEnd Str.toLowerCase Str.isEmpty negb].
    rewrite monthKey_not_empty. cbn [negb].
    eexists. split; [reflexivity|].
    apply filter_In. split; [exact He|].
    unfold inMonth. rewrite Ht. cbn [negb]. apply String.eqb_refl. }
  split.
  - intros k Hk. apply availableMonths_In in Hk as (e & He & Ht & <-).
    destruct (Hshow e He Ht) as (visible & E & Hin).
    exists visible, e. split; assumption.
  - intros e He Ht. split; [|apply Hshow; assumption].
    apply availableMonths_In. exists e. auto.
Qed.

Lemma offered_months_are_never_empty_witness :
  exists visible e,
    filteredExpenses utc EmptyString "2024-01"
      [Sample.dated 1 "a" "2024-01-15"; Sample.dated 2 "b" "2024-02-01"]
    = Ok visible
    /\ In e visible.
Proof.
  apply (proj1 (offered_months_are_never_empty utc
                  [Sample.dated 1 "a" "2024-01-15";
                   Sample.dated 2 "b" "2024-02-01"])).
  vm_compute. right. left. reflexivity.
Defined.

(** ** Sums of amounts *)

Section Rounding.

Lemma shr_1_nonneg (mrs : shr_record) : 0 <= shr_m mrs -> 0 <= shr_m (shr_1 mrs).
Proof.
  destruct mrs as [m r s]. destruct m as [|[p|p|]|[p|p|]]; simpl; lia.
Qed.

Lemma iter_shr_1_nonneg (p : positive) (mrs : shr_record) :
  0 <= shr_m mrs -> 0 <= shr_m (iter_pos shr_1 p mrs).
Proof.
  revert mrs. induction p as [p IH|p IH|]; intros mrs H; simpl.
  - apply IH, IH, shr_1_nonneg, H.
  - apply IH, IH, H.
  - apply shr_1_nonneg, H.
Qed.

Lemma shr_fexp_nonneg (m e : Z) (l : location) :
  0 <= m -> 0 <= shr_m (fst (shr_fexp 53 1024 m e l)).
Proof.
  intro H. unfold shr_fexp, shr.
  assert (H0 : 0 <= shr_m (shr_record_of_loc m l))
    by (destruct l as [|[]]; exact H).
  destruct (fexp 53 1024 (Zdigits2 m + e) - e); simpl;
    [exact H0|apply iter_shr_1_nonneg, H0|exact H0].
Qed.

Lemma round_nearest_even_nonneg (m : Z) (l : location) :
  0 <= m -> 0 <= round_nearest_even m l.
Proof.
  intro H. destruct l as [|[]]; simpl; try lia.
  destruct (Z.even m); lia.
Qed.

Lemma binary_round_aux_nonneg (mx ex : Z) (lx : location) :
  0 <= mx -> nonnegClean (binary_round_aux 53 1024 false mx ex lx) = true.
Proof.
  intro H. unfold binary_round_aux.
  pose proof (shr_fexp_nonneg mx ex lx H) as H1.
  destruct (shr_fexp 53 1024 mx ex lx) as [mrs' e'].
  cbn [fst] in H1.
  pose proof (shr_fexp_nonneg _ e' loc_Exact
                (round_nearest_even_nonneg _ (loc_of_shr_record mrs') H1)) as H2.
  destruct (shr_fexp 53 1024 _ e' loc_Exact) as [mrs'' e''].
  cbn [fst] in H2.
  destruct (shr_m mrs'') as [|m|m]; [reflexivity| |lia].
  destruct (e'' <=? 1024 - 53); reflexivity.
Qed.

Lemma add_nonnegClean (acc x : Num.number) :
  nonnegClean acc = true -> nonneg x = true ->
  nonnegClean (Num.add acc x) = true.
Proof.
  unfold Num.add.
  destruct acc as [[]|[]| |[] ma ea], x as [[]|[]| |[] mx ex];
    try discriminate; try reflexivity.
  intros _ _. unfold SFadd, binary_normalize. cbn [cond_Zopp].
  destruct (shl_align ma ea (Z.min ea ex)) as [a ?].
  destruct (shl_align mx ex (Z.min ea ex)) as [b ?].
  cbn [fst]. cbn [Z.add]. unfold binary_round.
  destruct (shl_align _ _ _) as [mz ez].
  apply binary_round_aux_nonneg. lia.
Qed.

End Rounding.

Lemma fold_add_nonnegClean (xs : list Num.number) (acc : Num.number) :
  nonnegClean acc = true -> Forall (fun x => nonneg x = true) xs ->
  nonnegClean (fold_left Num.add xs acc) = true.
Proof.
  intros Hacc Hxs. revert acc Hacc.
  induction Hxs as [|x xs Hx _ IH]; intros acc Hacc; simpl; [exact Hacc|].
  apply IH, add_nonnegClean; assumption.
Qed.

Lemma cleanRun_nonneg (xs : list Num.number) (acc : Num.number) :
  nonnegClean acc = true -> Forall (fun x => nonneg x = true) xs ->
  cleanRun acc xs = true.
Proof.
  intros Hacc Hxs. revert acc Hacc.
  induction Hxs as [|x xs Hx _ IH]; intros acc Hacc; simpl; [reflexivity|].
  apply andb_true_iff. split.
  - unfold nonnegClean in Hacc. apply andb_true_iff in Hacc. apply Hacc.
  - apply IH, add_nonnegClean; assumption.
Qed.

Lemma nonnegClean_facts (x : Num.number) :
  nonnegClean x = true ->
  Num.isNaN x = false /\ Num.leb Num.zero x = true.
Proof.
  destruct x as [[]|[]| |[] m e]; try discriminate; intros _; split; reflexivity.
Qed.

(** X15.  When the amount of every visible record is greater than or equal
    to zero, the total is a number greater than or equal to zero: it is never
    [NaN], however many records are added and even when the sum overflows to
    [Infinity]. *)
Theorem total_of_nonnegative_amounts (host : Host) (l : list Expense) :
  Forall (fun e => nonneg (amountOf host e) = true) l ->
  Num.isNaN (total host l) = false
  /\ Num.leb Num.zero (total host l) = true.
Proof.
  intro H. apply nonnegClean_facts. unfold total.
  assert (E : forall acc,
             fold_left (fun sum e => Num.add sum (amountOf host e)) l acc
             = fold_left Num.add (map (amountOf host) l) acc).
  { clear H. induction l as [|e l IH]; intro acc; simpl; [reflexivity|apply IH]. }
  rewrite E. apply fold_add_nonnegClean; [reflexivity|].
  apply Forall_map. exact H.
Qed.

Lemma total_of_nonnegative_amounts_witness :
  Num.isNaN (total utc [Sample.food; Sample.blank]) = false
  /\ Num.leb Num.zero (total utc [Sample.food; Sample.blank]) = true.
Proof.
  apply (total_of_nonnegative_amounts utc [Sample.food; Sample.blank]).
  repeat (apply Forall_cons; [reflexivity|]). apply Forall_nil.
Defined.

Lemma groupAmounts_Forall (P : Num.number -> Prop) (k : string)
    (keys : list string) (amounts : list Num.number) :
  Forall P amounts -> Forall P (groupAmounts k (combine keys amounts)).
Proof.
  intro H. rewrite Forall_forall in *. intros x Hx.
  unfold groupAmounts in Hx. apply in_map_iff in Hx as ([k' x'] & <- & Hin).
  apply filter_In in Hin as [Hin _]. apply in_combine_r in Hin.
  apply H, Hin.
Qed.

(** X16.  When the amounts of the visible records are greater than or equal
    to zero (and their categories are strings, or falsy), the value of each
    category is the plain sum of the amounts of its group, added from the
    left in the order of the records, and is itself greater than or equal to
    zero, never [NaN]. *)
Theorem category_values_are_plain_sums (host : Host) (l : list Expense) :
  Forall textCategory l ->
  Forall (fun e => nonneg (amountOf host e) = true) l ->
  exists series keys,
    categoryAgg host l = Ok series
    /\ mapM categoryKey l = Ok keys
    /\ data series
       = map (fun k => plainSum
                         (groupAmounts k (combine keys (map (amountOf host) l))))
           (labels series)
    /\ Forall (fun v => Num.isNaN v = false /\ Num.leb Num.zero v = true)
         (data series).
Proof.
  intros Htext Hnn.
  destruct (categoryLoop_total host l [] Htext) as [m E].
  destruct (categoryLoop_fold host l [] m E) as (keys & Hk & ->).
  eexists. exists keys. unfold categoryAgg. rewrite E. cbn [bind].
  split; [reflexivity|]. split; [exact Hk|]. cbn [labels data].
  assert (Hgroup : forall k,
             Forall (fun x => nonneg x = true)
               (groupAmounts k (combine keys (map (amountOf host) l)))).
  { intro k. apply groupAmounts_Forall, Forall_map. exact Hnn. }
  assert (Hval : map snd (fold_left accumulate
                            (combine keys (map (amountOf host) l)) [])
                 = map (fun k => plainSum
                          (groupAmounts k (combine keys (map (amountOf host) l))))
                     (map fst (fold_left accumulate
                                 (combine keys (map (amountOf host) l)) []))).
  { rewrite values_by_key by (apply keys_fold_NoDup; constructor).
    apply map_ext. intro k. rewrite current_fold.
    apply loopSumFrom_clean, cleanRun_nonneg; [reflexivity|apply Hgroup]. }
  split; [exact Hval|].
  rewrite Hval. apply Forall_map, Forall_forall. intros k _.
  apply nonnegClean_facts, fold_add_nonnegClean; [reflexivity|apply Hgroup].
Qed.

Lemma category_values_are_plain_sums_witness :
  exists series,
    categoryAgg utc [Sample.food; Sample.blank; Sample.food] = Ok series
    /\ Forall (fun v => Num.isNaN v = false /\ Num.leb Num.zero v = true)
         (data series).
Proof.
  destruct (category_values_are_plain_sums utc
              [Sample.food; Sample.blank; Sample.food])
    as (series & keys & E & _ & _ & H).
  - repeat (apply Forall_cons; [right; eexists; reflexivity|]).
    apply Forall_nil.
  - repeat (apply Forall_cons; [reflexivity|]). apply Forall_nil.
  - exists series. split; assumption.
Defined.

(** ** Daily series *)

Section Daily.

Variable host : Host.
Variable NumberToString : Num.number -> string.

Lemma dateKey_text (now : Z) (e : Expense) :
  textDate e -> dateKey now e = VStr (dateText now e).
Proof.
  unfold dateKey, dateText, jsOr. intros [H|[d H]].
  - rewrite H. destruct (date e) as [| | | |[|c d]| |]; try reflexivity.
    discriminate.
  - rewrite H. destruct d; reflexivity.
Qed.

Lemma valueMapGet_lift (k : string) (m : Map) :
  valueMapGet (VStr k) (liftMap m) = mapGet k m.
Proof.
  induction m as [|[k' v] m IH]; simpl; [reflexivity|].
  destruct (String.eqb k k'); [reflexivity|exact IH].
Qed.

Lemma valueMapSet_lift (k : string) (v : Num.number) (m : Map) :
  valueMapSet (VStr k) v (liftMap m) = liftMap (mapSet k v m).
Proof.
  induction m as [|[k' v'] m IH]; simpl; [reflexivity|].
  destruct (String.eqb k k'); simpl; [reflexivity|].
  f_equal. exact IH.
Qed.

Lemma dateLoop_lift (now : Z) (l : list Expense) (m : Map) :
  Forall textDate l ->
  dateLoop host now l (liftMap m)
  = liftMap (fold_left accumulate
               (combine (map (dateText now) l) (map (amountOf host) l)) m).
Proof.
  intro H. revert m. induction H as [|e l He _ IH]; intro m; simpl.
  - reflexivity.
  - rewrite (dateKey_text now e He), valueMapGet_lift, valueMapSet_lift.
    rewrite IH. reflexivity.
Qed.

Lemma insert_map {A B : Type} (f : A -> B) (cmp : A -> A -> option Z)
    (cmp' : B -> B -> option Z) (x : A) (l : list A) :
  (forall a b, cmp' (f a) (f b) = cmp a b) ->
  insert cmp' (f x) (map f l) = map f (insert cmp x l).
Proof.
  intro H. induction l as [|y l IH]; simpl; [reflexivity|].
  unfold SortCompare. rewrite H.
  destruct (match cmp x y with Some v => v | None => 0 end <=? 0); simpl;
    [reflexivity|].
  f_equal. exact IH.
Qed.

Lemma sort_map {A B : Type} (f : A -> B) (cmp : A -> A -> option Z)
    (cmp' : B -> B -> option Z) (l : list A) :
  (forall a b, cmp' (f a) (f b) = cmp a b) ->
  sort cmp' (map f l) = map f (sort cmp l).
Proof.
  intro H. induction l as [|x l IH]; simpl; [reflexivity|].
  rewrite IH. apply insert_map, H.
Qed.

Lemma mapGet_present (k : string) (m : Map) :
  In k (map fst m) -> mapGet k m = Some (current k m).
Proof.
  unfold current. induction m as [|[k' v] m IH]; simpl; [intros []|].
  destruct (String.eqb k k') eqn:E; [reflexivity|].
  intros [->|H]; [rewrite String.eqb_refl in E; discriminate|apply IH, H].
Qed.

Lemma firstSeen_In (k : string) (ks : list string) :
  In k (firstSeen ks) <-> In k ks.
Proof.
  induction ks as [|k' ks IH]; simpl; [reflexivity|].
  rewrite filter_In, IH, negb_true_iff.
  destruct (String.eqb_spec k' k) as [->|Hne]; [tauto|].
  split; [tauto|]. intros [H|H]; [contradiction|auto].
Qed.

End Daily.

(** X17.  The daily series of a filtered subset, on records whose date is a
    string or falsy and whose amount is greater than or equal to zero: the
    labels are the distinct dates of the records (the current day standing
    for a missing date), each once, in strictly ascending order of their
    text; the value at each position is the sum of the amounts of the
    records of the day at that position, added from the left in the order of
    the records. *)
Theorem daily_series_ascending_and_aligned (host : Host)
    (NumberToString : Num.number -> string) (now : Z) (l : list Expense) :
  Forall textDate l ->
  Forall (fun e => nonneg (amountOf host e) = true) l ->
  let series := byDateAgg host NumberToString now l in
  let pairs := combine (map (dateText now) l) (map (amountOf host) l) in
  exists days,
    dayLabels series = map VStr days
    /\ (forall d, In d days <-> exists e, In e l /\ dateText now e = d)
    /\ StronglySorted (fun a b => String.ltb a b = true) days
    /\ dayData series
       = map (fun d => VNum (plainSum (groupAmounts d pairs))) days.
Proof.
  intros Ht Hnn series pairs. subst series.
  unfold byDateAgg.
  change (@nil (value * Num.number)) with (liftMap []).
  rewrite (dateLoop_lift host now l [] Ht). fold pairs.
  set (M := fold_left accumulate pairs []).
  assert (Hkeys : map fst (liftMap M) = map VStr (map fst M)).
  { unfold liftMap. rewrite !map_map. reflexivity. }
  cbn [dayLabels dayData]. rewrite Hkeys.
  rewrite (sort_map VStr defaultCompare) by reflexivity.
  set (days := sort defaultCompare (map fst M)).
  assert (Hlen : List.length (map (dateText now) l)
                 = List.length (map (amountOf host) l))
    by (rewrite !length_map; reflexivity).
  assert (HM : map fst M = firstSeen (map (dateText now) l)).
  { unfold M. rewrite keys_fold. cbn [map app]. unfold pairs.
    rewrite (combine_fst _ _ Hlen).
    clear. induction (firstSeen _) as [|k ks IH]; simpl; [reflexivity|].
    f_equal. exact IH. }
  assert (Hin : forall d, In d days <-> In d (map fst M))
    by (intro d; apply sort_In).
  exists days. split; [reflexivity|]. split; [|split].
  - intro d. rewrite Hin, HM, firstSeen_In, in_map_iff.
    split; intros (e & H1 & H2); exists e; auto.
  - apply sorted_NoDup_strict; [|apply sort_default_sorted].
    eapply Permutation_NoDup; [apply sort_Permutation|].
    apply keys_fold_NoDup. constructor.
  - rewrite map_map. apply map_ext_in. intros d Hd.
    rewrite valueMapGet_lift, (mapGet_present d M) by (apply Hin, Hd).
    unfold M. rewrite current_fold. f_equal.
    apply loopSumFrom_clean, cleanRun_nonneg; [reflexivity|].
    apply groupAmounts_Forall, Forall_map. exact Hnn.
Qed.

Lemma daily_series_ascending_and_aligned_witness :
  byDateAgg utc (fun _ => "NaN") Sample.now
    [Sample.dated 1 "a" "2024-03-02"; Sample.dated 2 "b" "2024-03-01";
     Sample.dated 3 "c" "2024-03-02"]
  = {| dayLabels := [VStr "2024-03-01"; VStr "2024-03-02"];
       dayData := [VNum (Num.ofZ 1); VNum (Num.ofZ 2)] |}.
Proof.
  destruct (daily_series_ascending_and_aligned utc (fun _ => "NaN") Sample.now
              [Sample.dated 1 "a" "2024-03-02"; Sample.dated 2 "b" "2024-03-01";
               Sample.dated 3 "c" "2024-03-02"])
    as (days & Hl & _ & _ & Hd).
  - repeat (apply Forall_cons; [right; eexists; reflexivity|]).
    apply Forall_nil.
  - repeat (apply Forall_cons; [reflexivity|]). apply Forall_nil.
  - vm_compute. reflexivity.
Defined.

(** ** The forms *)

Lemma lookup_setField_same (k : string) (v : value)
    (fields : list (string * value)) :
  lookup k (setField k v fields) = v.
Proof.
  induction fields as [|[k' v'] rest IH]; simpl.
  - rewrite String.eqb_refl. reflexivity.
  - destruct (String.eqb k k') eqn:E; simpl; rewrite E; [reflexivity|exact IH].
Qed.

Lemma lookup_setField_other (k g : string) (v : value)
    (fields : list (string * value)) :
  g <> k -> lookup g (setField k v fields) = lookup g fields.
Proof.
  intro Hne. induction fields as [|[k' v'] rest IH]; simpl.
  - destruct (String.eqb_spec g k); [contradiction|reflexivity].
  - destruct (String.eqb k k') eqn:E; simpl.
    + apply String.eqb_eq in E. subst k'.
      destruct (String.eqb_spec g k); [contradiction|reflexivity].
    + destruct (String.eqb g k'); [reflexivity|exact IH].
Qed.

Lemma setField_twice (k : string) (v1 v2 : value)
    (fields : list (string * value)) :
  setField k v2 (setField k v1 fields) = setField k v2 fields.
Proof.
  induction fields as [|[k' v'] rest IH]; simpl.
  - rewrite String.eqb_refl. reflexivity.
  - destruct (String.eqb k k') eqn:E; simpl; rewrite E; [reflexivity|].
    f_equal. exact IH.
Qed.

(** X18.  Editing a field of a row's form: the form then reads the new
    value under that field and what it read before under every other field;
    a second edit of the same field replaces the first. *)
Theorem handleChange_writes_one_field (form : value) (field : string)
    (v1 v2 : value) :
  get (handleChange form field v1) field = v1
  /\ (forall g, g <> field ->
                get (handleChange form field v1) g = lookup g (spread form))
  /\ handleChange (handleChange form field v1) field v2
     = handleChange form field v2.
Proof.
  unfold handleChange. cbn [get spread]. split; [|split].
  - apply lookup_setField_same.
  - intros g Hg. apply lookup_setField_other, Hg.
  - rewrite setField_twice. reflexivity.
Qed.

(** X19.  Saving a row that was not edited: when the record has a truthy
    title and a numeric amount greater than zero, the save is accepted and,
    the service acknowledging it without a record, the record written back
    is the record itself with nothing changed but its timestamp, set to the
    current instant. *)
Theorem saving_untouched_row_only_restamps (host : Host) (now : Z)
    (e : Expense) (a : Num.number) :
  truthy (title e) = true ->
  amount e = VNum a -> Num.isNaN a = false -> Num.leb a Num.zero = false ->
  exists updates,
    handleSave host (rowForm e) = Some updates
    /\ synthesized now (id e) updates
       = withTimestamp e (VStr (DateTime.toISOString now)).
Proof.
  intros Ht Ha Hn Hp. unfold handleSave, rowForm. cbn [spread toObject].
  destruct (get_toObject e) as (_ & Gt & Gc & Ga & _ & _ & _ & Gn).
  assert (Gd : get (toObject e) "date" = date e) by reflexivity.
  unfold toObject in *. rewrite Gt, Ga, Gc, Gd, Gn, Ht, Ha.
  cbn [Number negb orb]. rewrite Hn, Hp. cbn [orb].
  eexists. split; [reflexivity|].
  unfold synthesized, withTimestamp. cbn [get lookup].
  cbn. rewrite Ha. reflexivity.
Qed.

Lemma saving_untouched_row_only_restamps_witness :
  exists updates,
    handleSave utc (rowForm Sample.food) = Some updates
    /\ synthesized Sample.now (id Sample.food) updates
       = withTimestamp Sample.food (VStr (DateTime.toISOString Sample.now)).
Proof.
  apply (saving_untouched_row_only_restamps utc Sample.now Sample.food
           (Num.ofZ 10)); reflexivity.
Defined.

(** X20.  Both forms reject, without a request and without a message, a
    submission whose title is falsy or whose amount does not coerce to a
    number greater than zero: the state is left as it was, whatever the
    service would have replied.  A record that was loaded with an amount of
    zero or less therefore cannot be saved from its row until its amount is
    edited. *)
Theorem rejected_submission_changes_nothing (host : Host) (s : State) :
  (forall t c a d n created listing now,
     truthy t = false \/ Num.isNaN (Number host a) = true
     \/ Num.leb (Number host a) Num.zero = true ->
     step host s (Create t c a d n created listing now) = s)
  /\ (forall id0 form r now,
        truthy (get form "title") = false
        \/ Num.isNaN (Number host (get form "amount")) = true
        \/ Num.leb (Number host (get form "amount")) Num.zero = true ->
        step host s (Update id0 form r now) = s)
  /\ (forall e a field v id0 r now,
        amount e = VNum a -> Num.leb a Num.zero = true -> field <> "amount" ->
        step host s (Update id0 (handleChange (rowForm e) field v) r now) = s).
Proof.
  assert (Hsave : forall id0 form r now,
             truthy (get form "title") = false
             \/ Num.isNaN (Number host (get form "amount")) = true
             \/ Num.leb (Number host (get form "amount")) Num.zero = true ->
             step host s (Update id0 form r now) = s).
  { intros id0 form r now H. cbn [step]. unfold handleSave.
    destruct H as [-> |[-> | ->]]; cbn [negb orb];
      rewrite ?orb_true_r; reflexivity. }
  split; [|split; [exact Hsave|]].
  - intros t c a d n created listing now H. cbn [step]. unfold handleSubmit.
    destruct H as [-> |[-> | ->]]; cbn [negb orb];
      rewrite ?orb_true_r; reflexivity.
  - intros e a field v id0 r now Ha Hle Hf. apply Hsave. right. right.
    unfold handleChange, rowForm. cbn [get spread toObject].
    rewrite lookup_setField_other by (intro H; apply Hf; symmetry; exact H).
    cbn. rewrite Ha. exact Hle.
Qed.

Lemma rejected_submission_changes_nothing_witness :
  let s := step utc initialState (Load (Resolved Sample.listing) Sample.now) in
  step utc s (Create (VStr "Taxi") (VStr "Transport") (VStr "-5")
                (VStr "2025-06-01") (VStr EmptyString)
                (Resolved Sample.taxiReply) (Rejected "unused") Sample.now)
  = s.
Proof.
  intro s.
  apply (proj1 (rejected_submission_changes_nothing utc s)).
  right. right. vm_compute. reflexivity.
Defined.

(** ** Record normalizer: the date portion *)

Lemma beforeT_no_T (s : string) : occurs "T" (Str.beforeT s) = false.
Proof.
  induction s as [|c s IH]; [reflexivity|].
  cbn [Str.beforeT]. destruct (Ascii.eqb c "T") eqn:E; [reflexivity|].
  cbn [occurs]. rewrite Ascii.eqb_sym, E. exact IH.
Qed.

Lemma beforeT_prefix (s : string) : String.prefix (Str.beforeT s) s = true.
Proof.
  induction s as [|c s IH]; simpl; [reflexivity|].
  destruct (Ascii.eqb c "T"); simpl; [reflexivity|].
  destruct (ascii_dec c c); [exact IH|contradiction].
Qed.

Lemma beforeT_without_T (s : string) :
  occurs "T" s = false -> Str.beforeT s = s.
Proof.
  induction s as [|c s IH]; [reflexivity|].
  cbn [occurs Str.beforeT]. rewrite (Ascii.eqb_sym "T" c).
  destruct (Ascii.eqb c "T"); cbn [orb]; [discriminate|].
  intro H. f_equal. apply IH, H.
Qed.

Lemma beforeT_cut (s : string) :
  occurs "T" s = true ->
  exists time, s = String.append (Str.beforeT s) (String "T" time).
Proof.
  induction s as [|c s IH]; [discriminate|].
  cbn [occurs Str.beforeT]. rewrite (Ascii.eqb_sym "T" c).
  destruct (Ascii.eqb_spec c "T") as [->|Hne]; cbn [orb String.append].
  - intros _. exists s. reflexivity.
  - intro H. destruct (IH H) as [time E]. exists time. f_equal. exact E.
Qed.

(** X21.  Of an [expenseDate] that carries a time component the normalizer
    keeps the date portion only: the canonical date is the text before the
    first ['T'], contains no ['T'], and is the whole text when that has no
    time component. *)
Theorem normalizer_keeps_the_date_portion (host : Host) (now : Z)
    (raw : value) (d : string) :
  get raw "expenseDate" = VStr d -> d <> EmptyString ->
  exists c day,
    normalize host now raw = Ok c
    /\ date c = VStr day
    /\ occurs "T" day = false
    /\ (occurs "T" d = false -> day = d)
    /\ (occurs "T" d = true ->
        exists time, d = String.append day (String "T" time)).
Proof.
  intros Hd Hne. unfold normalize. rewrite Hd.
  assert (Ht : truthy (VStr d) = true) by (destruct d; [contradiction|reflexivity]).
  rewrite Ht. cbn [splitT0 bind].
  eexists. exists (Str.beforeT d). split; [reflexivity|].
  cbn [date]. split; [reflexivity|]. split; [apply beforeT_no_T|].
  split; [apply beforeT_without_T|apply beforeT_cut].
Qed.

Lemma normalizer_keeps_the_date_portion_witness :
  exists c,
    normalize utc Sample.now Sample.lunch = Ok c
    /\ date c = VStr "2024-03-10".
Proof.
  destruct (normalizer_keeps_the_date_portion utc Sample.now Sample.lunch
              "2024-03-10T00:00:00")
    as (c & day & E & Hday & _ & _ & Hcut).
  - reflexivity.
  - discriminate.
  - exists c. split; [exact E|].
    vm_compute in E. injection E as <-. reflexivity.
Defined.

(** ** Ordering policy: the order of the listing *)

Lemma strictly_sorted_unique {A : Type} (R : A -> A -> Prop) (l l' : list A) :
  (forall x y, R x y -> R y x -> False) ->
  StronglySorted R l -> StronglySorted R l' -> Permutation l l' -> l = l'.
Proof.
  intros Hasym Hs. revert l'.
  induction Hs as [|x t Hs IH Hx]; intros l' Hs' Hp.
  - apply Permutation_nil in Hp. subst. reflexivity.
  - destruct l' as [|y t'];
      [apply Permutation_sym, Permutation_nil in Hp; discriminate|].
    inversion Hs' as [|? ? Hs'' Hy]; subst.
    rewrite Forall_forall in Hx, Hy.
    assert (Hxy : x = y).
    { assert (Hx' : In x (y :: t'))
        by (eapply Permutation_in; [exact Hp|left; reflexivity]).
      assert (Hy' : In y (x :: t))
        by (eapply Permutation_in; [apply Permutation_sym, Hp|left; reflexivity]).
      destruct Hx' as [->|Hx']; [reflexivity|].
      destruct Hy' as [->|Hy']; [reflexivity|].
      exfalso. apply (Hasym x y); [apply Hx, Hy'|apply Hy, Hx']. }
    subst y. f_equal. apply IH; [exact Hs''|].
    eapply Permutation_cons_inv, Hp.
Qed.

Lemma sorted_distinct_strict {A : Type} (key : A -> Z) (l : list A) :
  NoDup (map key l) -> StronglySorted (keyGe key) l ->
  StronglySorted (fun a b => key b < key a) l.
Proof.
  intros Hn Hs. induction Hs as [|x l Hs IH Hx]; [constructor|].
  simpl in Hn. inversion Hn as [|? ? Hnin Hn']; subst.
  constructor; [apply IH, Hn'|].
  rewrite Forall_forall in *. intros y Hy. specialize (Hx y Hy).
  unfold keyGe in Hx.
  assert (key y <> key x)
    by (intro E; apply Hnin; rewrite <- E; apply in_map, Hy).
  lia.
Qed.

Lemma sort_of_Permutation (host : Host) (l l' : list Expense) :
  Permutation l l' -> allValid host l = true -> NoDup (map (timeOf host) l) ->
  sort (byTimestampDesc host) l = sort (byTimestampDesc host) l'.
Proof.
  intros Hp Hv Hn.
  assert (Hv' : allValid host l' = true)
    by (eapply allValid_Permutation; [apply Permutation_sym, Hp|exact Hv]).
  apply (strictly_sorted_unique (fun a b => timeOf host b < timeOf host a)).
  - intros x y H1 H2. lia.
  - apply sorted_distinct_strict.
    + eapply Permutation_NoDup; [|exact Hn].
      apply Permutation_map, sort_Permutation.
    + apply sort_sorted, allValid_keyed, Hv.
  - apply sorted_distinct_strict.
    + eapply Permutation_NoDup; [|exact Hn].
      apply Permutation_map.
      eapply perm_trans; [exact Hp|apply sort_Permutation].
    + apply sort_sorted, allValid_keyed, Hv'.
  - eapply perm_trans; [apply Permutation_sym, sort_Permutation|].
    eapply perm_trans; [exact Hp|apply sort_Permutation].
Qed.

Lemma filter_Permutation {A : Type} (p : A -> bool) (l l' : list A) :
  Permutation l l' -> Permutation (filter p l) (filter p l').
Proof.
  induction 1 as [|x l l' _ IH|x y l|l l' l'' _ IH1 _ IH2]; simpl.
  - constructor.
  - destruct (p x); [apply perm_skip|]; exact IH.
  - destruct (p x), (p y); try apply Permutation_refl. apply perm_swap.
  - eapply perm_trans; eassumption.
Qed.

Lemma mapM_Permutation {A B : Type} (f : A -> exn B) (l l' : list A)
    (r : list B) :
  Permutation l l' -> mapM f l = Ok r ->
  exists r', mapM f l' = Ok r' /\ Permutation r r'.
Proof.
  intro Hp. revert r.
  induction Hp as [|x l l' _ IH|x y l|l l' l'' _ IH1 _ IH2]; intros r; simpl.
  - intros [= <-]. exists []. split; [reflexivity|constructor].
  - destruct (f x) as [fx|]; cbn [bind]; [|discriminate].
    destruct (mapM f l) as [rl|]; cbn [bind]; [|discriminate].
    intros [= <-]. destruct (IH rl eq_refl) as (r' & -> & Hr).
    cbn [bind]. exists (fx :: r'). split; [reflexivity|apply perm_skip, Hr].
  - destruct (f y) as [fy|]; cbn [bind]; [|discriminate].
    destruct (f x) as [fx|]; cbn [bind]; [|discriminate].
    destruct (mapM f l) as [rl|]; cbn [bind]; [|discriminate].
    intros [= <-]. exists (fx :: fy :: rl). split; [reflexivity|apply perm_swap].
  - intro E. destruct (IH1 r E) as (r1 & E1 & P1).
    destruct (IH2 r1 E1) as (r2 & E2 & P2).
    exists r2. split; [exact E2|eapply perm_trans; eassumption].
Qed.

(** X22.  The collection a load builds does not depend on the order in
    which the service lists the records, when the timestamps of the records
    admitted are valid and distinct instants: any rearrangement of the
    listing gives the same collection, record for record. *)
Theorem load_is_independent_of_listing_order (host : Host) (now : Z)
    (raws raws' : list value) (l : list Expense) :
  Permutation raws raws' ->
  mappedExpenses host now (VArr raws) = Ok l ->
  allValid host l = true ->
  NoDup (map (timeOf host) l) ->
  mappedExpenses host now (VArr raws') = Ok l.
Proof.
  intros Hp El Hv Hn. unfold mappedExpenses in *.
  destruct (mapM (normalize host now) (filter admitted raws)) as [r|] eqn:E;
    cbn [bind] in El; [|discriminate].
  injection El as <-.
  destruct (mapM_Permutation _ _ _ r (filter_Permutation admitted _ _ Hp) E)
    as (r' & -> & Hr).
  cbn [bind]. f_equal. symmetry.
  apply sort_of_Permutation; [exact Hr| |].
  - eapply allValid_Permutation; [apply sort_Permutation|exact Hv].
  - eapply Permutation_NoDup; [|exact Hn].
    apply Permutation_map, Permutation_sym, sort_Permutation.
Qed.

Lemma load_is_independent_of_listing_order_witness :
  mappedExpenses utc Sample.now (VArr [Sample.books; Sample.rent])
  = mappedExpenses utc Sample.now (VArr [Sample.rent; Sample.books]).
Proof.
  eapply (load_is_independent_of_listing_order utc Sample.now
            [Sample.rent; Sample.books] [Sample.books; Sample.rent]).
  - apply perm_swap.
  - vm_compute. reflexivity.
  - vm_compute. reflexivity.
  - vm_compute. repeat constructor; simpl; intuition discriminate.
Defined.

(** ** Category series: the legend *)

(** X23.  The category series can throw: a visible record whose category is
    truthy and not a string (the normalizer keeps any truthy category the
    service sends) makes the aggregation throw instead of returning a
    series. *)
Theorem category_series_throws_on_a_category_that_is_no_string (host : Host)
    (l : list Expense) (e : Expense) :
  In e l -> truthy (category e) = true -> (forall c, category e <> VStr c) ->
  exists msg, categoryAgg host l = Throw msg.
Proof.
  intros Hin Ht Hns.
  assert (Hthrow : exists msg, categoryKey e = Throw msg).
  { unfold categoryKey, jsOr. rewrite Ht.
    destruct (category e) as [| | | |c| |]; try (eexists; reflexivity).
    exfalso. apply (Hns c). reflexivity. }
  destruct Hthrow as [msg Hthrow].
  destruct (categoryLoop_throws host l e [] msg Hin Hthrow) as [msg' E].
  unfold categoryAgg. rewrite E. eexists. reflexivity.
Qed.

Lemma category_series_throws_on_a_category_that_is_no_string_witness :
  exists c msg,
    normalize utc Sample.now
      (VObj [("id", Sample.num 13); ("category", Sample.num 7)]) = Ok c
    /\ categoryAgg utc [c] = Throw msg.
Proof.
  eexists.
  destruct (category_series_throws_on_a_category_that_is_no_string utc
              [{| id := Sample.num 13; title := VStr "Untitled";
                  category := Sample.num 7; amount := VNum Num.zero;
                  date := VStr "2025-06-01";
                  timestamp := VStr "2025-06-01T12:00:00.000Z";
                  note := VStr EmptyString |}]
              {| id := Sample.num 13; title := VStr "Untitled";
                 category := Sample.num 7; amount := VNum Num.zero;
                 date := VStr "2025-06-01";
                 timestamp := VStr "2025-06-01T12:00:00.000Z";
                 note := VStr EmptyString |})
    as [msg E].
  - left. reflexivity.
  - reflexivity.
  - intros c. discriminate.
  - exists msg. split; [vm_compute; reflexivity|exact E].
Defined.

Lemma categoryKey_not_empty (e : Expense) (key : string) :
  categoryKey e = Ok key -> Str.isEmpty key = false.
Proof.
  unfold categoryKey. destruct (jsOr _ _); try discriminate.
  destruct (Str.isEmpty (Str.trim s)) eqn:E; intros [= <-]; [reflexivity|exact E].
Qed.

(** X24.  The legend of the category chart, on records whose category is a
    string or falsy: no label occurs twice, no label is empty, and the key
    of every visible record is one of the labels. *)
Theorem category_labels_distinct_and_not_empty (host : Host) (l : list Expense) :
  Forall textCategory l ->
  exists series,
    categoryAgg host l = Ok series
    /\ NoDup (labels series)
    /\ Forall (fun label => Str.isEmpty label = false) (labels series)
    /\ (forall e, In e l ->
                  exists key, categoryKey e = Ok key /\ In key (labels series))
    /\ List.length (labels series) = List.length (data series).
Proof.
  intro Htext.
  destruct (categoryLoop_total host l [] Htext) as [m E].
  destruct (categoryLoop_fold host l [] m E) as (keys & Hk & ->).
  eexists. unfold categoryAgg. rewrite E. cbn [bind].
  split; [reflexivity|]. cbn [labels data].
  assert (Hlen : List.length keys = List.length (map (amountOf host) l))
    by (rewrite length_map; apply (mapM_length _ _ _ Hk)).
  assert (Hlab : map fst (fold_left accumulate
                            (combine keys (map (amountOf host) l)) [])
                 = firstSeen keys).
  { rewrite keys_fold. cbn [map app]. rewrite (combine_fst _ _ Hlen).
    clear. induction (firstSeen keys) as [|k ks IH]; simpl; [reflexivity|].
    f_equal. exact IH. }
  split; [apply keys_fold_NoDup; constructor|].
  split; [|split].
  - rewrite Hlab. apply Forall_forall. intros label Hl.
    apply (proj1 (firstSeen_In _ _)) in Hl.
    apply (mapM_In _ _ _ Hk) in Hl as (e & _ & He).
    eapply categoryKey_not_empty, He.
  - intros e He. rewrite Forall_forall in Htext.
    destruct (categoryKey_total e (Htext e He)) as [key Hkey].
    exists key. split; [exact Hkey|].
    rewrite Hlab. apply (proj2 (firstSeen_In _ _)).
    apply (mapM_In _ _ _ Hk). exists e. split; assumption.
  - rewrite !length_map. reflexivity.
Qed.

Lemma category_labels_distinct_and_not_empty_witness :
  exists series,
    categoryAgg utc [Sample.food; Sample.blank; Sample.food] = Ok series
    /\ NoDup (labels series).
Proof.
  destruct (category_labels_distinct_and_not_empty utc
              [Sample.food; Sample.blank; Sample.food])
    as (series & E & Hn & _).
  - repeat (apply Forall_cons; [right; eexists; reflexivity|]).
    apply Forall_nil.
  - exists series. split; assumption.
Defined.
